(** * Solana Agent Mesh: intent coordination core

    A shallow embedding of the TypeScript sources

      - [app/src/index.ts]            (the HTTP registry: agents, model
                                       profiles, intents)
      - [app/src/mesh-controller.ts]  (the [MeshController] class)

    together with the parts of the Node.js runtime they rely on
    ([JSON.stringify], [crypto.createHash('sha256')], [Buffer]), and the
    properties of the coordination core stated over that embedding. *)

From Stdlib Require Import ZArith List String Ascii Lia.
From stdpp Require Import gmap strings list fin_maps pretty.

Local Open Scope string_scope.
Local Open Scope list_scope.
Local Open Scope Z_scope.

(* ===================================================================== *)
(** ** SHA-256 (FIPS 180-4), as computed by [crypto.createHash('sha256')] *)
(* ===================================================================== *)

Module Sha256.

(** A byte is a [Z] in [0, 256); a word is a [Z] in [0, 2^32). *)
Definition w32 (x : Z) : Z := x mod 2 ^ 32.
Definition add32 (a b : Z) : Z := w32 (a + b).

Definition rotr (n x : Z) : Z :=
  Z.lor (Z.shiftr x n) (w32 (Z.shiftl x (32 - n))).
Definition shr (n x : Z) : Z := Z.shiftr x n.

Definition Ch (x y z : Z) : Z :=
  Z.lxor (Z.land x y) (Z.land (Z.lnot x) z).
Definition Maj (x y z : Z) : Z :=
  Z.lxor (Z.lxor (Z.land x y) (Z.land x z)) (Z.land y z).
Definition Sigma0 (x : Z) : Z :=
  Z.lxor (Z.lxor (rotr 2 x) (rotr 13 x)) (rotr 22 x).
Definition Sigma1 (x : Z) : Z :=
  Z.lxor (Z.lxor (rotr 6 x) (rotr 11 x)) (rotr 25 x).
Definition sigma0 (x : Z) : Z :=
  Z.lxor (Z.lxor (rotr 7 x) (rotr 18 x)) (shr 3 x).
Definition sigma1 (x : Z) : Z :=
  Z.lxor (Z.lxor (rotr 17 x) (rotr 19 x)) (shr 10 x).

(** The constants of the standard are taken from the first primes: the
    round constants are the first 32 bits of the fractional parts of the
    cube roots of the first sixty-four primes, the initial chaining words
    those of the square roots of the first eight. *)
Definition is_prime (n : Z) : bool :=
  forallb (fun d => negb (n mod d =? 0)) (map Z.of_nat (seq 2 (Z.to_nat n - 2))).

Definition primes : list Z := filter is_prime (map Z.of_nat (seq 2 310)).

(** Integer cube root, one bit at a time from bit [k - 1] down. *)
Fixpoint cbrt_bits (k : nat) (n r : Z) : Z :=
  match k with
  | O => r
  | S k' =>
      let r' := r + 2 ^ Z.of_nat k' in
      if r' * r' * r' <=? n then cbrt_bits k' n r' else cbrt_bits k' n r
  end.

Definition frac_cbrt32 (p : Z) : Z := w32 (cbrt_bits 36 (p * 2 ^ 96) 0).
Definition frac_sqrt32 (p : Z) : Z := w32 (Z.sqrt (p * 2 ^ 64)).

Definition K : list Z := map frac_cbrt32 primes.

(** The eight chaining words. *)
Record State := mkState
  { ha : Z; hb : Z; hc : Z; hd : Z; he : Z; hf : Z; hg : Z; hh : Z }.

Definition H0 : State :=
  mkState (frac_sqrt32 2) (frac_sqrt32 3) (frac_sqrt32 5) (frac_sqrt32 7)
          (frac_sqrt32 11) (frac_sqrt32 13) (frac_sqrt32 17) (frac_sqrt32 19).

(** Message schedule: sixteen block words extended to sixty-four. *)
Definition extend1 (w : list Z) : list Z :=
  let n := length w in
  w ++ [ add32 (add32 (sigma1 (nth (n - 2) w 0)) (nth (n - 7) w 0))
               (add32 (sigma0 (nth (n - 15) w 0)) (nth (n - 16) w 0)) ].

Definition schedule (block : list Z) : list Z := Nat.iter 48 extend1 block.

Definition round (s : State) (kw : Z * Z) : State :=
  let t1 := add32 (add32 (add32 (hh s) (Sigma1 (he s)))
                         (add32 (Ch (he s) (hf s) (hg s)) (fst kw)))
                  (snd kw) in
  let t2 := add32 (Sigma0 (ha s)) (Maj (ha s) (hb s) (hc s)) in
  mkState (add32 t1 t2) (ha s) (hb s) (hc s)
          (add32 (hd s) t1) (he s) (hf s) (hg s).

Definition compress (h : State) (block : list Z) : State :=
  let s := fold_left round (combine K (schedule block)) h in
  mkState (add32 (ha h) (ha s)) (add32 (hb h) (hb s))
          (add32 (hc h) (hc s)) (add32 (hd h) (hd s))
          (add32 (he h) (he s)) (add32 (hf h) (hf s))
          (add32 (hg h) (hg s)) (add32 (hh h) (hh s)).

(** Big-endian encodings. *)
Definition be32 (x : Z) : list Z :=
  [ Z.shiftr x 24 mod 256; Z.shiftr x 16 mod 256;
    Z.shiftr x 8 mod 256; x mod 256 ].
Definition be64 (x : Z) : list Z :=
  be32 (Z.shiftr x 32 mod 2 ^ 32) ++ be32 (x mod 2 ^ 32).

Definition pad (msg : list Z) : list Z :=
  let len := Z.of_nat (length msg) in
  msg ++ [0x80] ++ repeat 0 (Z.to_nat ((55 - len) mod 64)) ++ be64 (8 * len).

Fixpoint words (bs : list Z) : list Z :=
  match bs with
  | a :: b :: c :: d :: rest =>
      (Z.shiftl a 24 + Z.shiftl b 16 + Z.shiftl c 8 + d) :: words rest
  | _ => []
  end.

(** Words are absorbed one at a time; a full buffer of sixteen is
    compressed into the chaining state. *)
Definition absorb (acc : State * list Z) (w : Z) : State * list Z :=
  let buf := snd acc ++ [w] in
  if (length buf =? 16)%nat then (compress (fst acc) buf, [])
  else (fst acc, buf).

Definition digest_state (msg : list Z) : State :=
  fst (fold_left absorb (words (pad msg)) (H0, [])).

Definition state_bytes (s : State) : list Z :=
  be32 (ha s) ++ be32 (hb s) ++ be32 (hc s) ++ be32 (hd s) ++
  be32 (he s) ++ be32 (hf s) ++ be32 (hg s) ++ be32 (hh s).

(** [createHash('sha256').update(bytes).digest()] *)
Definition sha256 (msg : list Z) : list Z := state_bytes (digest_state msg).

End Sha256.

(* ===================================================================== *)
(** ** Buffers and strings                                                *)
(* ===================================================================== *)

Module Buffer.

(** [Buffer.from(str)]: the bytes of a string.  Strings are modelled as
    byte strings, i.e. by their UTF-8 encoding. *)
Definition from_string (s : string) : list Z :=
  map (fun c => Z.of_nat (nat_of_ascii c)) (list_ascii_of_string s).

Definition hex_digit (d : Z) : ascii :=
  ascii_of_nat (Z.to_nat (if d <? 10 then 48 + d else 87 + d)).

(** [buf.toString('hex')]: two lower-case digits per byte. *)
Fixpoint to_hex (bs : list Z) : string :=
  match bs with
  | [] => ""
  | b :: rest => String (hex_digit (b / 16)) (String (hex_digit (b mod 16)) (to_hex rest))
  end.

(** [a.equals(b)]: byte-wise comparison. *)
Definition equals (a b : list Z) : bool := bool_decide (a = b).

(** [buf.writeBigUInt64LE(v)] on an 8-byte buffer: least significant
    byte first.  Node raises [ERR_OUT_OF_RANGE] outside [0, 2^64). *)
Definition writeBigUInt64LE (v : Z) : option (list Z) :=
  if (0 <=? v) && (v <? 2 ^ 64)
  then Some (map (fun i => Z.shiftr v (8 * i) mod 256) [0; 1; 2; 3; 4; 5; 6; 7])
  else None.

(** The big-endian layout ([writeBigUInt64BE]), for comparison. *)
Definition writeBigUInt64BE (v : Z) : option (list Z) :=
  if (0 <=? v) && (v <? 2 ^ 64)
  then Some (map (fun i => Z.shiftr v (8 * i) mod 256) [7; 6; 5; 4; 3; 2; 1; 0])
  else None.

(** Reading a little-endian buffer back ([readBigUInt64LE]). *)
Fixpoint readLE (bs : list Z) : Z :=
  match bs with
  | [] => 0
  | b :: rest => b + 256 * readLE rest
  end.

(** [Buffer.compare(a, b)]: lexicographic order on byte strings. *)
Fixpoint compare (a b : list Z) : comparison :=
  match a, b with
  | [], [] => Eq
  | [], _ :: _ => Lt
  | _ :: _, [] => Gt
  | x :: a', y :: b' =>
      match x ?= y with
      | Eq => compare a' b'
      | c => c
      end
  end.

End Buffer.

(* ===================================================================== *)
(** ** JavaScript values that come out of [JSON.parse]                    *)
(* ===================================================================== *)

Module Json.

(** A parsed JSON value.  Numbers are the integer-valued ones (no
    fractions, no exponents: the decimal printing below is the one
    JavaScript uses for integers of magnitude below 10^21).  The property
    list of an object is in the object's own enumeration order, which for
    keys that are not array indices is the order in which they were
    written in the parsed text.  A variable that may hold [undefined] is
    an [option value], [None] standing for [undefined]. *)
#[warnings="-register-all"]
Inductive value : Type :=
| Null
| Bool (b : bool)
| Num (n : Z)
| Str (s : string)
| Arr (items : list value)
| Obj (props : list (string * value)).

(** ToBoolean. *)
Definition truthy (v : value) : bool :=
  match v with
  | Null => false
  | Bool b => b
  | Num n => negb (n =? 0)
  | Str s => negb (String.eqb s "")
  | Arr _ => true
  | Obj _ => true
  end.

(** [x] when [x] is truthy: the value that survives an [if (!x) return]
    guard, or the left operand that [x || d] keeps. *)
Definition truthy_val (x : option value) : option value :=
  match x with
  | Some v => if truthy v then Some v else None
  | None => None
  end.

(** [x || d] *)
Definition or_else (x : option value) (d : value) : value :=
  match truthy_val x with
  | Some v => v
  | None => d
  end.

Fixpoint assoc (k : string) (props : list (string * value)) : option value :=
  match props with
  | [] => None
  | (k', v) :: rest => if String.eqb k k' then Some v else assoc k rest
  end.

(** [const { k } = body]: a property of a parsed body; [undefined] when
    the property is absent or the body is not an object. *)
Definition get (body : value) (k : string) : option value :=
  match body with
  | Obj props => assoc k props
  | _ => None
  end.

Definition dquote : string := String (ascii_of_nat 34) "".
Definition backslash : string := String (ascii_of_nat 92) "".

Definition hex_digit (d : Z) : ascii :=
  ascii_of_nat (Z.to_nat (if d <? 10 then 48 + d else 87 + d)).

(** QuoteJSONString, one code unit at a time. *)
Definition escape_char (c : ascii) : string :=
  let n := Z.of_nat (nat_of_ascii c) in
  if n =? 34 then backslash +:+ dquote
  else if n =? 92 then backslash +:+ backslash
  else if n =? 8 then backslash +:+ "b"
  else if n =? 12 then backslash +:+ "f"
  else if n =? 10 then backslash +:+ "n"
  else if n =? 13 then backslash +:+ "r"
  else if n =? 9 then backslash +:+ "t"
  else if n <? 32 then
    backslash +:+ "u00" +:+ String (hex_digit (n / 16)) (String (hex_digit (n mod 16)) "")
  else String c "".

Fixpoint escape (s : string) : string :=
  match s with
  | EmptyString => ""
  | String c rest => escape_char c +:+ escape rest
  end.

Definition quote (s : string) : string := dquote +:+ escape s +:+ dquote.

Fixpoint join (sep : string) (parts : list string) : string :=
  match parts with
  | [] => ""
  | [p] => p
  | p :: rest => p +:+ sep +:+ join sep rest
  end.

(** [JSON.stringify(v)]: no whitespace, properties in enumeration order. *)
Fixpoint stringify (v : value) : string :=
  match v with
  | Null => "null"
  | Bool true => "true"
  | Bool false => "false"
  | Num n => pretty n
  | Str s => quote s
  | Arr items => "[" +:+ join "," (List.map stringify items) +:+ "]"
  | Obj props =>
      "{" +:+ join "," (List.map (fun kv => quote (fst kv) +:+ ":" +:+ stringify (snd kv)) props) +:+ "}"
  end.

(** [String(v)], as a template literal [`${v}`] converts its holes. *)
Fixpoint to_string (v : value) : string :=
  match v with
  | Null => "null"
  | Bool true => "true"
  | Bool false => "false"
  | Num n => pretty n
  | Str s => s
  | Arr items =>
      join "," (List.map (fun x => match x with Null => "" | _ => to_string x end) items)
  | Obj _ => "[object Object]"
  end.

Definition to_string_opt (x : option value) : string :=
  match x with
  | Some v => to_string v
  | None => "undefined"
  end.

End Json.

(* ===================================================================== *)
(** ** [app/src/index.ts]: the HTTP registry                              *)
(* ===================================================================== *)

Module Api.

(** What the runtime hands to one request: the results of
    [crypto.randomUUID()], [Date.now()] and [new Date().toISOString()]. *)
Record Env := mkEnv
  { randomUUID : string;
    now : Z;
    isoNow : string }.

(** The digest both intent endpoints store:
    [crypto.createHash('sha256').update(str).digest('hex')]. *)
Definition sha256_hex (str : string) : string :=
  Buffer.to_hex (Sha256.sha256 (Buffer.from_string str)).

Module Agent.
Record t := mk
  { id : string;
    ownerWallet : Json.value;
    agentWallet : Json.value;
    modelProfile : Json.value;
    metadataUri : Json.value;
    permissions : Json.value;
    createdAt : string;
    updatedAt : option string }.

Definition set_agentWallet (v : Json.value) (a : t) : t :=
  mk (id a) (ownerWallet a) v (modelProfile a) (metadataUri a) (permissions a)
     (createdAt a) (updatedAt a).
Definition set_modelProfile (v : Json.value) (a : t) : t :=
  mk (id a) (ownerWallet a) (agentWallet a) v (metadataUri a) (permissions a)
     (createdAt a) (updatedAt a).
Definition set_metadataUri (v : Json.value) (a : t) : t :=
  mk (id a) (ownerWallet a) (agentWallet a) (modelProfile a) v (permissions a)
     (createdAt a) (updatedAt a).
Definition set_permissions (v : Json.value) (a : t) : t :=
  mk (id a) (ownerWallet a) (agentWallet a) (modelProfile a) (metadataUri a) v
     (createdAt a) (updatedAt a).
Definition set_updatedAt (ts : string) (a : t) : t :=
  mk (id a) (ownerWallet a) (agentWallet a) (modelProfile a) (metadataUri a)
     (permissions a) (createdAt a) (Some ts).
End Agent.

Module ModelProfile.
Record t := mk
  { id : string;
    ownerWallet : Json.value;
    label : Json.value;
    providerUri : Json.value;
    pricing : Json.value;
    billingWallet : Json.value;
    maxTokensPerDay : Json.value;
    maxRequestsPerMin : Json.value;
    createdAt : string;
    updatedAt : option string }.

Definition set_label (v : Json.value) (p : t) : t :=
  mk (id p) (ownerWallet p) v (providerUri p) (pricing p) (billingWallet p)
     (maxTokensPerDay p) (maxRequestsPerMin p) (createdAt p) (updatedAt p).
Definition set_providerUri (v : Json.value) (p : t) : t :=
  mk (id p) (ownerWallet p) (label p) v (pricing p) (billingWallet p)
     (maxTokensPerDay p) (maxRequestsPerMin p) (createdAt p) (updatedAt p).
Definition set_pricing (v : Json.value) (p : t) : t :=
  mk (id p) (ownerWallet p) (label p) (providerUri p) v (billingWallet p)
     (maxTokensPerDay p) (maxRequestsPerMin p) (createdAt p) (updatedAt p).
Definition set_billingWallet (v : Json.value) (p : t) : t :=
  mk (id p) (ownerWallet p) (label p) (providerUri p) (pricing p) v
     (maxTokensPerDay p) (maxRequestsPerMin p) (createdAt p) (updatedAt p).
Definition set_maxTokensPerDay (v : Json.value) (p : t) : t :=
  mk (id p) (ownerWallet p) (label p) (providerUri p) (pricing p) (billingWallet p)
     v (maxRequestsPerMin p) (createdAt p) (updatedAt p).
Definition set_maxRequestsPerMin (v : Json.value) (p : t) : t :=
  mk (id p) (ownerWallet p) (label p) (providerUri p) (pricing p) (billingWallet p)
     (maxTokensPerDay p) v (createdAt p) (updatedAt p).
Definition set_updatedAt (ts : string) (p : t) : t :=
  mk (id p) (ownerWallet p) (label p) (providerUri p) (pricing p) (billingWallet p)
     (maxTokensPerDay p) (maxRequestsPerMin p) (createdAt p) (Some ts).
End ModelProfile.

Module Intent.
(** [resultHash] and [resultUri] are [null] ([None]) or a string;
    [result] is [null] ([Json.Null]) or the reported result. *)
Record t := mk
  { id : string;
    fromAgent : Json.value;
    toAgent : Json.value;
    nonce : Z;
    status : Json.value;
    payloadHash : string;
    payloadUri : string;
    payload : Json.value;
    paymentAmount : Json.value;
    paymentMint : Json.value;
    resultHash : option string;
    resultUri : option string;
    result : Json.value;
    createdAt : string;
    updatedAt : option string }.

Definition set_status (v : Json.value) (i : t) : t :=
  mk (id i) (fromAgent i) (toAgent i) (nonce i) v (payloadHash i) (payloadUri i)
     (payload i) (paymentAmount i) (paymentMint i) (resultHash i) (resultUri i)
     (result i) (createdAt i) (updatedAt i).
Definition set_result (v : Json.value) (i : t) : t :=
  mk (id i) (fromAgent i) (toAgent i) (nonce i) (status i) (payloadHash i) (payloadUri i)
     (payload i) (paymentAmount i) (paymentMint i) (resultHash i) (resultUri i)
     v (createdAt i) (updatedAt i).
Definition set_resultHash (h : string) (i : t) : t :=
  mk (id i) (fromAgent i) (toAgent i) (nonce i) (status i) (payloadHash i) (payloadUri i)
     (payload i) (paymentAmount i) (paymentMint i) (Some h) (resultUri i)
     (result i) (createdAt i) (updatedAt i).
Definition set_resultUri (u : string) (i : t) : t :=
  mk (id i) (fromAgent i) (toAgent i) (nonce i) (status i) (payloadHash i) (payloadUri i)
     (payload i) (paymentAmount i) (paymentMint i) (resultHash i) (Some u)
     (result i) (createdAt i) (updatedAt i).
Definition set_updatedAt (ts : string) (i : t) : t :=
  mk (id i) (fromAgent i) (toAgent i) (nonce i) (status i) (payloadHash i) (payloadUri i)
     (payload i) (paymentAmount i) (paymentMint i) (resultHash i) (resultUri i)
     (result i) (createdAt i) (Some ts).
End Intent.

(** The three in-memory maps of the module. *)
Record Store := mkStore
  { agents : gmap string Agent.t;
    modelProfiles : gmap string ModelProfile.t;
    intents : gmap string Intent.t }.

Definition empty_store : Store := mkStore ∅ ∅ ∅.

Definition set_agents (m : gmap string Agent.t) (st : Store) : Store :=
  mkStore m (modelProfiles st) (intents st).
Definition set_modelProfiles (m : gmap string ModelProfile.t) (st : Store) : Store :=
  mkStore (agents st) m (intents st).
Definition set_intents (m : gmap string Intent.t) (st : Store) : Store :=
  mkStore (agents st) (modelProfiles st) m.

(** What a handler sends: [res.status(code).json(body)]. *)
Inductive Body : Type :=
| ErrorBody (error : string)
| AgentBody (agent : Agent.t)
| ProfileBody (profile : ModelProfile.t)
| IntentBody (intent : Intent.t)
| DemoBody (agents : list Agent.t) (profiles : list ModelProfile.t).

Record Response := mkResponse
  { code : Z;
    body : Body }.

(** [if (x) obj.field = x] *)
Definition assign_if_truthy {A : Type} (x : option Json.value)
    (set : Json.value -> A -> A) (obj : A) : A :=
  match Json.truthy_val x with
  | Some v => set v obj
  | None => obj
  end.

(** [if (x !== undefined) obj.field = x] *)
Definition assign_if_defined {A : Type} (x : option Json.value)
    (set : Json.value -> A -> A) (obj : A) : A :=
  match x with
  | Some v => set v obj
  | None => obj
  end.

(** POST /api/agents *)
Definition post_agents (env : Env) (req : Json.value) (st : Store) : Response * Store :=
  let modelProfile := Json.get req "modelProfile" in
  let metadataUri := Json.get req "metadataUri" in
  let permissions := Json.get req "permissions" in
  match Json.truthy_val (Json.get req "ownerWallet"),
        Json.truthy_val (Json.get req "agentWallet") with
  | Some ownerWallet, Some agentWallet =>
      let agentId := randomUUID env in
      let agent :=
        Agent.mk agentId ownerWallet agentWallet
                 (Json.or_else modelProfile Json.Null)
                 (Json.or_else metadataUri (Json.Str ""))
                 (Json.or_else permissions (Json.Num 0))
                 (isoNow env) None in
      (mkResponse 201 (AgentBody agent), set_agents (<[agentId := agent]> (agents st)) st)
  | _, _ => (mkResponse 400 (ErrorBody "ownerWallet and agentWallet required"), st)
  end.

(** PUT /api/agents/:id *)
Definition put_agent (env : Env) (id : string) (req : Json.value) (st : Store)
    : Response * Store :=
  match agents st !! id with
  | None => (mkResponse 404 (ErrorBody "Agent not found"), st)
  | Some agent =>
      let agent := assign_if_truthy (Json.get req "agentWallet") Agent.set_agentWallet agent in
      let agent := assign_if_truthy (Json.get req "modelProfile") Agent.set_modelProfile agent in
      let agent := assign_if_truthy (Json.get req "metadataUri") Agent.set_metadataUri agent in
      let agent := assign_if_defined (Json.get req "permissions") Agent.set_permissions agent in
      let agent := Agent.set_updatedAt (isoNow env) agent in
      (mkResponse 200 (AgentBody agent), set_agents (<[id := agent]> (agents st)) st)
  end.

(** POST /api/model-profiles *)
Definition post_model_profiles (env : Env) (req : Json.value) (st : Store)
    : Response * Store :=
  match Json.truthy_val (Json.get req "ownerWallet"),
        Json.truthy_val (Json.get req "label"),
        Json.truthy_val (Json.get req "providerUri") with
  | Some ownerWallet, Some label, Some providerUri =>
      let profileId := randomUUID env in
      let profile :=
        ModelProfile.mk profileId ownerWallet label providerUri
          (Json.or_else (Json.get req "pricing") (Json.Num 0))
          (Json.or_else (Json.get req "billingWallet") ownerWallet)
          (Json.or_else (Json.get req "maxTokensPerDay") (Json.Num 1000000))
          (Json.or_else (Json.get req "maxRequestsPerMin") (Json.Num 60))
          (isoNow env) None in
      (mkResponse 201 (ProfileBody profile),
       set_modelProfiles (<[profileId := profile]> (modelProfiles st)) st)
  | _, _, _ =>
      (mkResponse 400 (ErrorBody "ownerWallet, label, and providerUri required"), st)
  end.

(** PUT /api/model-profiles/:id *)
Definition put_model_profile (env : Env) (id : string) (req : Json.value) (st : Store)
    : Response * Store :=
  match modelProfiles st !! id with
  | None => (mkResponse 404 (ErrorBody "Model profile not found"), st)
  | Some profile =>
      let profile := assign_if_truthy (Json.get req "label") ModelProfile.set_label profile in
      let profile :=
        assign_if_truthy (Json.get req "providerUri") ModelProfile.set_providerUri profile in
      let profile :=
        assign_if_defined (Json.get req "pricing") ModelProfile.set_pricing profile in
      let profile :=
        assign_if_truthy (Json.get req "billingWallet") ModelProfile.set_billingWallet profile in
      let profile :=
        assign_if_truthy (Json.get req "maxTokensPerDay") ModelProfile.set_maxTokensPerDay profile in
      let profile :=
        assign_if_truthy (Json.get req "maxRequestsPerMin") ModelProfile.set_maxRequestsPerMin
                         profile in
      let profile := ModelProfile.set_updatedAt (isoNow env) profile in
      (mkResponse 200 (ProfileBody profile),
       set_modelProfiles (<[id := profile]> (modelProfiles st)) st)
  end.

(** POST /api/intents *)
Definition post_intents (env : Env) (req : Json.value) (st : Store) : Response * Store :=
  match Json.truthy_val (Json.get req "fromAgent"),
        Json.truthy_val (Json.get req "toAgent"),
        Json.truthy_val (Json.get req "payload") with
  | Some fromAgent, Some toAgent, Some payload =>
      let intentId := randomUUID env in
      let payloadStr := Json.stringify payload in
      let payloadHash := sha256_hex payloadStr in
      let payloadUri := "https://mesh.example.com/payloads/" +:+ intentId in
      let intent :=
        Intent.mk intentId fromAgent toAgent (now env) (Json.Str "pending")
          payloadHash payloadUri payload
          (Json.or_else (Json.get req "paymentAmount") (Json.Num 0))
          (Json.or_else (Json.get req "paymentMint")
                        (Json.Str "EPjFWdd5AufqSSqeM2qN1xzybapC8G4wEGGkZwyTDt1v"))
          None None Json.Null (isoNow env) None in
      (mkResponse 201 (IntentBody intent), set_intents (<[intentId := intent]> (intents st)) st)
  | _, _, _ => (mkResponse 400 (ErrorBody "fromAgent, toAgent, and payload required"), st)
  end.

(** GET /api/intents/:id *)
Definition get_intent (id : string) (st : Store) : Response :=
  match intents st !! id with
  | None => mkResponse 404 (ErrorBody "Intent not found")
  | Some intent => mkResponse 200 (IntentBody intent)
  end.

(** The body of [if (result) { ... }] in the status endpoint, run to its
    end; [Server.put_intent_status] below stops it where
    [JSON.stringify] throws. *)
Definition record_result (result : Json.value) (intent : Intent.t) : Intent.t :=
  let intent := Intent.set_result result intent in
  let resultStr := Json.stringify result in
  let intent := Intent.set_resultHash (sha256_hex resultStr) intent in
  Intent.set_resultUri ("https://mesh.example.com/results/" +:+ Intent.id intent) intent.

(** PUT /api/intents/:id/status *)
Definition put_intent_status (env : Env) (id : string) (req : Json.value) (st : Store)
    : Response * Store :=
  match intents st !! id with
  | None => (mkResponse 404 (ErrorBody "Intent not found"), st)
  | Some intent =>
      match Json.truthy_val (Json.get req "status") with
      | None => (mkResponse 400 (ErrorBody "status required"), st)
      | Some status =>
          let intent := Intent.set_status status intent in
          let intent := assign_if_truthy (Json.get req "result") record_result intent in
          let intent := Intent.set_updatedAt (isoNow env) intent in
          (mkResponse 200 (IntentBody intent), set_intents (<[id := intent]> (intents st)) st)
      end
  end.

(** POST /api/demo/setup *)
Definition demo_setup (env : Env) (st : Store) : Response * Store :=
  let researchAgent :=
    Agent.mk "research-agent-1"
      (Json.Str "Demo11111111111111111111111111111111111111")
      (Json.Str "ResearchWallet1111111111111111111111111111")
      (Json.Str "cheap-llm-profile")
      (Json.Str "https://mesh.example.com/agents/research.json")
      (Json.Num 8) (isoNow env) None in
  let executionAgent :=
    Agent.mk "execution-agent-1"
      (Json.Str "Demo11111111111111111111111111111111111111")
      (Json.Str "ExecutionWallet11111111111111111111111111")
      (Json.Str "high-accuracy-profile")
      (Json.Str "https://mesh.example.com/agents/execution.json")
      (Json.Num (Z.lor (Z.lor 1 2) 16)) (isoNow env) None in
  let cheapProfile :=
    ModelProfile.mk "cheap-llm-profile"
      (Json.Str "Demo11111111111111111111111111111111111111")
      (Json.Str "cheap-llm")
      (Json.Str "https://mesh-gateway.example.com/cheap")
      (Json.Num 100)
      (Json.Str "Billing1111111111111111111111111111111111")
      (Json.Num 10000000) (Json.Num 100) (isoNow env) None in
  let accurateProfile :=
    ModelProfile.mk "high-accuracy-profile"
      (Json.Str "Demo11111111111111111111111111111111111111")
      (Json.Str "high-accuracy-llm")
      (Json.Str "https://mesh-gateway.example.com/accurate")
      (Json.Num 1000)
      (Json.Str "Billing1111111111111111111111111111111111")
      (Json.Num 1000000) (Json.Num 30) (isoNow env) None in
  (mkResponse 200 (DemoBody [researchAgent; executionAgent] [cheapProfile; accurateProfile]),
   mkStore (<[Agent.id executionAgent := executionAgent]>
              (<[Agent.id researchAgent := researchAgent]> (agents st)))
           (<[ModelProfile.id accurateProfile := accurateProfile]>
              (<[ModelProfile.id cheapProfile := cheapProfile]> (modelProfiles st)))
           (intents st)).

(** One state-changing request to the server.  The handlers of this
    module are the handlers as they run when every [JSON.stringify] and
    [res.json] returns; [Server] below adds the runs in which one
    throws. *)
Inductive Request : Type :=
| PostAgents (req : Json.value)
| PutAgent (id : string) (req : Json.value)
| PostModelProfiles (req : Json.value)
| PutModelProfile (id : string) (req : Json.value)
| PostIntents (req : Json.value)
| PutIntentStatus (id : string) (req : Json.value)
| DemoSetup.

Definition handle (env : Env) (r : Request) (st : Store) : Response * Store :=
  match r with
  | PostAgents req => post_agents env req st
  | PutAgent id req => put_agent env id req st
  | PostModelProfiles req => post_model_profiles env req st
  | PutModelProfile id req => put_model_profile env id req st
  | PostIntents req => post_intents env req st
  | PutIntentStatus id req => put_intent_status env id req st
  | DemoSetup => demo_setup env st
  end.

(** The stores the server can be in while no serialization throws: it
    starts with empty maps and handles requests one at a time. *)
Inductive reachable : Store -> Prop :=
| reachable_start : reachable empty_store
| reachable_step st env r :
    reachable st -> reachable (snd (handle env r st)).

(** A sequence of requests, each with what the runtime handed to it. *)
Fixpoint run (rs : list (Env * Request)) (st : Store) : Store :=
  match rs with
  | [] => st
  | (env, r) :: rest => run rest (snd (handle env r st))
  end.

(** GET /api/agents/:id *)
Definition get_agent (id : string) (st : Store) : Response :=
  match agents st !! id with
  | None => mkResponse 404 (ErrorBody "Agent not found")
  | Some agent => mkResponse 200 (AgentBody agent)
  end.

(** GET /api/model-profiles/:id *)
Definition get_model_profile (id : string) (st : Store) : Response :=
  match modelProfiles st !! id with
  | None => mkResponse 404 (ErrorBody "Model profile not found")
  | Some profile => mkResponse 200 (ProfileBody profile)
  end.

(** [a === b] for two values that come out of different parses:
    primitives compare by value, arrays and objects are distinct
    references and never equal. *)
Definition strict_eq (a b : Json.value) : bool :=
  match a, b with
  | Json.Null, Json.Null => true
  | Json.Bool x, Json.Bool y => Bool.eqb x y
  | Json.Num x, Json.Num y => x =? y
  | Json.Str x, Json.Str y => String.eqb x y
  | _, _ => false
  end.

(** [if (q) { list = list.filter((i) => i.field === q); }] *)
Definition filter_by (q : option Json.value) (field : Intent.t -> Json.value)
    (intentList : list Intent.t) : list Intent.t :=
  match Json.truthy_val q with
  | Some v => List.filter (fun i => strict_eq (field i) v) intentList
  | None => intentList
  end.

Record IntentList := mkIntentList
  { listed : list Intent.t;
    count : Z }.

(** GET /api/intents, [query] being the parsed query string.  The store
    does not keep the insertion order of the map, so the listing is
    modelled up to the order of its entries. *)
Definition list_intents (query : Json.value) (st : Store) : IntentList :=
  let intentList := List.map snd (map_to_list (intents st)) in
  let intentList := filter_by (Json.get query "fromAgent") Intent.fromAgent intentList in
  let intentList := filter_by (Json.get query "toAgent") Intent.toAgent intentList in
  let intentList := filter_by (Json.get query "status") Intent.status intentList in
  mkIntentList intentList (Z.of_nat (length intentList)).

(** [s.split(sep)] for a one-character separator. *)
Fixpoint split_on (sep : ascii) (s : string) : list string :=
  match s with
  | EmptyString => [EmptyString]
  | String c rest =>
      if Ascii.eqb c sep then EmptyString :: split_on sep rest
      else match split_on sep rest with
           | piece :: pieces => String c piece :: pieces
           | [] => [String c EmptyString]
           end
  end.

(** [s.substring(0, n)], for a string of one-byte characters: the bytes
    of the model are then the code units that [substring] counts. *)
Fixpoint prefix_of (n : nat) (s : string) : string :=
  match n, s with
  | S n', String c rest => String c (prefix_of n' rest)
  | _, _ => EmptyString
  end.

Record LlmReply := mkLlmReply
  { reply_profileId : string;
    reply_model : Json.value;
    reply_prompt : string;
    reply_response : string;
    reply_tokens : Z;
    reply_timestamp : string }.

Inductive LlmResult : Type :=
| LlmRejected (code : Z) (error : string)
| LlmReplied (reply : LlmReply)
| LlmThrows.

(** POST /api/llm/call.  A truthy prompt that is not a string has no
    [substring]: the handler throws and sends nothing ([LlmThrows]).
    [LlmReplied] holds the object that the handler hands to [res.json].
    Prompts are strings of one-byte characters. *)
Definition llm_call (env : Env) (req : Json.value) (st : Store) : LlmResult :=
  match Json.truthy_val (Json.get req "prompt") with
  | None => LlmRejected 400 "prompt required"
  | Some (Json.Str prompt) =>
      let profile :=
        match Json.truthy_val (Json.get req "profileId") with
        | Some (Json.Str profileId) => modelProfiles st !! profileId
        | _ => None
        end in
      LlmReplied
        (mkLlmReply
           (match profile with
            | Some p => if String.eqb (ModelProfile.id p) "" then "default"
                        else ModelProfile.id p
            | None => "default"
            end)
           (match profile with
            | Some p => Json.or_else (Some (ModelProfile.label p)) (Json.Str "mock-model")
            | None => Json.Str "mock-model"
            end)
           (prefix_of 100 prompt)
           ("[Mock LLM Response] Processed: " +:+ Json.dquote +:+ prefix_of 50 prompt +:+
            "..." +:+ Json.dquote)
           (Z.of_nat (length (split_on " "%char prompt)) * 2)
           (isoNow env))
  | Some _ => LlmThrows
  end.

(** An intent field passes a query filter: the filter is absent or
    falsy, or the field is strictly equal to the value asked for. *)
Definition passes (q : option Json.value) (v : Json.value) : Prop :=
  match Json.truthy_val q with
  | Some w => strict_eq v w = true
  | None => True
  end.

(** The number of occurrences of a character in a string. *)
Fixpoint occurrences (c : ascii) (s : string) : nat :=
  match s with
  | EmptyString => O
  | String c' rest => if Ascii.eqb c' c then S (occurrences c rest) else occurrences c rest
  end.

(** What every stored record keeps: it sits under its own id, and the
    fields its creation required are still truthy; an intent also keeps
    the digest and the locator of the payload it was created with. *)
Definition agent_wf (k : string) (a : Agent.t) : Prop :=
  Agent.id a = k /\
  Json.truthy (Agent.ownerWallet a) = true /\
  Json.truthy (Agent.agentWallet a) = true.

Definition profile_wf (k : string) (p : ModelProfile.t) : Prop :=
  ModelProfile.id p = k /\
  Json.truthy (ModelProfile.ownerWallet p) = true /\
  Json.truthy (ModelProfile.label p) = true /\
  Json.truthy (ModelProfile.providerUri p) = true /\
  Json.truthy (ModelProfile.billingWallet p) = true /\
  Json.truthy (ModelProfile.maxTokensPerDay p) = true /\
  Json.truthy (ModelProfile.maxRequestsPerMin p) = true.

Definition intent_wf (k : string) (i : Intent.t) : Prop :=
  Intent.id i = k /\
  Json.truthy (Intent.fromAgent i) = true /\
  Json.truthy (Intent.toAgent i) = true /\
  Json.truthy (Intent.payload i) = true /\
  Json.truthy (Intent.status i) = true /\
  Intent.payloadHash i = sha256_hex (Json.stringify (Intent.payload i)) /\
  Intent.payloadUri i = "https://mesh.example.com/payloads/" +:+ k.

Definition store_wf (st : Store) : Prop :=
  map_Forall agent_wf (agents st) /\
  map_Forall profile_wf (modelProfiles st) /\
  map_Forall intent_wf (intents st).

End Api.

(* ===================================================================== *)
(** ** [app/src/mesh-controller.ts]: the [MeshController]                 *)
(* ===================================================================== *)

Module Mesh.

(** *** Effects: exceptions, and a trace of what leaves the process *)

Inductive Exn : Type :=
| Error (message : string)
| TypeError (message : string)
| AxiosError (uri : string).

Inductive Outcome (A : Type) : Type :=
| Returned (a : A)
| Thrown (e : Exn).
Arguments Returned {A} a.
Arguments Thrown {A} e.

Inductive Event : Type :=
| ConsoleLog (line : string)
| HttpGet (uri : string)
| LlmCall (provider : string) (prompt : Json.value).

(** A method body: it runs on the objects it can reach ([S]), returns
    or throws, and leaves a trace of events in program order. *)
Definition M (S A : Type) : Type := S -> Outcome A * S * list Event.

Definition ret {S A : Type} (a : A) : M S A := fun s => (Returned a, s, []).

Definition throw {S A : Type} (e : Exn) : M S A := fun s => (Thrown e, s, []).

Definition bind {S A B : Type} (m : M S A) (k : A -> M S B) : M S B :=
  fun s =>
    match m s with
    | (Returned a, s1, t1) =>
        match k a s1 with
        | (r, s2, t2) => (r, s2, t1 ++ t2)
        end
    | (Thrown e, s1, t1) => (Thrown e, s1, t1)
    end.

Definition emit {S : Type} (ev : Event) : M S unit := fun s => (Returned tt, s, [ev]).

Definition gets {S A : Type} (f : S -> A) : M S A := fun s => (Returned (f s), s, []).

Definition lift {S A : Type} (r : Outcome A) : M S A := fun s => (r, s, []).

Notation "x <- m ;; k" := (bind m (fun x => k))
  (at level 100, m at next level, right associativity).
Notation "m ;;; k" := (bind m (fun _ => k))
  (at level 100, right associativity).

Definition outcome {S A : Type} (r : Outcome A * S * list Event) : Outcome A := fst (fst r).
Definition final {S A : Type} (r : Outcome A * S * list Event) : S := snd (fst r).
Definition trace {S A : Type} (r : Outcome A * S * list Event) : list Event := snd r.

Definition is_llm_call (ev : Event) : bool :=
  match ev with
  | LlmCall _ _ => true
  | _ => false
  end.

(** What lies outside the process: positive when it would touch the
    network or a backend (console output does not). *)
Definition is_external_call (ev : Event) : bool :=
  match ev with
  | ConsoleLog _ => false
  | HttpGet _ => true
  | LlmCall _ _ => true
  end.

(** No event of the trace leaves the process. *)
Definition no_external_call (t : list Event) : Prop :=
  forallb (fun ev => negb (is_external_call ev)) t = true.

(** No event of the trace is a call of a language-model backend. *)
Definition no_llm_call (t : list Event) : Prop :=
  forallb (fun ev => negb (is_llm_call ev)) t = true.

(** *** Numbers *)

(** ToInt32, for integer-valued numbers. *)
Definition to_int32 (x : Z) : Z :=
  let m := x mod 2 ^ 32 in
  if m <? 2 ^ 31 then m else m - 2 ^ 32.

(** [a & b] *)
Definition bit_and (a b : Z) : Z := Z.land (to_int32 a) (to_int32 b).

(** [a << b] *)
Definition shift_left (a b : Z) : Z := to_int32 (Z.shiftl (to_int32 a) (b mod 32)).

(** Permission flags matching on-chain. *)
Module Permission.
Definition CAN_SWAP : Z := shift_left 1 0.
Definition CAN_TRANSFER : Z := shift_left 1 1.
Definition CAN_VOTE : Z := shift_left 1 2.
Definition CAN_CREATE_INTENT : Z := shift_left 1 3.
Definition CAN_ACCEPT_INTENT : Z := shift_left 1 4.
End Permission.

Inductive IntentStatus : Type :=
| Pending
| Accepted
| Completed
| Failed.

(** [interface LLMProvider]: [call] resolves to text or rejects. *)
Record LLMProvider := mkLLMProvider
  { name : string;
    call : Json.value -> Outcome string }.

(** What the world answers during one method call: the response data of
    [axios.get(uri)] (or a failed request), and [Date.now()]. *)
Record World := mkWorld
  { axios_get : string -> option Json.value;
    date_now : Z }.

Section Controller.

(** [PublicKey] of [@solana/web3.js]. *)
Context {PublicKey : Type}.
Context (toBase58 : PublicKey -> string).
Context (toBuffer : PublicKey -> list Z).
(** [PublicKey.findProgramAddressSync(seeds, programId)]; it throws when
    no valid address exists for the seeds. *)
Context (findProgramAddressSync : list (list Z) -> PublicKey -> option (PublicKey * Z)).
Context (PROGRAM_ID : PublicKey).

Record AgentConfig := mkAgentConfig
  { ownerWallet : PublicKey;
    agentWallet : PublicKey;
    modelProfile : PublicKey;
    metadataUri : string;
    permissions : Z }.

Record IntentData := mkIntentData
  { fromAgent : PublicKey;
    toAgent : PublicKey;
    nonce : Z;
    status : IntentStatus;
    payloadHash : list Z;
    payloadUri : string;
    paymentAmount : Z;
    paymentMint : PublicKey;
    resultHash : list Z;
    resultUri : string }.

(** The controller's own maps that the modelled methods read. *)
Record Controller := mkController
  { llmProviders : gmap string LLMProvider }.

(** The objects [processIntent] holds references to. *)
Record Heap := mkHeap
  { this : Controller;
    intent : IntentData }.

Definition registerLLMProvider (profilePubkey : string) (provider : LLMProvider)
    : M Controller unit :=
  fun c =>
    (Returned tt,
     mkController (<[profilePubkey := provider]> (llmProviders c)),
     [ConsoleLog ("[Mesh] Registered LLM provider " +:+ name provider +:+
                  " for profile " +:+ profilePubkey)]).

Definition getAgentPDA (owner : PublicKey) : option (PublicKey * Z) :=
  findProgramAddressSync [Buffer.from_string "agent"; toBuffer owner] PROGRAM_ID.

Definition getModelProfilePDA (owner : PublicKey) (profileId : list Z)
    : option (PublicKey * Z) :=
  findProgramAddressSync
    [Buffer.from_string "model_profile"; toBuffer owner; profileId] PROGRAM_ID.

(** The seed list [getIntentPDA] hands to the derivation. *)
Definition intent_seeds (from to : PublicKey) (nonce : Z) : option (list (list Z)) :=
  match Buffer.writeBigUInt64LE nonce with
  | Some nonceBuffer =>
      Some [Buffer.from_string "intent"; toBuffer from; toBuffer to; nonceBuffer]
  | None => None
  end.

Definition getIntentPDA (from to : PublicKey) (nonce : Z) : option (PublicKey * Z) :=
  match intent_seeds from to nonce with
  | Some seeds => findProgramAddressSync seeds PROGRAM_ID
  | None => None
  end.

(** The digest taken over a payload body:
    [crypto.createHash('sha256').update(JSON.stringify(payload)).digest()]. *)
Definition payload_digest (payload : Json.value) : list Z :=
  Sha256.sha256 (Buffer.from_string (Json.stringify payload)).

(** [payload.prompt || JSON.stringify(payload)] *)
Definition prompt_of (payload : Json.value) : Outcome Json.value :=
  match payload with
  | Json.Null => Thrown (TypeError "Cannot read properties of null (reading 'prompt')")
  | _ => Returned (Json.or_else (Json.get payload "prompt")
                                (Json.Str (Json.stringify payload)))
  end.

Definition processIntent (w : World) (agentConfig : AgentConfig)
    : M Heap (list Z * string) :=
  intent <- gets intent ;;
  emit (HttpGet (payloadUri intent)) ;;;
  match axios_get w (payloadUri intent) with
  | None => throw (AxiosError (payloadUri intent))
  | Some payload =>
      let computedHash := payload_digest payload in
      if negb (Buffer.equals computedHash (payloadHash intent))
      then throw (Error "Payload hash mismatch")
      else
        providers <- gets (fun h => llmProviders (this h)) ;;
        match providers !! toBase58 (modelProfile agentConfig) with
        | None => throw (Error "No LLM provider configured for model profile")
        | Some llmProvider =>
            emit (ConsoleLog ("[Mesh] Processing intent with LLM provider " +:+
                              name llmProvider)) ;;;
            prompt <- lift (prompt_of payload) ;;
            emit (LlmCall (name llmProvider) prompt) ;;;
            result <- lift (call llmProvider prompt) ;;
            let resultData :=
              Json.Obj [("input", payload); ("output", Json.Str result);
                        ("timestamp", Json.Num (date_now w))] in
            let resultHash := Sha256.sha256 (Buffer.from_string (Json.stringify resultData)) in
            let resultUri := "https://mesh.example.com/results/" +:+ Buffer.to_hex resultHash in
            ret (resultHash, resultUri)
        end
  end.

(** [params.k] inside a template literal. *)
Definition param (params : Json.value) (k : string) : Outcome string :=
  match params with
  | Json.Null => Thrown (TypeError ("Cannot read properties of null (reading '" +:+ k +:+ "')"))
  | _ => Returned (Json.to_string_opt (Json.get params k))
  end.

Definition executeAction {S : Type} (agentConfig : AgentConfig) (action : string)
    (params : Json.value) : M S string :=
  emit (ConsoleLog ("[Mesh] Executing action " +:+ action +:+ " for agent " +:+
                    toBase58 (agentWallet agentConfig))) ;;;
  if String.eqb action "swap"
     && (bit_and (permissions agentConfig) Permission.CAN_SWAP =? 0)
  then throw (Error "Agent does not have CAN_SWAP permission")
  else if String.eqb action "transfer"
          && (bit_and (permissions agentConfig) Permission.CAN_TRANSFER =? 0)
  then throw (Error "Agent does not have CAN_TRANSFER permission")
  else if String.eqb action "swap" then
    inputMint <- lift (param params "inputMint") ;;
    outputMint <- lift (param params "outputMint") ;;
    amount <- lift (param params "amount") ;;
    emit (ConsoleLog ("[Mesh] Would execute swap: " +:+ inputMint +:+ " -> " +:+
                      outputMint +:+ ", amount: " +:+ amount)) ;;;
    ret "simulated-swap-tx-signature"
  else if String.eqb action "transfer" then
    amount <- lift (param params "amount") ;;
    destination <- lift (param params "destination") ;;
    emit (ConsoleLog ("[Mesh] Would execute transfer: " +:+ amount +:+ " to " +:+
                      destination)) ;;;
    ret "simulated-transfer-tx-signature"
  else throw (Error ("Unknown action: " +:+ action)).

End Controller.

Section Seeds.

Context {PublicKey : Type}.
Context (toBuffer : PublicKey -> list Z).

(** The seed lists [getAgentPDA] and [getModelProfilePDA] hand to the
    derivation. *)
Definition agent_seeds (owner : PublicKey) : list (list Z) :=
  [Buffer.from_string "agent"; toBuffer owner].

Definition model_profile_seeds (owner : PublicKey) (profileId : list Z) : list (list Z) :=
  [Buffer.from_string "model_profile"; toBuffer owner; profileId].

End Seeds.

End Mesh.

(* ===================================================================== *)
(** ** Reading a serialization back                                       *)
(* ===================================================================== *)

Module JsonText.

Definition code (c : ascii) : Z := Z.of_nat (nat_of_ascii c).

Definition is_digit (c : ascii) : bool := (48 <=? code c) && (code c <=? 57).

Fixpoint all_digits (s : string) : bool :=
  match s with
  | EmptyString => true
  | String c rest => is_digit c && all_digits rest
  end.

(** What may follow a serialized value inside a serialization: nothing,
    or one of [,], []] and [}]. *)
Definition closes (r : string) : bool :=
  match r with
  | EmptyString => true
  | String c _ => (code c =? 44) || (code c =? 93) || (code c =? 125)
  end.

Definition no_digit_head (r : string) : bool :=
  match r with
  | EmptyString => true
  | String c _ => negb (is_digit c) && negb (code c =? 45)
  end.

Inductive kind : Type := KNull | KTrue | KFalse | KNum | KStr | KArr | KObj.

Definition kind_of (v : Json.value) : kind :=
  match v with
  | Json.Null => KNull
  | Json.Bool true => KTrue
  | Json.Bool false => KFalse
  | Json.Num _ => KNum
  | Json.Str _ => KStr
  | Json.Arr _ => KArr
  | Json.Obj _ => KObj
  end.

(** The kind of value that a first character announces. *)
Definition kind_of_head (s : string) : option kind :=
  match s with
  | EmptyString => None
  | String c _ =>
      let n := code c in
      if n =? 110 then Some KNull
      else if n =? 116 then Some KTrue
      else if n =? 102 then Some KFalse
      else if (n =? 45) || is_digit c then Some KNum
      else if n =? 34 then Some KStr
      else if n =? 91 then Some KArr
      else if n =? 123 then Some KObj
      else None
  end.

Definition hex_value (c : ascii) : option Z :=
  let n := code c in
  if (48 <=? n) && (n <=? 57) then Some (n - 48)
  else if (97 <=? n) && (n <=? 102) then Some (n - 87)
  else None.

(** Reading back one character of an escaped string: the inverse of
    [Json.escape_char]; a closing quote reads as nothing. *)
Definition unescape_char (s : string) : option (ascii * string) :=
  match s with
  | EmptyString => None
  | String c r =>
      if code c =? 92 then
        match r with
        | EmptyString => None
        | String e r' =>
            let n := code e in
            if n =? 34 then Some (ascii_of_nat 34, r')
            else if n =? 92 then Some (ascii_of_nat 92, r')
            else if n =? 98 then Some (ascii_of_nat 8, r')
            else if n =? 102 then Some (ascii_of_nat 12, r')
            else if n =? 110 then Some (ascii_of_nat 10, r')
            else if n =? 114 then Some (ascii_of_nat 13, r')
            else if n =? 116 then Some (ascii_of_nat 9, r')
            else if n =? 117 then
              match r' with
              | String _ (String _ (String x (String y r''))) =>
                  match hex_value x, hex_value y with
                  | Some hx, Some hy => Some (ascii_of_nat (Z.to_nat (16 * hx + hy)), r'')
                  | _, _ => None
                  end
              | _ => None
              end
            else None
        end
      else if code c =? 34 then None
      else Some (c, r)
  end.

Section Induction.

Variable P : Json.value -> Prop.
Hypothesis HNull : P Json.Null.
Hypothesis HBool : forall b, P (Json.Bool b).
Hypothesis HNum : forall n, P (Json.Num n).
Hypothesis HStr : forall s, P (Json.Str s).
Hypothesis HArr : forall items, Forall P items -> P (Json.Arr items).
Hypothesis HObj : forall props, Forall (fun kv => P (snd kv)) props -> P (Json.Obj props).

(** Induction on parsed values, through the lists they nest. *)
Fixpoint value_induction (v : Json.value) : P v :=
  match v with
  | Json.Null => HNull
  | Json.Bool b => HBool b
  | Json.Num n => HNum n
  | Json.Str s => HStr s
  | Json.Arr items =>
      HArr items
        ((fix go (l : list Json.value) : Forall P l :=
            match l with
            | [] => @List.Forall_nil _ P
            | x :: l' => @List.Forall_cons _ P x l' (value_induction x) (go l')
            end) items)
  | Json.Obj props =>
      HObj props
        ((fix go (l : list (string * Json.value)) : Forall (fun kv => P (snd kv)) l :=
            match l with
            | [] => @List.Forall_nil _ _
            | kv :: l' => @List.Forall_cons _ _ kv l' (value_induction (snd kv)) (go l')
            end) props)
  end.

End Induction.

(** One member of a serialized object. *)
Definition member (kv : string * Json.value) : string :=
  Json.quote (fst kv) +:+ ":" +:+ Json.stringify (snd kv).

(** A value is read back from the front of any text that continues with
    a closing character. *)
Definition reads_back (v : Json.value) : Prop :=
  forall v' r r',
    closes r = true -> closes r' = true ->
    Json.stringify v +:+ r = Json.stringify v' +:+ r' -> v = v' /\ r = r'.

(** [Number.isSafeInteger] of every number in a value: the numbers that
    [Json.stringify] prints as JavaScript does. *)
Fixpoint safe_integers (v : Json.value) : bool :=
  match v with
  | Json.Num n => Z.abs n <=? 9007199254740991
  | Json.Arr items => forallb safe_integers items
  | Json.Obj props => forallb (fun kv => safe_integers (snd kv)) props
  | _ => true
  end.

(** A string of one-byte characters, for which the bytes of the model
    are the code units that JavaScript counts. *)
Fixpoint is_ascii (s : string) : bool :=
  match s with
  | EmptyString => true
  | String c rest => (code c <? 128) && is_ascii rest
  end.

End JsonText.

(* ===================================================================== *)
(** ** [app/src/index.ts], with serialization that can throw              *)
(* ===================================================================== *)

Module Server.

(** [JSON.stringify] throws a [RangeError] on a value nested deeper than
    the stack of the runtime allows.  A runtime is what [Api.Env] holds
    together with the values it can serialize. *)
Record Runtime := mkRuntime
  { env : Api.Env;
    serializes : Json.value -> bool }.

Definition optional_field (k : string) (x : option string) : list (string * Json.value) :=
  match x with
  | Some s => [(k, Json.Str s)]
  | None => []
  end.

Definition nullable (x : option string) : Json.value :=
  match x with
  | Some s => Json.Str s
  | None => Json.Null
  end.

(** The records as the objects [res.json] serializes, properties in the
    order of the object literals; [updatedAt] is added by the first
    update. *)
Definition agent_json (a : Api.Agent.t) : Json.value :=
  Json.Obj ([("id", Json.Str (Api.Agent.id a));
             ("ownerWallet", Api.Agent.ownerWallet a);
             ("agentWallet", Api.Agent.agentWallet a);
             ("modelProfile", Api.Agent.modelProfile a);
             ("metadataUri", Api.Agent.metadataUri a);
             ("permissions", Api.Agent.permissions a);
             ("createdAt", Json.Str (Api.Agent.createdAt a))]
            ++ optional_field "updatedAt" (Api.Agent.updatedAt a)).

Definition profile_json (p : Api.ModelProfile.t) : Json.value :=
  Json.Obj ([("id", Json.Str (Api.ModelProfile.id p));
             ("ownerWallet", Api.ModelProfile.ownerWallet p);
             ("label", Api.ModelProfile.label p);
             ("providerUri", Api.ModelProfile.providerUri p);
             ("pricing", Api.ModelProfile.pricing p);
             ("billingWallet", Api.ModelProfile.billingWallet p);
             ("maxTokensPerDay", Api.ModelProfile.maxTokensPerDay p);
             ("maxRequestsPerMin", Api.ModelProfile.maxRequestsPerMin p);
             ("createdAt", Json.Str (Api.ModelProfile.createdAt p))]
            ++ optional_field "updatedAt" (Api.ModelProfile.updatedAt p)).

Definition intent_json (i : Api.Intent.t) : Json.value :=
  Json.Obj ([("id", Json.Str (Api.Intent.id i));
             ("fromAgent", Api.Intent.fromAgent i);
             ("toAgent", Api.Intent.toAgent i);
             ("nonce", Json.Num (Api.Intent.nonce i));
             ("status", Api.Intent.status i);
             ("payloadHash", Json.Str (Api.Intent.payloadHash i));
             ("payloadUri", Json.Str (Api.Intent.payloadUri i));
             ("payload", Api.Intent.payload i);
             ("paymentAmount", Api.Intent.paymentAmount i);
             ("paymentMint", Api.Intent.paymentMint i);
             ("resultHash", nullable (Api.Intent.resultHash i));
             ("resultUri", nullable (Api.Intent.resultUri i));
             ("result", Api.Intent.result i);
             ("createdAt", Json.Str (Api.Intent.createdAt i))]
            ++ optional_field "updatedAt" (Api.Intent.updatedAt i)).

Definition body_json (b : Api.Body) : Json.value :=
  match b with
  | Api.ErrorBody error => Json.Obj [("error", Json.Str error)]
  | Api.AgentBody agent => Json.Obj [("agent", agent_json agent)]
  | Api.ProfileBody profile => Json.Obj [("profile", profile_json profile)]
  | Api.IntentBody intent => Json.Obj [("intent", intent_json intent)]
  | Api.DemoBody agents profiles =>
      Json.Obj [("message", Json.Str "Demo data created");
                ("agents", Json.Arr (List.map agent_json agents));
                ("profiles", Json.Arr (List.map profile_json profiles))]
  end.

(** How a request ends.  A throw in a synchronous handler is caught by
    the framework and answered 500; a throw in an [async] handler
    rejects its promise and nothing is sent. *)
Inductive Answer : Type :=
| Answered (code : Z) (body : Api.Body)
| InternalError
| Unanswered.

(** [res.status(code).json(body)]: the body is serialized, which throws
    if the runtime cannot.  The error bodies and the demo data are flat
    literals. *)
Definition send (rt : Runtime) (thrown : Answer) (res : Api.Response) : Answer :=
  match Api.body res with
  | Api.ErrorBody _ => Answered (Api.code res) (Api.body res)
  | Api.DemoBody _ _ => Answered (Api.code res) (Api.body res)
  | _ =>
      if serializes rt (body_json (Api.body res))
      then Answered (Api.code res) (Api.body res)
      else thrown
  end.

(** The synchronous handlers do all their work on the store before they
    call [res.json]. *)
Definition post_agents (rt : Runtime) (req : Json.value) (st : Api.Store)
    : Answer * Api.Store :=
  let done := Api.post_agents (env rt) req st in
  (send rt InternalError (fst done), snd done).

Definition put_agent (rt : Runtime) (id : string) (req : Json.value) (st : Api.Store)
    : Answer * Api.Store :=
  let done := Api.put_agent (env rt) id req st in
  (send rt InternalError (fst done), snd done).

Definition post_model_profiles (rt : Runtime) (req : Json.value) (st : Api.Store)
    : Answer * Api.Store :=
  let done := Api.post_model_profiles (env rt) req st in
  (send rt InternalError (fst done), snd done).

Definition put_model_profile (rt : Runtime) (id : string) (req : Json.value)
    (st : Api.Store) : Answer * Api.Store :=
  let done := Api.put_model_profile (env rt) id req st in
  (send rt InternalError (fst done), snd done).

Definition demo_setup (rt : Runtime) (st : Api.Store) : Answer * Api.Store :=
  let done := Api.demo_setup (env rt) st in
  (send rt InternalError (fst done), snd done).

(** POST /api/intents: [JSON.stringify(payload)] runs before anything is
    stored. *)
Definition post_intents (rt : Runtime) (req : Json.value) (st : Api.Store)
    : Answer * Api.Store :=
  match Json.truthy_val (Json.get req "fromAgent"),
        Json.truthy_val (Json.get req "toAgent"),
        Json.truthy_val (Json.get req "payload") with
  | Some _, Some _, Some payload =>
      if serializes rt payload then
        let done := Api.post_intents (env rt) req st in
        (send rt Unanswered (fst done), snd done)
      else (Unanswered, st)
  | _, _, _ =>
      (Answered 400 (Api.ErrorBody "fromAgent, toAgent, and payload required"), st)
  end.

(** PUT /api/intents/:id/status: the handler writes to the object that
    the map holds.  When [JSON.stringify(result)] throws, [status] and
    [result] have been assigned, and digest, locator and [updatedAt]
    have not. *)
Definition put_intent_status (rt : Runtime) (id : string) (req : Json.value)
    (st : Api.Store) : Answer * Api.Store :=
  let finish (intent : Api.Intent.t) :=
    let intent := Api.Intent.set_updatedAt (Api.isoNow (env rt)) intent in
    (send rt Unanswered (Api.mkResponse 200 (Api.IntentBody intent)),
     Api.set_intents (<[id := intent]> (Api.intents st)) st) in
  match Api.intents st !! id with
  | None => (Answered 404 (Api.ErrorBody "Intent not found"), st)
  | Some intent =>
      match Json.truthy_val (Json.get req "status") with
      | None => (Answered 400 (Api.ErrorBody "status required"), st)
      | Some status =>
          let intent := Api.Intent.set_status status intent in
          match Json.truthy_val (Json.get req "result") with
          | Some result =>
              let intent := Api.Intent.set_result result intent in
              if serializes rt result then
                let resultStr := Json.stringify result in
                let intent := Api.Intent.set_resultHash (Api.sha256_hex resultStr) intent in
                let intent :=
                  Api.Intent.set_resultUri
                    ("https://mesh.example.com/results/" +:+ Api.Intent.id intent) intent in
                finish intent
              else (Unanswered, Api.set_intents (<[id := intent]> (Api.intents st)) st)
          | None => finish intent
          end
      end
  end.

Definition handle (rt : Runtime) (r : Api.Request) (st : Api.Store) : Answer * Api.Store :=
  match r with
  | Api.PostAgents req => post_agents rt req st
  | Api.PutAgent id req => put_agent rt id req st
  | Api.PostModelProfiles req => post_model_profiles rt req st
  | Api.PutModelProfile id req => put_model_profile rt id req st
  | Api.PostIntents req => post_intents rt req st
  | Api.PutIntentStatus id req => put_intent_status rt id req st
  | Api.DemoSetup => demo_setup rt st
  end.

(** The stores the server can be in, handlers that threw included. *)
Inductive reachable : Api.Store -> Prop :=
| reachable_start : reachable Api.empty_store
| reachable_step st rt r :
    reachable st -> reachable (snd (handle rt r st)).

Fixpoint run (rs : list (Runtime * Api.Request)) (st : Api.Store) : Api.Store :=
  match rs with
  | [] => st
  | (rt, r) :: rest => run rest (snd (handle rt r st))
  end.

(** What the result fields of a stored intent always satisfy: a digest
    comes with its locator and a truthy result, and is the digest of a
    truthy result that was serialized. *)
Definition digest_recorded (i : Api.Intent.t) : Prop :=
  match Api.Intent.resultHash i with
  | Some h =>
      Json.truthy (Api.Intent.result i) = true /\
      Api.Intent.resultUri i = Some ("https://mesh.example.com/results/" +:+ Api.Intent.id i) /\
      exists result, Json.truthy result = true /\
                     h = Api.sha256_hex (Json.stringify result)
  | None => Api.Intent.resultUri i = None
  end.

(** Nesting depth, and a value nested [n] arrays deep. *)
Fixpoint depth (v : Json.value) : nat :=
  match v with
  | Json.Arr items => S (fold_right (fun x d => Nat.max (depth x) d) O items)
  | Json.Obj props => S (fold_right (fun kv d => Nat.max (depth (snd kv)) d) O props)
  | _ => O
  end.

Fixpoint nested (n : nat) : Json.value :=
  match n with
  | O => Json.Str "ok"
  | S n' => Json.Arr [nested n']
  end.

(** The handlers declared [async]. *)
Definition is_async (r : Api.Request) : bool :=
  match r with
  | Api.PostIntents _ | Api.PutIntentStatus _ _ => true
  | _ => false
  end.

(** What a handler that throws ends in. *)
Definition thrown (r : Api.Request) : Answer :=
  if is_async r then Unanswered else InternalError.

(** How a request [r] made in store [st] can end. *)
Definition answer_ok (rt : Runtime) (r : Api.Request) (st : Api.Store)
    (end_ : Answer * Api.Store) : Prop :=
  match fst end_ with
  | Answered code _ =>
      code = 200 \/ code = 201 \/ ((code = 400 \/ code = 404) /\ snd end_ = st)
  | InternalError =>
      is_async r = false /\
      snd end_ = snd (Api.handle (env rt) r st) /\
      exists v, serializes rt v = false
  | Unanswered =>
      is_async r = true /\ exists v, serializes rt v = false
  end.

End Server.

Example sha256_constants :
  length Sha256.K = 64%nat /\
  nth 0 Sha256.K 0 = 0x428a2f98 /\ nth 63 Sha256.K 0 = 0xc67178f2 /\
  Sha256.ha Sha256.H0 = 0x6a09e667 /\ Sha256.hh Sha256.H0 = 0x5be0cd19.
Proof. vm_compute. repeat split; reflexivity. Qed.

Example sha256_abc :
  Buffer.to_hex (Sha256.sha256 (Buffer.from_string "abc"))
  = "ba7816bf8f01cfea414140de5dae2223b00361a396177a9cb410ff61f20015ad".
Proof. vm_compute. reflexivity. Qed.

Example sha256_empty :
  Buffer.to_hex (Sha256.sha256 (Buffer.from_string ""))
  = "e3b0c44298fc1c149afbf4c8996fb92427ae41e4649b934ca495991b7852b855".
Proof. vm_compute. reflexivity. Qed.

Example sha256_two_blocks :
  Buffer.to_hex (Sha256.sha256 (Buffer.from_string
     "abcdbcdecdefdefgefghfghighijhijkijkljklmklmnlmnomnopnopq"))
  = "248d6a61d20638b8e5c026930c3e6039a33ce45964ff2167f6ecedd419db06c1".
Proof. vm_compute. reflexivity. Qed.

Example stringify_demo :
  Json.stringify (Json.Obj [("action", Json.Str "swap"); ("amount", Json.Num 1000000000);
                            ("xs", Json.Arr [Json.Null; Json.Bool true; Json.Num (-3)])])
  = "{" +:+ Json.dquote +:+ "action" +:+ Json.dquote +:+ ":" +:+ Json.dquote +:+ "swap" +:+ Json.dquote
    +:+ "," +:+ Json.dquote +:+ "amount" +:+ Json.dquote +:+ ":1000000000,"
    +:+ Json.dquote +:+ "xs" +:+ Json.dquote +:+ ":[null,true,-3]}".
Proof. vm_compute. reflexivity. Qed.

(* ===================================================================== *)
(** * Properties                                                          *)
(* ===================================================================== *)

(** ** Digests *)

(** Case analysis on every optional request field of a handler. *)
Ltac case_fields :=
  repeat match goal with
         | |- context [match ?o with Some _ => _ | None => _ end] => destruct o
         end.

Ltac case_assigns :=
  unfold Api.assign_if_truthy, Api.assign_if_defined; case_fields.


Lemma sha256_length (msg : list Z) : length (Sha256.sha256 msg) = 32%nat.
Proof. reflexivity. Qed.

Lemma sha256_bytes (msg : list Z) :
  Forall (fun b => 0 <= b < 256) (Sha256.sha256 msg).
Proof.
  unfold Sha256.sha256, Sha256.state_bytes, Sha256.be32.
  repeat (apply Forall_cons; split; [apply Z.mod_pos_bound; lia|]).
  apply Forall_nil. exact I.
Qed.

Lemma to_hex_length (bs : list Z) :
  String.length (Buffer.to_hex bs) = (2 * length bs)%nat.
Proof. induction bs as [|b bs IH]; simpl; [reflexivity | rewrite IH; lia]. Qed.

Lemma sha256_hex_length (str : string) : String.length (Api.sha256_hex str) = 64%nat.
Proof. unfold Api.sha256_hex. rewrite to_hex_length, sha256_length. reflexivity. Qed.

(** Both places that hash a payload agree: the hexadecimal digest the
    registry stores is the controller's digest, printed. *)
Lemma sha256_hex_payload_digest (payload : Json.value) :
  Api.sha256_hex (Json.stringify payload) = Buffer.to_hex (Mesh.payload_digest payload).
Proof. reflexivity. Qed.

(** C5, as stated, fails: two bodies with the same key set and the same
    scalar values, written in a different key order, are serialized in
    their own order and get different digests. *)
Lemma digest_depends_on_key_order :
  [("a", Json.Num 1); ("b", Json.Num 2)] ≡ₚ [("b", Json.Num 2); ("a", Json.Num 1)] /\
  Mesh.payload_digest (Json.Obj [("a", Json.Num 1); ("b", Json.Num 2)])
    <> Mesh.payload_digest (Json.Obj [("b", Json.Num 2); ("a", Json.Num 1)]) /\
  Api.sha256_hex (Json.stringify (Json.Obj [("a", Json.Num 1); ("b", Json.Num 2)]))
    <> Api.sha256_hex (Json.stringify (Json.Obj [("b", Json.Num 2); ("a", Json.Num 1)])).
Proof.
  split; [apply Permutation_swap|].
  split; vm_compute; intros H; discriminate H.
Qed.

(** *** The serialization determines the body *)

Lemma app_cons (c : ascii) (s r : string) : String c s +:+ r = String c (s +:+ r).
Proof. reflexivity. Qed.

Lemma app_empty (r : string) : "" +:+ r = r.
Proof. reflexivity. Qed.

Lemma app_assoc_string (a b c : string) : (a +:+ b) +:+ c = a +:+ (b +:+ c).
Proof.
  induction a as [|x a IH]; [reflexivity|].
  rewrite !app_cons, IH. reflexivity.
Qed.

Lemma unescape_escape (c : ascii) (r : string) :
  JsonText.unescape_char (Json.escape_char c +:+ r) = Some (c, r).
Proof.
  destruct c as [[] [] [] [] [] [] [] []]; reflexivity.
Qed.

Lemma unescape_dquote (r : string) : JsonText.unescape_char (Json.dquote +:+ r) = None.
Proof. reflexivity. Qed.

Lemma escape_inj_rest (s1 s2 r1 r2 : string) :
  Json.escape s1 +:+ Json.dquote +:+ r1 = Json.escape s2 +:+ Json.dquote +:+ r2 ->
  s1 = s2 /\ r1 = r2.
Proof.
  revert s2. induction s1 as [|c1 s1 IH]; intros [|c2 s2] H.
  - cbn [Json.escape] in H. rewrite !app_empty in H.
    injection H as H. split; [reflexivity | exact H].
  - exfalso. cbn [Json.escape] in H. rewrite app_empty, app_assoc_string in H.
    apply (f_equal JsonText.unescape_char) in H.
    rewrite unescape_dquote, unescape_escape in H. discriminate H.
  - exfalso. cbn [Json.escape] in H. rewrite app_empty, app_assoc_string in H.
    apply (f_equal JsonText.unescape_char) in H.
    rewrite unescape_dquote, unescape_escape in H. discriminate H.
  - cbn [Json.escape] in H. rewrite !app_assoc_string in H.
    apply (f_equal JsonText.unescape_char) in H.
    rewrite !unescape_escape in H. injection H as -> H.
    destruct (IH s2 H) as [-> ->]. split; reflexivity.
Qed.

Lemma dquote_app (x : string) : Json.dquote +:+ x = String (ascii_of_nat 34) x.
Proof. reflexivity. Qed.

Lemma quote_inj_rest (s1 s2 r1 r2 : string) :
  Json.quote s1 +:+ r1 = Json.quote s2 +:+ r2 -> s1 = s2 /\ r1 = r2.
Proof.
  unfold Json.quote. rewrite !app_assoc_string. rewrite !(dquote_app (Json.escape _ +:+ _)).
  intros H. injection H as H. exact (escape_inj_rest _ _ _ _ H).
Qed.

(** Decimal numbers *)

Lemma pretty_N_char_digit (x : N) : JsonText.is_digit (pretty_N_char x) = true.
Proof. unfold pretty_N_char. repeat case_match; reflexivity. Qed.

Lemma pretty_N_go_digits (x : N) (s : string) :
  JsonText.all_digits s = true ->
  JsonText.all_digits (pretty_N_go x s) = true /\ (s <> "" -> pretty_N_go x s <> "").
Proof.
  revert s. induction (N.lt_wf_0 x) as [x _ IH]; intros s Hs.
  assert (Hx : (x = 0 \/ 0 < x)%N) by lia. destruct Hx as [->|Hx].
  - rewrite pretty_N_go_0. split; [exact Hs | intros H; exact H].
  - rewrite pretty_N_go_step by exact Hx.
    destruct (IH (x `div` 10)%N (N.div_lt x 10 Hx eq_refl)
                (String (pretty_N_char (x `mod` 10)) s)) as [H1 H2].
    + cbn [JsonText.all_digits]. rewrite pretty_N_char_digit, Hs. reflexivity.
    + split; [exact H1|]. intros _. apply H2. intros H. discriminate H.
Qed.

Lemma pretty_N_form (x : N) :
  JsonText.all_digits (pretty x) = true /\ pretty x <> "".
Proof.
  unfold pretty, pretty_N. destruct (decide (x = 0%N)) as [->|Hx].
  - split; [reflexivity | intros H; discriminate H].
  - assert (Hpos : (0 < x)%N) by lia.
    rewrite pretty_N_go_step by exact Hpos.
    destruct (pretty_N_go_digits (x `div` 10)%N (String (pretty_N_char (x `mod` 10)) ""))
      as [H1 H2].
    + cbn [JsonText.all_digits]. rewrite pretty_N_char_digit. reflexivity.
    + split; [exact H1|]. apply H2. intros H. discriminate H.
Qed.

Lemma pretty_Z_form (n : Z) :
  exists d, JsonText.all_digits d = true /\ d <> "" /\
            (pretty n = d \/ pretty n = String "-"%char d).
Proof.
  destruct n as [|p|p].
  - exists "0". split; [reflexivity|]. split; [intros H; discriminate H|]. left. reflexivity.
  - exists (pretty (N.pos p)). destruct (pretty_N_form (N.pos p)) as [H1 H2].
    split; [exact H1|]. split; [exact H2|]. left. reflexivity.
  - exists (pretty (N.pos p)). destruct (pretty_N_form (N.pos p)) as [H1 H2].
    split; [exact H1|]. split; [exact H2|]. right. reflexivity.
Qed.

Lemma digits_split (d1 d2 r1 r2 : string) :
  JsonText.all_digits d1 = true -> JsonText.all_digits d2 = true ->
  JsonText.no_digit_head r1 = true -> JsonText.no_digit_head r2 = true ->
  d1 +:+ r1 = d2 +:+ r2 -> d1 = d2 /\ r1 = r2.
Proof.
  revert d2. induction d1 as [|c1 d1 IH]; intros [|c2 d2] H1 H2 Hr1 Hr2 H.
  - rewrite !app_empty in H. split; [reflexivity | exact H].
  - exfalso. rewrite app_empty, app_cons in H. subst r1.
    cbn [JsonText.all_digits] in H2. apply andb_prop in H2 as [Hc _].
    cbn [JsonText.no_digit_head] in Hr1. rewrite Hc in Hr1. discriminate Hr1.
  - exfalso. rewrite app_empty, app_cons in H. subst r2.
    cbn [JsonText.all_digits] in H1. apply andb_prop in H1 as [Hc _].
    cbn [JsonText.no_digit_head] in Hr2. rewrite Hc in Hr2. discriminate Hr2.
  - rewrite !app_cons in H. injection H as -> H.
    cbn [JsonText.all_digits] in H1, H2.
    apply andb_prop in H1 as [_ H1]. apply andb_prop in H2 as [_ H2].
    destruct (IH d2 H1 H2 Hr1 Hr2 H) as [-> ->]. split; reflexivity.
Qed.

Lemma closes_no_digit_head (r : string) :
  JsonText.closes r = true -> JsonText.no_digit_head r = true.
Proof.
  destruct r as [|c r]; [reflexivity|]. cbn [JsonText.closes JsonText.no_digit_head].
  unfold JsonText.is_digit. intros H.
  apply orb_prop in H as [H|H]; [apply orb_prop in H as [H|H]|];
    apply Z.eqb_eq in H; rewrite H; reflexivity.
Qed.

Lemma pretty_Z_inj_rest (n1 n2 : Z) (r1 r2 : string) :
  JsonText.no_digit_head r1 = true -> JsonText.no_digit_head r2 = true ->
  pretty n1 +:+ r1 = pretty n2 +:+ r2 -> n1 = n2 /\ r1 = r2.
Proof.
  intros Hr1 Hr2 H.
  destruct (pretty_Z_form n1) as (d1 & Hd1 & Hn1 & F1).
  destruct (pretty_Z_form n2) as (d2 & Hd2 & Hn2 & F2).
  assert (Hhead : forall d r, JsonText.all_digits d = true -> d <> "" ->
                    forall t, d +:+ r <> String "-"%char t).
  { intros [|c d] r Hd Hne t; [contradiction|].
    rewrite app_cons. intros Heq. injection Heq as -> _.
    cbn [JsonText.all_digits] in Hd. discriminate Hd. }
  destruct F1 as [F1|F1], F2 as [F2|F2]; rewrite F1, F2 in H.
  - destruct (digits_split _ _ _ _ Hd1 Hd2 Hr1 Hr2 H) as [Hd ->].
    split; [|reflexivity]. apply (inj pretty). rewrite F1, F2, Hd. reflexivity.
  - exfalso. rewrite (app_cons _ d2) in H. exact (Hhead d1 r1 Hd1 Hn1 _ H).
  - exfalso. rewrite (app_cons _ d1) in H. symmetry in H. exact (Hhead d2 r2 Hd2 Hn2 _ H).
  - rewrite !app_cons in H. injection H as H.
    destruct (digits_split _ _ _ _ Hd1 Hd2 Hr1 Hr2 H) as [Hd ->].
    split; [|reflexivity]. apply (inj pretty). rewrite F1, F2, Hd. reflexivity.
Qed.

(** What a serialization starts with *)

Lemma stringify_head (v : Json.value) (r : string) :
  JsonText.kind_of_head (Json.stringify v +:+ r) = Some (JsonText.kind_of v).
Proof.
  destruct v as [|[]|n|s|items|props]; try reflexivity.
  cbn [Json.stringify JsonText.kind_of].
  destruct (pretty_Z_form n) as ([|c d] & Hd & Hne & [F|F]); try contradiction.
  - rewrite F, app_cons. cbn [JsonText.all_digits] in Hd. apply andb_prop in Hd as [Hc _].
    unfold JsonText.kind_of_head. 
    unfold JsonText.is_digit in Hc. apply andb_prop in Hc as [H1 H2].
    apply Z.leb_le in H1. apply Z.leb_le in H2.
    destruct (Z.eqb_spec (JsonText.code c) 110); [lia|].
    destruct (Z.eqb_spec (JsonText.code c) 116); [lia|].
    destruct (Z.eqb_spec (JsonText.code c) 102); [lia|].
    unfold JsonText.is_digit.
    destruct (Z.leb_spec 48 (JsonText.code c)); [|lia].
    destruct (Z.leb_spec (JsonText.code c) 57); [|lia].
    rewrite orb_true_r. reflexivity.
  - rewrite F. reflexivity.
Qed.

Lemma join_cons_app (sep s : string) (l : list string) (t : string) :
  Json.join sep (s :: l) +:+ t
  = s +:+ match l with
          | [] => t
          | _ :: _ => sep +:+ Json.join sep l +:+ t
          end.
Proof.
  destruct l as [|s' l]; [reflexivity|].
  cbn [Json.join]. rewrite !app_assoc_string. reflexivity.
Qed.

Lemma closer_head (close : ascii) (r : string) :
  close = "]"%char \/ close = "}"%char ->
  JsonText.closes (String close r) = true /\
  JsonText.kind_of_head (String close r) = None /\
  close <> ","%char.
Proof. intros [->| ->]; (split; [reflexivity|]; split; [reflexivity|]; discriminate). Qed.

Lemma items_inj (close : ascii) (xs : list Json.value) :
  close = "]"%char \/ close = "}"%char ->
  Forall JsonText.reads_back xs ->
  forall ys r r',
    Json.join "," (List.map Json.stringify xs) +:+ String close r
    = Json.join "," (List.map Json.stringify ys) +:+ String close r' ->
    xs = ys /\ r = r'.
Proof.
  intros Hclose Hxs. induction Hxs as [|x xs Hx Hxs IH]; intros ys r r' H.
  - destruct ys as [|y ys].
    + cbn [List.map Json.join] in H. rewrite !app_empty in H. injection H as H.
      split; [reflexivity | exact H].
    + exfalso. cbn [List.map] in H. rewrite join_cons_app in H.
      cbn [Json.join] in H. rewrite app_empty in H.
      apply (f_equal JsonText.kind_of_head) in H. rewrite stringify_head in H.
      rewrite (proj1 (proj2 (closer_head close r Hclose))) in H. discriminate H.
  - destruct ys as [|y ys].
    + exfalso. cbn [List.map] in H. rewrite join_cons_app in H.
      cbn [Json.join] in H. rewrite app_empty in H.
      apply (f_equal JsonText.kind_of_head) in H. rewrite stringify_head in H.
      rewrite (proj1 (proj2 (closer_head close r' Hclose))) in H. discriminate H.
    + cbn [List.map] in H. rewrite !join_cons_app in H.
      apply Hx in H.
      * destruct H as [-> H]. destruct xs as [|x' xs], ys as [|y' ys];
          cbn [List.map] in H.
        -- injection H as H. split; [reflexivity | exact H].
        -- exfalso. rewrite app_cons in H. injection H as Hc _.
           exact (proj2 (proj2 (closer_head close r Hclose)) Hc).
        -- exfalso. rewrite app_cons in H. injection H as Hc _.
           exact (proj2 (proj2 (closer_head close r Hclose)) (eq_sym Hc)).
        -- rewrite !app_cons, !app_empty in H. injection H as H.
           destruct (IH (y' :: ys) r r' H) as [Heq ->].
           rewrite Heq. split; reflexivity.
      * destruct xs; [exact (proj1 (closer_head close r Hclose)) | reflexivity].
      * destruct ys; [exact (proj1 (closer_head close r' Hclose)) | reflexivity].
Qed.

Lemma member_head (kv : string * Json.value) (t : string) :
  exists s, JsonText.member kv +:+ t = String (ascii_of_nat 34) s.
Proof. eexists. unfold JsonText.member, Json.quote. rewrite !app_assoc_string. apply dquote_app. Qed.

Lemma member_inj_rest (kv kv' : string * Json.value) (t t' : string) :
  JsonText.reads_back (snd kv) ->
  JsonText.closes t = true -> JsonText.closes t' = true ->
  JsonText.member kv +:+ t = JsonText.member kv' +:+ t' -> kv = kv' /\ t = t'.
Proof.
  intros Hv Ht Ht' H. unfold JsonText.member in H. rewrite !app_assoc_string in H.
  apply quote_inj_rest in H as [Hk H].
  rewrite !app_cons, !app_empty in H. injection H as H.
  destruct (Hv _ _ _ Ht Ht' H) as [Hval ->].
  split; [|reflexivity]. destruct kv, kv'. simpl in *. subst. reflexivity.
Qed.

Lemma props_inj (ps : list (string * Json.value)) :
  Forall (fun kv => JsonText.reads_back (snd kv)) ps ->
  forall qs r r',
    Json.join "," (List.map JsonText.member ps) +:+ String "}"%char r
    = Json.join "," (List.map JsonText.member qs) +:+ String "}"%char r' ->
    ps = qs /\ r = r'.
Proof.
  intros Hps. induction Hps as [|p ps Hp Hps IH]; intros qs r r' H.
  - destruct qs as [|q qs].
    + cbn [List.map Json.join] in H. rewrite !app_empty in H. injection H as H.
      split; [reflexivity | exact H].
    + exfalso. cbn [List.map] in H. rewrite join_cons_app in H.
      cbn [Json.join] in H. rewrite app_empty in H.
      destruct (member_head q (match List.map JsonText.member qs with
                               | [] => String "}"%char r'
                               | _ :: _ => "," +:+ Json.join "," (List.map JsonText.member qs) +:+
                                           String "}"%char r'
                               end)) as [s Hs].
      rewrite Hs in H. discriminate H.
  - destruct qs as [|q qs].
    + exfalso. cbn [List.map] in H. rewrite join_cons_app in H.
      cbn [Json.join] in H. rewrite app_empty in H.
      destruct (member_head p (match List.map JsonText.member ps with
                               | [] => String "}"%char r
                               | _ :: _ => "," +:+ Json.join "," (List.map JsonText.member ps) +:+
                                           String "}"%char r
                               end)) as [s Hs].
      rewrite Hs in H. discriminate H.
    + cbn [List.map] in H. rewrite !join_cons_app in H.
      apply (member_inj_rest p q) in H.
      * destruct H as [-> H]. destruct ps as [|p' ps], qs as [|q' qs];
          cbn [List.map] in H.
        -- injection H as H. split; [reflexivity | exact H].
        -- exfalso. rewrite app_cons in H. discriminate H.
        -- exfalso. rewrite app_cons in H. discriminate H.
        -- rewrite !app_cons, !app_empty in H. injection H as H.
           destruct (IH (q' :: qs) r r' H) as [Heq ->].
           rewrite Heq. split; reflexivity.
      * exact Hp.
      * destruct ps; reflexivity.
      * destruct qs; reflexivity.
Qed.

Lemma stringify_reads_back (v : Json.value) : JsonText.reads_back v.
Proof.
  induction v as [|b|n|s|items IH|props IH] using JsonText.value_induction;
    intros v' r r' Hr Hr' H;
    pose proof (f_equal JsonText.kind_of_head H) as Hk;
    rewrite !stringify_head in Hk; injection Hk as Hk.
  - destruct v' as [|[]| | | |]; try discriminate Hk.
    cbn [Json.stringify] in H. rewrite !app_cons, !app_empty in H. injection H as H.
    split; [reflexivity | exact H].
  - destruct b, v' as [|[]| | | |]; try discriminate Hk;
      cbn [Json.stringify] in H; rewrite !app_cons, !app_empty in H; injection H as H;
      (split; [reflexivity | exact H]).
  - destruct v' as [|[]|n'| | |]; try discriminate Hk.
    cbn [Json.stringify] in H.
    destruct (pretty_Z_inj_rest n n' r r' (closes_no_digit_head r Hr)
                (closes_no_digit_head r' Hr') H) as [-> ->].
    split; reflexivity.
  - destruct v' as [|[]| |s'| |]; try discriminate Hk.
    cbn [Json.stringify] in H. destruct (quote_inj_rest _ _ _ _ H) as [-> ->].
    split; reflexivity.
  - destruct v' as [|[]| | |items'|]; try discriminate Hk.
    cbn [Json.stringify] in H. rewrite !app_assoc_string, !app_cons, !app_empty in H.
    injection H as H.
    destruct (items_inj "]"%char items (or_introl eq_refl) IH items' r r' H) as [-> ->].
    split; reflexivity.
  - destruct v' as [|[]| | | |props']; try discriminate Hk.
    cbn [Json.stringify] in H. rewrite !app_assoc_string, !app_cons, !app_empty in H.
    injection H as H.
    destruct (props_inj props IH props' r r' H) as [-> ->].
    split; reflexivity.
Qed.

Theorem stringify_inj (b1 b2 : Json.value) :
  Json.stringify b1 = Json.stringify b2 -> b1 = b2.
Proof.
  intros H.
  assert (H' : Json.stringify b1 +:+ "" = Json.stringify b2 +:+ "") by (rewrite H; reflexivity).
  exact (proj1 (stringify_reads_back b1 b2 "" "" eq_refl eq_refl H')).
Qed.

(** C5, amended: the digest is the SHA-256, 32 bytes, of the text that
    [JSON.stringify] gives for the body, and that text determines the
    body: two bodies have the same serialization exactly when they are
    the same value, with the same properties in the same enumeration
    order at every level.  Bodies with the same serialization get the
    identical digest; bodies whose properties are the same but are
    enumerated in another order are serialized differently.  Stated for
    bodies whose numbers are safe integers, which the model prints as
    JavaScript does. *)
Theorem payload_digest_follows_serialization (b1 b2 : Json.value) :
  JsonText.safe_integers b1 = true ->
  JsonText.safe_integers b2 = true ->
  (Json.stringify b1 = Json.stringify b2 <-> b1 = b2) /\
  (Json.stringify b1 = Json.stringify b2 ->
   Mesh.payload_digest b1 = Mesh.payload_digest b2 /\
   Api.sha256_hex (Json.stringify b1) = Api.sha256_hex (Json.stringify b2)) /\
  length (Mesh.payload_digest b1) = 32%nat /\
  Forall (fun b => 0 <= b < 256) (Mesh.payload_digest b1) /\
  String.length (Api.sha256_hex (Json.stringify b1)) = 64%nat /\
  Api.sha256_hex (Json.stringify b1) = Buffer.to_hex (Mesh.payload_digest b1) /\
  (forall ps qs,
     b1 = Json.Obj ps -> b2 = Json.Obj qs -> ps ≡ₚ qs -> ps <> qs ->
     Json.stringify b1 <> Json.stringify b2).
Proof.
  intros _ _.
  split; [split; [apply stringify_inj | intros ->; reflexivity]|].
  split.
  { intros Hs. unfold Mesh.payload_digest. rewrite Hs. split; reflexivity. }
  split; [apply sha256_length|].
  split; [apply sha256_bytes|].
  split; [apply sha256_hex_length|].
  split; [apply sha256_hex_payload_digest|].
  intros ps qs -> -> _ Hne Hs. apply Hne.
  apply stringify_inj in Hs. injection Hs as Hs. exact Hs.
Qed.

Lemma payload_digest_follows_serialization_witness :
  let b1 := Json.Obj [("action", Json.Str "swap"); ("amount", Json.Num 1000000000)] in
  let b2 := Json.Obj [("amount", Json.Num 1000000000); ("action", Json.Str "swap")] in
  JsonText.safe_integers b1 = true /\
  JsonText.safe_integers b2 = true /\
  Json.stringify b1 <> Json.stringify b2 /\
  length (Mesh.payload_digest b1) = 32%nat.
Proof.
  intros b1 b2.
  destruct (payload_digest_follows_serialization b1 b2 eq_refl eq_refl)
    as (_ & _ & Hlen & _ & _ & _ & Hperm).
  split; [reflexivity|]. split; [reflexivity|]. split; [|exact Hlen].
  apply (Hperm _ _ eq_refl eq_refl).
  - apply Permutation_swap.
  - intros H. discriminate H.
Defined.

(** ** Intent address derivation *)

Lemma writeBigUInt64LE_spec (v : Z) :
  0 <= v < 2 ^ 64 ->
  exists nb,
    Buffer.writeBigUInt64LE v = Some nb /\
    length nb = 8%nat /\
    Forall (fun b => 0 <= b < 256) nb /\
    Buffer.readLE nb = v /\
    Buffer.writeBigUInt64BE v = Some (rev nb).
Proof.
  intros [Hlo Hhi].
  unfold Buffer.writeBigUInt64LE, Buffer.writeBigUInt64BE.
  assert (Hin : (0 <=? v) && (v <? 2 ^ 64) = true).
  { apply andb_true_intro. split; [apply Z.leb_le | apply Z.ltb_lt]; assumption. }
  rewrite Hin. eexists. split; [reflexivity|].
  split; [reflexivity|].
  split.
  { simpl. repeat (apply Forall_cons; split; [apply Z.mod_pos_bound; lia|]).
    apply Forall_nil. exact I. }
  split; [|reflexivity].
  cbn [map Buffer.readLE].
  rewrite !Z.shiftr_div_pow2 by lia.
  change (2 ^ 64) with 18446744073709551616 in Hhi.
  change (2 ^ (8 * 0)) with 1. change (2 ^ (8 * 1)) with 256.
  change (2 ^ (8 * 2)) with 65536. change (2 ^ (8 * 3)) with 16777216.
  change (2 ^ (8 * 4)) with 4294967296. change (2 ^ (8 * 5)) with 1099511627776.
  change (2 ^ (8 * 6)) with 281474976710656.
  change (2 ^ (8 * 7)) with 72057594037927936.
  Z.to_euclidean_division_equations. lia.
Qed.

(** C6, as stated, fails: the nonce seed is laid out least significant
    byte first, so it is not the big-endian encoding, and the byte order
    of two seeds does not follow the order of their nonces. *)
Lemma nonce_seed_is_little_endian :
  Mesh.intent_seeds (fun k : list Z => k) [7] [9] 1
    = Some [Buffer.from_string "intent"; [7]; [9]; [1; 0; 0; 0; 0; 0; 0; 0]] /\
  Buffer.writeBigUInt64BE 1 = Some [0; 0; 0; 0; 0; 0; 0; 1] /\
  Buffer.writeBigUInt64LE 1 <> Buffer.writeBigUInt64BE 1 /\
  Buffer.writeBigUInt64LE 256 = Some [0; 1; 0; 0; 0; 0; 0; 0] /\
  1 < 256 /\
  Buffer.compare [1; 0; 0; 0; 0; 0; 0; 0] [0; 1; 0; 0; 0; 0; 0; 0] = Gt.
Proof.
  repeat split; try reflexivity.
  vm_compute. intros H. discriminate H.
Qed.

(** C6, amended: for every nonce in [0, 2^64) the derivation input is
    the four seeds "intent", from, to and the nonce encoded as exactly
    8 bytes in little-endian order (the byte-reverse of the big-endian
    encoding); the encoding is fixed-width and reads back to the nonce. *)
Theorem intent_seeds_nonce_encoding
    (PublicKey : Type) (toBuffer : PublicKey -> list Z)
    (from to : PublicKey) (nonce : Z) :
  0 <= nonce < 2 ^ 64 ->
  exists nb,
    Mesh.intent_seeds toBuffer from to nonce
      = Some [Buffer.from_string "intent"; toBuffer from; toBuffer to; nb] /\
    length nb = 8%nat /\
    Forall (fun b => 0 <= b < 256) nb /\
    (forall i, (i < 8)%nat -> nb !! i = Some (Z.shiftr nonce (8 * Z.of_nat i) mod 256)) /\
    Buffer.readLE nb = nonce /\
    Buffer.writeBigUInt64BE nonce = Some (rev nb).
Proof.
  intros Hr.
  destruct (writeBigUInt64LE_spec nonce Hr) as (nb & Hw & Hlen & Hb & Hrd & Hbe).
  exists nb. unfold Mesh.intent_seeds. rewrite Hw.
  split; [reflexivity|]. split; [exact Hlen|]. split; [exact Hb|].
  split; [|split; assumption].
  unfold Buffer.writeBigUInt64LE in Hw.
  destruct ((0 <=? nonce) && (nonce <? 2 ^ 64)); [|discriminate Hw].
  injection Hw as <-. intros i Hi.
  do 8 (destruct i as [|i]; [reflexivity|]). lia.
Qed.

Lemma intent_seeds_nonce_encoding_witness :
  exists nb,
    Mesh.intent_seeds (fun k : list Z => k) [7] [9] 1700000000000
      = Some [Buffer.from_string "intent"; [7]; [9]; nb] /\
    length nb = 8%nat /\
    Buffer.readLE nb = 1700000000000.
Proof.
  destruct (intent_seeds_nonce_encoding (list Z) (fun k => k) [7] [9] 1700000000000
              ltac:(lia)) as (nb & H1 & H2 & _ & _ & H3 & _).
  exists nb. split; [exact H1 | split; [exact H2 | exact H3]].
Defined.

(** ** Permission checks of [executeAction] *)

Lemma to_int32_testbit (x n : Z) :
  0 <= n < 32 -> Z.testbit (Mesh.to_int32 x) n = Z.testbit x n.
Proof.
  intros Hn. unfold Mesh.to_int32.
  assert (Hm : Z.testbit (x mod 2 ^ 32) n = Z.testbit x n)
    by (apply Z.mod_pow2_bits_low; lia).
  destruct (x mod 2 ^ 32 <? 2 ^ 31); [exact Hm|].
  rewrite <- Hm.
  rewrite <- (Z.mod_pow2_bits_low (x mod 2 ^ 32 - 2 ^ 32) 32 n) by lia.
  rewrite <- (Z.mod_pow2_bits_low (x mod 2 ^ 32) 32 n) by lia.
  f_equal.
  replace (x mod 2 ^ 32 - 2 ^ 32) with (x mod 2 ^ 32 + (-1) * 2 ^ 32) by lia.
  apply Z.mod_add. lia.
Qed.

Lemma land_pow2 (a n : Z) :
  0 <= n -> Z.land a (2 ^ n) = if Z.testbit a n then 2 ^ n else 0.
Proof.
  intros Hn. apply Z.bits_inj'. intros m Hm.
  rewrite Z.land_spec, Z.pow2_bits_eqb by lia.
  destruct (Z.eqb_spec n m) as [->|Hne].
  - rewrite andb_true_r. destruct (Z.testbit a m) eqn:E.
    + rewrite Z.pow2_bits_true by lia. reflexivity.
    + rewrite Z.bits_0. reflexivity.
  - rewrite andb_false_r. destruct (Z.testbit a n).
    + rewrite Z.pow2_bits_false by lia. reflexivity.
    + rewrite Z.bits_0. reflexivity.
Qed.

(** [mask & (1 << n)] is zero exactly when bit [n] of the mask is clear. *)
Lemma bit_and_flag (mask n : Z) :
  0 <= n < 31 ->
  (Mesh.bit_and mask (Mesh.shift_left 1 n) =? 0) = negb (Z.testbit mask n).
Proof.
  intros Hn. unfold Mesh.bit_and.
  assert (Hf : Mesh.to_int32 (Mesh.shift_left 1 n) = 2 ^ n).
  { unfold Mesh.shift_left.
    assert (H1 : Mesh.to_int32 1 = 1) by reflexivity. rewrite H1.
    rewrite Z.mod_small by lia. rewrite Z.shiftl_1_l.
    assert (Hb : 0 < 2 ^ n < 2 ^ 31).
    { split; [apply Z.pow_pos_nonneg; lia | apply Z.pow_lt_mono_r; lia]. }
    assert (Hi : Mesh.to_int32 (2 ^ n) = 2 ^ n).
    { unfold Mesh.to_int32. rewrite Z.mod_small by lia.
      destruct (Z.ltb_spec (2 ^ n) (2 ^ 31)); [reflexivity | lia]. }
    rewrite Hi. exact Hi. }
  rewrite Hf, land_pow2 by lia. rewrite to_int32_testbit by lia.
  destruct (Z.testbit mask n); simpl.
  - apply Z.eqb_neq. assert (0 < 2 ^ n) by (apply Z.pow_pos_nonneg; lia). lia.
  - reflexivity.
Qed.

(** C8: [executeAction] checks the flag of the action kind first.  A
    swap by an agent whose mask lacks CAN_SWAP (bit 0), and a transfer by
    one whose mask lacks CAN_TRANSFER (bit 1), throw the permission error
    with nothing but the console line in the trace and the state
    untouched; an action kind other than swap and transfer throws
    the unknown-action error, again without any external call. *)
Theorem executeAction_checks_permission_first
    (PublicKey : Type) (toBase58 : PublicKey -> string) (S : Type)
    (agentConfig : @Mesh.AgentConfig PublicKey) (params : Json.value) (s : S) :
  (Z.testbit (Mesh.permissions agentConfig) 0 = false ->
   let r := Mesh.executeAction toBase58 agentConfig "swap" params s in
   Mesh.outcome r = Mesh.Thrown (Mesh.Error "Agent does not have CAN_SWAP permission") /\
   Mesh.final r = s /\ Mesh.no_external_call (Mesh.trace r)) /\
  (Z.testbit (Mesh.permissions agentConfig) 1 = false ->
   let r := Mesh.executeAction toBase58 agentConfig "transfer" params s in
   Mesh.outcome r = Mesh.Thrown (Mesh.Error "Agent does not have CAN_TRANSFER permission") /\
   Mesh.final r = s /\ Mesh.no_external_call (Mesh.trace r)) /\
  (forall action : string,
   action <> "swap" -> action <> "transfer" ->
   let r := Mesh.executeAction toBase58 agentConfig action params s in
   Mesh.outcome r = Mesh.Thrown (Mesh.Error ("Unknown action: " +:+ action)) /\
   Mesh.final r = s /\ Mesh.no_external_call (Mesh.trace r)).
Proof.
  split; [|split].
  - intros Hbit.
    pose proof (bit_and_flag (Mesh.permissions agentConfig) 0 ltac:(lia)) as Hf.
    rewrite Hbit in Hf.
    unfold Mesh.executeAction, Mesh.bind, Mesh.emit, Mesh.throw.
    unfold Mesh.Permission.CAN_SWAP. rewrite Hf. simpl.
    repeat split; reflexivity.
  - intros Hbit.
    pose proof (bit_and_flag (Mesh.permissions agentConfig) 1 ltac:(lia)) as Hf.
    rewrite Hbit in Hf.
    unfold Mesh.executeAction, Mesh.bind, Mesh.emit, Mesh.throw.
    unfold Mesh.Permission.CAN_TRANSFER. rewrite Hf. simpl.
    repeat split; reflexivity.
  - intros action Hs Ht.
    apply String.eqb_neq in Hs. apply String.eqb_neq in Ht.
    unfold Mesh.executeAction, Mesh.bind, Mesh.emit, Mesh.throw.
    rewrite Hs, Ht. simpl.
    repeat split; reflexivity.
Qed.

Lemma executeAction_checks_permission_first_witness :
  let cfg := Mesh.mkAgentConfig "owner" "agent" "profile" "https://example.com/agent.json" 8 in
  Mesh.outcome (Mesh.executeAction (fun k : string => k) cfg "swap" Json.Null tt)
    = Mesh.Thrown (Mesh.Error "Agent does not have CAN_SWAP permission") /\
  Mesh.outcome (Mesh.executeAction (fun k : string => k) cfg "transfer" Json.Null tt)
    = Mesh.Thrown (Mesh.Error "Agent does not have CAN_TRANSFER permission") /\
  Mesh.outcome (Mesh.executeAction (fun k : string => k) cfg "stake" Json.Null tt)
    = Mesh.Thrown (Mesh.Error "Unknown action: stake").
Proof.
  intros cfg.
  destruct (executeAction_checks_permission_first string (fun k => k) unit cfg Json.Null tt)
    as (Hswap & Htransfer & Hother).
  split; [exact (proj1 (Hswap eq_refl))|].
  split; [exact (proj1 (Htransfer eq_refl))|].
  refine (proj1 (Hother "stake" _ _)); intros H; discriminate H.
Defined.

(** With the flag present the action goes through (here: simulated). *)
Example executeAction_swap_allowed :
  let cfg := Mesh.mkAgentConfig "owner" "agent" "profile" "https://example.com/agent.json" 9 in
  Mesh.outcome
    (Mesh.executeAction (fun k : string => k) cfg "swap"
       (Json.Obj [("inputMint", Json.Str "SOL"); ("outputMint", Json.Str "USDC");
                  ("amount", Json.Num 1000000000)]) tt)
  = Mesh.Returned "simulated-swap-tx-signature".
Proof. reflexivity. Qed.

(** ** Integrity check of [processIntent] *)

(** C1: when the body fetched from the intent's payload locator does not
    hash to the stored payload digest, [processIntent] throws the
    payload-hash-mismatch error; the only event before the throw is the
    fetch, so no LLM backend has been called, and the objects it holds,
    the intent with its status [Accepted] among them, are as before. *)
Theorem processIntent_rejects_altered_payload
    (PublicKey : Type) (toBase58 : PublicKey -> string)
    (w : Mesh.World) (agentConfig : @Mesh.AgentConfig PublicKey)
    (h : @Mesh.Heap PublicKey) (body : Json.value) :
  Mesh.status (Mesh.intent h) = Mesh.Accepted ->
  Mesh.axios_get w (Mesh.payloadUri (Mesh.intent h)) = Some body ->
  Mesh.payload_digest body <> Mesh.payloadHash (Mesh.intent h) ->
  let r := Mesh.processIntent toBase58 w agentConfig h in
  Mesh.outcome r = Mesh.Thrown (Mesh.Error "Payload hash mismatch") /\
  Mesh.trace r = [Mesh.HttpGet (Mesh.payloadUri (Mesh.intent h))] /\
  Mesh.no_llm_call (Mesh.trace r) /\
  Mesh.final r = h /\
  Mesh.status (Mesh.intent (Mesh.final r)) = Mesh.Accepted.
Proof.
  intros Hst Hget Hne r. subst r.
  unfold Mesh.processIntent, Mesh.bind, Mesh.gets, Mesh.emit, Mesh.throw.
  rewrite Hget.
  unfold Buffer.equals. rewrite bool_decide_eq_false_2 by exact Hne.
  simpl. repeat split. exact Hst.
Qed.

Lemma processIntent_rejects_altered_payload_witness :
  let original := Json.Obj [("prompt", Json.Str "rebalance")] in
  let altered := Json.Obj [("prompt", Json.Str "drain")] in
  let i := Mesh.mkIntentData "A" "B" 1 Mesh.Accepted (Mesh.payload_digest original)
             "https://mesh.example.com/payloads/1" 0 "USDC" [] "" in
  let llm := Mesh.mkLLMProvider "mock-llm" (fun _ => Mesh.Returned "ok") in
  let h := Mesh.mkHeap (Mesh.mkController {["P" := llm]}) i in
  let w := Mesh.mkWorld (fun _ => Some altered) 1700000000000 in
  let cfg := Mesh.mkAgentConfig "owner" "B" "P" "" 16 in
  let r := Mesh.processIntent (fun k : string => k) w cfg h in
  Mesh.outcome r = Mesh.Thrown (Mesh.Error "Payload hash mismatch") /\
  Mesh.no_llm_call (Mesh.trace r) /\
  Mesh.status (Mesh.intent (Mesh.final r)) = Mesh.Accepted.
Proof.
  intros original altered i llm h w cfg r.
  assert (Hne : Mesh.payload_digest altered <> Mesh.payloadHash (Mesh.intent h)).
  { vm_compute. intros H. discriminate H. }
  destruct (processIntent_rejects_altered_payload string (fun k => k) w cfg h altered
              eq_refl eq_refl Hne) as (H1 & _ & H3 & _ & H5).
  split; [exact H1 | split; [exact H3 | exact H5]].
Defined.

(** The same intent with its payload intact does reach the backend. *)
Example processIntent_intact_payload :
  let original := Json.Obj [("prompt", Json.Str "rebalance")] in
  let i := Mesh.mkIntentData "A" "B" 1 Mesh.Accepted (Mesh.payload_digest original)
             "https://mesh.example.com/payloads/1" 0 "USDC" [] "" in
  let llm := Mesh.mkLLMProvider "mock-llm" (fun _ => Mesh.Returned "ok") in
  let h := Mesh.mkHeap (Mesh.mkController {["P" := llm]}) i in
  let w := Mesh.mkWorld (fun _ => Some original) 1700000000000 in
  let cfg := Mesh.mkAgentConfig "owner" "B" "P" "" 16 in
  Mesh.trace (Mesh.processIntent (fun k : string => k) w cfg h)
  = [Mesh.HttpGet "https://mesh.example.com/payloads/1";
     Mesh.ConsoleLog "[Mesh] Processing intent with LLM provider mock-llm";
     Mesh.LlmCall "mock-llm" (Json.Str "rebalance")].
Proof. vm_compute. reflexivity. Qed.

(** ** The registry endpoints *)

Lemma truthy_val_truthy (x : option Json.value) (v : Json.value) :
  Json.truthy_val x = Some v -> x = Some v /\ Json.truthy v = true.
Proof.
  unfold Json.truthy_val. destruct x as [u|]; [|discriminate].
  destruct (Json.truthy u) eqn:E; [|discriminate].
  intros H. injection H as <-. split; [reflexivity | exact E].
Qed.

Lemma truthy_val_falsy (v : Json.value) :
  Json.truthy v = false -> Json.truthy_val (Some v) = None.
Proof. intros H. unfold Json.truthy_val. rewrite H. reflexivity. Qed.

Lemma or_else_default (x : option Json.value) (d : Json.value) :
  Json.truthy_val x = None -> Json.or_else x d = d.
Proof. intros H. unfold Json.or_else. rewrite H. reflexivity. Qed.

Lemma reachable_run (rs : list (Api.Env * Api.Request)) (st : Api.Store) :
  Api.reachable st -> Api.reachable (Api.run rs st).
Proof.
  revert st. induction rs as [|[env r] rs IH]; intros st Hst; simpl.
  - exact Hst.
  - apply IH. apply Api.reachable_step. exact Hst.
Qed.

(** *** Agent registration *)

(** C10, as stated, fails: a registration that omits [permissions] but
    supplies [modelProfile] and [metadataUri] keeps the supplied values;
    only the omitted field takes its default. *)
Lemma post_agents_keeps_supplied_fields :
  let req := Json.Obj [("ownerWallet", Json.Str "Demo1111");
                       ("agentWallet", Json.Str "Research1111");
                       ("modelProfile", Json.Str "cheap-llm-profile");
                       ("metadataUri", Json.Str "https://mesh.example.com/agents/research.json")] in
  let env := Api.mkEnv "agent-1" 1700000000000 "2023-11-14T22:13:20.000Z" in
  Json.get req "permissions" = None /\
  exists agent,
    fst (Api.post_agents env req Api.empty_store) = Api.mkResponse 201 (Api.AgentBody agent) /\
    Api.agents (snd (Api.post_agents env req Api.empty_store)) !! "agent-1" = Some agent /\
    Api.Agent.permissions agent = Json.Num 0 /\
    Api.Agent.modelProfile agent = Json.Str "cheap-llm-profile" /\
    Api.Agent.modelProfile agent <> Json.Null /\
    Api.Agent.metadataUri agent <> Json.Str "".
Proof.
  intros req env. split; [reflexivity|].
  eexists. split; [reflexivity|].
  split; [vm_compute; reflexivity|].
  split; [reflexivity|]. split; [reflexivity|].
  split; intros H; discriminate H.
Qed.

(** C10, amended: a registration that supplies [ownerWallet] and
    [agentWallet] but omits [permissions] creates (status 201) an agent
    with permission mask 0; its [modelProfile] is [null] when the request
    omits [modelProfile] (or gives a falsy one) and its [metadataUri] is
    the empty string when the request omits [metadataUri] (or gives a
    falsy one).  Registration fails with status 400, storing nothing,
    when [ownerWallet] or [agentWallet] is missing (or falsy). *)
Theorem post_agents_defaults (env : Api.Env) (req : Json.value) (st : Api.Store) :
  (forall ownerWallet agentWallet,
     Json.truthy_val (Json.get req "ownerWallet") = Some ownerWallet ->
     Json.truthy_val (Json.get req "agentWallet") = Some agentWallet ->
     Json.get req "permissions" = None ->
     exists agent,
       Api.post_agents env req st
         = (Api.mkResponse 201 (Api.AgentBody agent),
            Api.set_agents (<[Api.randomUUID env := agent]> (Api.agents st)) st) /\
       Api.Agent.ownerWallet agent = ownerWallet /\
       Api.Agent.agentWallet agent = agentWallet /\
       Api.Agent.permissions agent = Json.Num 0 /\
       (forall flag, Mesh.bit_and 0 flag = 0) /\
       (Json.truthy_val (Json.get req "modelProfile") = None ->
        Api.Agent.modelProfile agent = Json.Null) /\
       (Json.truthy_val (Json.get req "metadataUri") = None ->
        Api.Agent.metadataUri agent = Json.Str "")) /\
  (Json.truthy_val (Json.get req "ownerWallet") = None \/
   Json.truthy_val (Json.get req "agentWallet") = None ->
   Api.post_agents env req st
     = (Api.mkResponse 400 (Api.ErrorBody "ownerWallet and agentWallet required"), st)).
Proof.
  split.
  - intros ow aw How Haw Hperm. unfold Api.post_agents. rewrite How, Haw, Hperm.
    eexists. split; [reflexivity|]. simpl.
    split; [reflexivity|]. split; [reflexivity|]. split; [reflexivity|].
    split; [intros flag; reflexivity|].
    split; intros H; apply or_else_default; exact H.
  - intros [H|H]; unfold Api.post_agents; rewrite H.
    + reflexivity.
    + destruct (Json.truthy_val (Json.get req "ownerWallet")); reflexivity.
Qed.

Lemma post_agents_defaults_witness :
  let req := Json.Obj [("ownerWallet", Json.Str "Demo1111");
                       ("agentWallet", Json.Str "Research1111")] in
  let env := Api.mkEnv "agent-1" 1700000000000 "2023-11-14T22:13:20.000Z" in
  (exists agent,
     fst (Api.post_agents env req Api.empty_store) = Api.mkResponse 201 (Api.AgentBody agent) /\
     Api.Agent.permissions agent = Json.Num 0 /\
     Api.Agent.modelProfile agent = Json.Null /\
     Api.Agent.metadataUri agent = Json.Str "") /\
  Api.post_agents env (Json.Obj [("agentWallet", Json.Str "Research1111")]) Api.empty_store
    = (Api.mkResponse 400 (Api.ErrorBody "ownerWallet and agentWallet required"),
       Api.empty_store).
Proof.
  intros req env. split.
  - destruct (proj1 (post_agents_defaults env req Api.empty_store)
                (Json.Str "Demo1111") (Json.Str "Research1111") eq_refl eq_refl eq_refl)
      as (agent & Hrun & _ & _ & Hp & _ & Hm & Hu).
    exists agent. rewrite Hrun.
    split; [reflexivity|]. split; [exact Hp|].
    split; [exact (Hm eq_refl) | exact (Hu eq_refl)].
  - apply (proj2 (post_agents_defaults env
                    (Json.Obj [("agentWallet", Json.Str "Research1111")]) Api.empty_store)).
    left. reflexivity.
Defined.

(** *** Model-profile update *)

Lemma assign_if_truthy_falsy {A : Type} (x : option Json.value)
    (set : Json.value -> A -> A) (obj : A) :
  Json.truthy_val x = None -> Api.assign_if_truthy x set obj = obj.
Proof. intros H. unfold Api.assign_if_truthy. rewrite H. reflexivity. Qed.

(** C9: the update of a model profile ignores fields given with falsy
    values.  A [maxTokensPerDay] or [maxRequestsPerMin] of 0, and a
    [label] or [providerUri] that is the empty string, leave the stored
    value as it was, whereas [pricing] is assigned whenever it is present,
    0 included.  Hence no update turns a non-zero cap into 0. *)
Theorem put_model_profile_ignores_falsy
    (env : Api.Env) (id : string) (req : Json.value) (st : Api.Store)
    (profile : Api.ModelProfile.t) :
  Api.modelProfiles st !! id = Some profile ->
  exists profile',
    Api.put_model_profile env id req st
      = (Api.mkResponse 200 (Api.ProfileBody profile'),
         Api.set_modelProfiles (<[id := profile']> (Api.modelProfiles st)) st) /\
    (forall v, Json.get req "maxTokensPerDay" = Some v -> Json.truthy v = false ->
     Api.ModelProfile.maxTokensPerDay profile' = Api.ModelProfile.maxTokensPerDay profile) /\
    (forall v, Json.get req "maxRequestsPerMin" = Some v -> Json.truthy v = false ->
     Api.ModelProfile.maxRequestsPerMin profile' = Api.ModelProfile.maxRequestsPerMin profile) /\
    (forall v, Json.get req "label" = Some v -> Json.truthy v = false ->
     Api.ModelProfile.label profile' = Api.ModelProfile.label profile) /\
    (forall v, Json.get req "providerUri" = Some v -> Json.truthy v = false ->
     Api.ModelProfile.providerUri profile' = Api.ModelProfile.providerUri profile) /\
    (forall v, Json.get req "pricing" = Some v ->
     Api.ModelProfile.pricing profile' = v) /\
    (Api.ModelProfile.maxTokensPerDay profile <> Json.Num 0 ->
     Api.ModelProfile.maxTokensPerDay profile' <> Json.Num 0) /\
    (Api.ModelProfile.maxRequestsPerMin profile <> Json.Num 0 ->
     Api.ModelProfile.maxRequestsPerMin profile' <> Json.Num 0).
Proof.
  intros Hlook. unfold Api.put_model_profile. rewrite Hlook.
  eexists. split; [reflexivity|].
  split; [|split; [|split; [|split; [|split; [|split]]]]].
  - intros v H Hf. rewrite H.
    rewrite (assign_if_truthy_falsy (Some v)) by (apply truthy_val_falsy; exact Hf).
    case_assigns; reflexivity.
  - intros v H Hf. rewrite H.
    rewrite (assign_if_truthy_falsy (Some v)) by (apply truthy_val_falsy; exact Hf).
    case_assigns; reflexivity.
  - intros v H Hf. rewrite H.
    rewrite (assign_if_truthy_falsy (Some v)) by (apply truthy_val_falsy; exact Hf).
    case_assigns; reflexivity.
  - intros v H Hf. rewrite H.
    rewrite (assign_if_truthy_falsy (Some v)) by (apply truthy_val_falsy; exact Hf).
    case_assigns; reflexivity.
  - intros v H. rewrite H. case_assigns; reflexivity.
  - intros Hnz.
    unfold Api.assign_if_truthy, Api.assign_if_defined.
    destruct (Json.truthy_val (Json.get req "maxTokensPerDay")) as [v|] eqn:E.
    + apply truthy_val_truthy in E as [_ Ht].
      assert (Hv : v <> Json.Num 0) by (intros ->; discriminate Ht).
      case_assigns; exact Hv.
    + case_assigns; exact Hnz.
  - intros Hnz.
    unfold Api.assign_if_truthy, Api.assign_if_defined.
    destruct (Json.truthy_val (Json.get req "maxRequestsPerMin")) as [v|] eqn:E.
    + apply truthy_val_truthy in E as [_ Ht].
      assert (Hv : v <> Json.Num 0) by (intros ->; discriminate Ht).
      case_assigns; exact Hv.
    + case_assigns; exact Hnz.
Qed.

Lemma put_model_profile_ignores_falsy_witness :
  let env0 := Api.mkEnv "unused" 1700000000000 "2023-11-14T22:13:20.000Z" in
  let st := snd (Api.demo_setup env0 Api.empty_store) in
  let env := Api.mkEnv "unused" 1700000060000 "2023-11-14T22:14:20.000Z" in
  let req := Json.Obj [("label", Json.Str ""); ("providerUri", Json.Str "");
                       ("pricing", Json.Num 0); ("maxTokensPerDay", Json.Num 0);
                       ("maxRequestsPerMin", Json.Num 0)] in
  exists profile',
    Api.put_model_profile env "cheap-llm-profile" req st
      = (Api.mkResponse 200 (Api.ProfileBody profile'),
         Api.set_modelProfiles (<["cheap-llm-profile" := profile']> (Api.modelProfiles st)) st) /\
    Api.ModelProfile.maxTokensPerDay profile' = Json.Num 10000000 /\
    Api.ModelProfile.maxRequestsPerMin profile' = Json.Num 100 /\
    Api.ModelProfile.label profile' = Json.Str "cheap-llm" /\
    Api.ModelProfile.providerUri profile' = Json.Str "https://mesh-gateway.example.com/cheap" /\
    Api.ModelProfile.pricing profile' = Json.Num 0.
Proof.
  intros env0 st env req.
  assert (Hlook : Api.modelProfiles st !! "cheap-llm-profile"
                  = Some (Api.ModelProfile.mk "cheap-llm-profile"
                            (Json.Str "Demo11111111111111111111111111111111111111")
                            (Json.Str "cheap-llm")
                            (Json.Str "https://mesh-gateway.example.com/cheap")
                            (Json.Num 100)
                            (Json.Str "Billing1111111111111111111111111111111111")
                            (Json.Num 10000000) (Json.Num 100)
                            "2023-11-14T22:13:20.000Z" None)).
  { vm_compute. reflexivity. }
  destruct (put_model_profile_ignores_falsy env "cheap-llm-profile" req st _ Hlook)
    as (p' & Hrun & Htok & Hreq & Hlab & Huri & Hpri & _ & _).
  exists p'. split; [exact Hrun|].
  split; [exact (Htok (Json.Num 0) eq_refl eq_refl)|].
  split; [exact (Hreq (Json.Num 0) eq_refl eq_refl)|].
  split; [exact (Hlab (Json.Str "") eq_refl eq_refl)|].
  split; [exact (Huri (Json.Str "") eq_refl eq_refl)|].
  exact (Hpri (Json.Num 0) eq_refl).
Defined.

(** *** Intent creation *)

Lemma post_intents_created (env : Api.Env) (req : Json.value) (st : Api.Store)
    (fromAgent toAgent payload : Json.value) :
  Json.truthy_val (Json.get req "fromAgent") = Some fromAgent ->
  Json.truthy_val (Json.get req "toAgent") = Some toAgent ->
  Json.truthy_val (Json.get req "payload") = Some payload ->
  Api.post_intents env req st
  = (let intent :=
       Api.Intent.mk (Api.randomUUID env) fromAgent toAgent (Api.now env)
         (Json.Str "pending") (Api.sha256_hex (Json.stringify payload))
         ("https://mesh.example.com/payloads/" +:+ Api.randomUUID env) payload
         (Json.or_else (Json.get req "paymentAmount") (Json.Num 0))
         (Json.or_else (Json.get req "paymentMint")
                       (Json.Str "EPjFWdd5AufqSSqeM2qN1xzybapC8G4wEGGkZwyTDt1v"))
         None None Json.Null (Api.isoNow env) None in
     (Api.mkResponse 201 (Api.IntentBody intent),
      Api.set_intents (<[Api.randomUUID env := intent]> (Api.intents st)) st)).
Proof. intros Hf Ht Hp. unfold Api.post_intents. rewrite Hf, Ht, Hp. reflexivity. Qed.





(** *** Nonces *)

(** C7, as stated, fails: two creations for the same (source,
    destination) pair that read the same millisecond from the clock get
    the same nonce; both are answered 201 and both are stored, with no
    collision detected and no retry. *)
Lemma post_intents_nonce_can_repeat :
  let env1 := Api.mkEnv "intent-1" 1700000000500 "2023-11-14T22:13:20.500Z" in
  let env2 := Api.mkEnv "intent-2" 1700000000500 "2023-11-14T22:13:20.500Z" in
  let req := Json.Obj [("fromAgent", Json.Str "research-agent-1");
                       ("toAgent", Json.Str "execution-agent-1");
                       ("payload", Json.Obj [("action", Json.Str "swap")])] in
  let st1 := snd (Api.post_intents env1 req Api.empty_store) in
  let st2 := snd (Api.post_intents env2 req st1) in
  Api.code (fst (Api.post_intents env1 req Api.empty_store)) = 201 /\
  Api.code (fst (Api.post_intents env2 req st1)) = 201 /\
  exists i1 i2,
    Api.intents st2 !! "intent-1" = Some i1 /\
    Api.intents st2 !! "intent-2" = Some i2 /\
    Api.Intent.fromAgent i1 = Api.Intent.fromAgent i2 /\
    Api.Intent.toAgent i1 = Api.Intent.toAgent i2 /\
    Api.Intent.nonce i1 = Api.Intent.nonce i2.
Proof.
  intros env1 env2 req st1 st2.
  split; [reflexivity|]. split; [reflexivity|].
  eexists. eexists.
  split; [vm_compute; reflexivity|].
  split; [vm_compute; reflexivity|].
  split; [reflexivity|]. split; reflexivity.
Qed.

(** C7, amended: the nonce of a created intent is the clock reading
    ([Date.now()]) of its creation, so two creations for the same pair
    have different nonces exactly when their clock readings differ.
    Nothing is detected or retried; intents are stored under the fresh
    random id of the request, so every intent stored under another id,
    the one of the first creation included, is kept as it was. *)
Theorem post_intents_nonce_is_clock
    (env1 env2 : Api.Env) (req1 req2 : Json.value) (st : Api.Store)
    (fromAgent toAgent payload1 payload2 : Json.value) :
  Json.truthy_val (Json.get req1 "fromAgent") = Some fromAgent ->
  Json.truthy_val (Json.get req1 "toAgent") = Some toAgent ->
  Json.truthy_val (Json.get req1 "payload") = Some payload1 ->
  Json.truthy_val (Json.get req2 "fromAgent") = Some fromAgent ->
  Json.truthy_val (Json.get req2 "toAgent") = Some toAgent ->
  Json.truthy_val (Json.get req2 "payload") = Some payload2 ->
  Api.randomUUID env1 <> Api.randomUUID env2 ->
  let st1 := snd (Api.post_intents env1 req1 st) in
  let st2 := snd (Api.post_intents env2 req2 st1) in
  Api.code (fst (Api.post_intents env1 req1 st)) = 201 /\
  Api.code (fst (Api.post_intents env2 req2 st1)) = 201 /\
  (exists i1 i2,
     Api.intents st2 !! Api.randomUUID env1 = Some i1 /\
     Api.intents st1 !! Api.randomUUID env1 = Some i1 /\
     Api.intents st2 !! Api.randomUUID env2 = Some i2 /\
     Api.Intent.nonce i1 = Api.now env1 /\
     Api.Intent.nonce i2 = Api.now env2 /\
     (Api.Intent.nonce i1 <> Api.Intent.nonce i2 <-> Api.now env1 <> Api.now env2)) /\
  (forall id, id <> Api.randomUUID env2 -> Api.intents st2 !! id = Api.intents st1 !! id).
Proof.
  intros Hf1 Ht1 Hp1 Hf2 Ht2 Hp2 Hid st1 st2. subst st1 st2.
  rewrite (post_intents_created env1 req1 st _ _ _ Hf1 Ht1 Hp1).
  cbn zeta. cbn [fst snd].
  rewrite (post_intents_created env2 req2 _ _ _ _ Hf2 Ht2 Hp2).
  cbn zeta. cbn [fst snd Api.code Api.intents Api.set_intents].
  split; [reflexivity|]. split; [reflexivity|]. split.
  - eexists. eexists.
    split; [rewrite lookup_insert_ne by (intros H; apply Hid; symmetry; exact H);
            apply lookup_insert_eq|].
    split; [apply lookup_insert_eq|].
    split; [apply lookup_insert_eq|].
    split; [reflexivity|]. split; [reflexivity|]. reflexivity.
  - intros id Hne. apply lookup_insert_ne. intros H. apply Hne. symmetry. exact H.
Qed.

Lemma post_intents_nonce_is_clock_witness :
  let env1 := Api.mkEnv "intent-1" 1700000000500 "2023-11-14T22:13:20.500Z" in
  let env2 := Api.mkEnv "intent-2" 1700000000501 "2023-11-14T22:13:20.501Z" in
  let req := Json.Obj [("fromAgent", Json.Str "research-agent-1");
                       ("toAgent", Json.Str "execution-agent-1");
                       ("payload", Json.Obj [("action", Json.Str "swap")])] in
  let st1 := snd (Api.post_intents env1 req Api.empty_store) in
  let st2 := snd (Api.post_intents env2 req st1) in
  exists i1 i2,
    Api.intents st2 !! "intent-1" = Some i1 /\
    Api.intents st2 !! "intent-2" = Some i2 /\
    Api.Intent.nonce i1 = 1700000000500 /\
    Api.Intent.nonce i2 = 1700000000501.
Proof.
  intros env1 env2 req st1 st2.
  assert (Hid : Api.randomUUID env1 <> Api.randomUUID env2)
    by (intros H; discriminate H).
  destruct (post_intents_nonce_is_clock env1 env2 req req Api.empty_store
              (Json.Str "research-agent-1") (Json.Str "execution-agent-1")
              (Json.Obj [("action", Json.Str "swap")])
              (Json.Obj [("action", Json.Str "swap")])
              eq_refl eq_refl eq_refl eq_refl eq_refl eq_refl Hid)
    as (_ & _ & (i1 & i2 & H1 & _ & H2 & Hn1 & Hn2 & _) & _).
  exists i1, i2.
  split; [exact H1|]. split; [exact H2|]. split; [exact Hn1 | exact Hn2].
Defined.

(** *** Status updates *)




(** *** Result digests, in every store the server reaches *)

(** When every serialization returns, the server is the registry of
    [Api]: same answer, same store. *)
Lemma handle_serializing (rt : Server.Runtime) (r : Api.Request) (st : Api.Store) :
  (forall v, Server.serializes rt v = true) ->
  Server.handle rt r st
  = (Server.Answered (Api.code (fst (Api.handle (Server.env rt) r st)))
                     (Api.body (fst (Api.handle (Server.env rt) r st))),
     snd (Api.handle (Server.env rt) r st)).
Proof.
  intros Hs.
  assert (Hsend : forall thrown res,
            Server.send rt thrown res = Server.Answered (Api.code res) (Api.body res)).
  { intros thrown res. unfold Server.send. rewrite Hs. destruct (Api.body res); reflexivity. }
  destruct r as [req|id req|req|id req|req|id req|]; cbn [Server.handle Api.handle].
  - unfold Server.post_agents. cbv zeta. rewrite Hsend. reflexivity.
  - unfold Server.put_agent. cbv zeta. rewrite Hsend. reflexivity.
  - unfold Server.post_model_profiles. cbv zeta. rewrite Hsend. reflexivity.
  - unfold Server.put_model_profile. cbv zeta. rewrite Hsend. reflexivity.
  - unfold Server.post_intents, Api.post_intents.
    destruct (Json.truthy_val (Json.get req "fromAgent")); [|reflexivity].
    destruct (Json.truthy_val (Json.get req "toAgent")); [|reflexivity].
    destruct (Json.truthy_val (Json.get req "payload")); [|reflexivity].
    rewrite Hs. cbv zeta. rewrite Hsend. reflexivity.
  - unfold Server.put_intent_status, Api.put_intent_status, Api.assign_if_truthy,
      Api.record_result.
    destruct (Api.intents st !! id); [|reflexivity].
    destruct (Json.truthy_val (Json.get req "status")); [|reflexivity].
    destruct (Json.truthy_val (Json.get req "result")).
    + rewrite Hs. cbv zeta. rewrite Hsend. reflexivity.
    + cbv zeta. rewrite Hsend. reflexivity.
  - unfold Server.demo_setup. cbv zeta. rewrite Hsend. reflexivity.
Qed.

Lemma reachable_serializing (st : Api.Store) : Api.reachable st -> Server.reachable st.
Proof.
  induction 1 as [|st env r Hreach IH]; [apply Server.reachable_start|].
  pose proof (handle_serializing (Server.mkRuntime env (fun _ => true)) r st
                (fun _ => eq_refl)) as H.
  cbn [Server.env] in H.
  replace (snd (Api.handle env r st))
    with (snd (Server.handle (Server.mkRuntime env (fun _ => true)) r st))
    by (rewrite H; reflexivity).
  apply Server.reachable_step. exact IH.
Qed.

Lemma server_reachable_run (rs : list (Server.Runtime * Api.Request)) (st : Api.Store) :
  Server.reachable st -> Server.reachable (Server.run rs st).
Proof.
  revert st. induction rs as [|[rt r] rs IH]; intros st Hst; simpl.
  - exact Hst.
  - apply IH. apply Server.reachable_step. exact Hst.
Qed.

(** The handlers other than the two intent endpoints leave the intents
    alone. *)
Lemma handle_intents (rt : Server.Runtime) (r : Api.Request) (st : Api.Store) :
  match r with
  | Api.PostIntents _ | Api.PutIntentStatus _ _ => True
  | _ => Api.intents (snd (Server.handle rt r st)) = Api.intents st
  end.
Proof.
  destruct r as [req|id req|req|id req|req|id req|]; try exact I;
    cbn [Server.handle].
  - unfold Server.post_agents, Api.post_agents. cbv zeta. case_fields; reflexivity.
  - unfold Server.put_agent, Api.put_agent. cbv zeta. case_fields; reflexivity.
  - unfold Server.post_model_profiles, Api.post_model_profiles. cbv zeta.
    case_fields; reflexivity.
  - unfold Server.put_model_profile, Api.put_model_profile. cbv zeta.
    case_fields; reflexivity.
  - reflexivity.
Qed.

Lemma handle_digest_recorded (rt : Server.Runtime) (r : Api.Request) (st : Api.Store) :
  map_Forall (fun _ i => Server.digest_recorded i) (Api.intents st) ->
  map_Forall (fun _ i => Server.digest_recorded i) (Api.intents (snd (Server.handle rt r st))).
Proof.
  intros Hst. pose proof (handle_intents rt r st) as Hsame.
  destruct r as [req|id req|req|id req|req|id req|]; try (rewrite Hsame; exact Hst);
    cbn [Server.handle].
  - unfold Server.post_intents, Api.post_intents.
    destruct (Json.truthy_val (Json.get req "fromAgent")) as [f|]; [|exact Hst].
    destruct (Json.truthy_val (Json.get req "toAgent")) as [t|]; [|exact Hst].
    destruct (Json.truthy_val (Json.get req "payload")) as [payload|]; [|exact Hst].
    destruct (Server.serializes rt payload); [|exact Hst].
    cbn [snd Api.intents Api.set_intents].
    apply map_Forall_insert_2; [|exact Hst]. reflexivity.
  - unfold Server.put_intent_status.
    destruct (Api.intents st !! id) as [i|] eqn:Hlook; [|exact Hst].
    destruct (Json.truthy_val (Json.get req "status")) as [status|]; [|exact Hst].
    pose proof (Hst id i Hlook) as Hi.
    destruct (Json.truthy_val (Json.get req "result")) as [result|] eqn:Hres.
    + apply truthy_val_truthy in Hres as [_ Ht].
      destruct (Server.serializes rt result);
        cbn [snd Api.intents Api.set_intents]; (apply map_Forall_insert_2; [|exact Hst]).
      * unfold Server.digest_recorded. cbn.
        split; [exact Ht|]. split; [reflexivity|].
        exists result. split; [exact Ht | reflexivity].
      * unfold Server.digest_recorded in *. cbn.
        destruct (Api.Intent.resultHash i) as [h|]; [|exact Hi].
        destruct Hi as (_ & Hu & Hr). split; [exact Ht|]. split; [exact Hu | exact Hr].
    + cbn [snd Api.intents Api.set_intents]. apply map_Forall_insert_2; [|exact Hst].
      exact Hi.
Qed.

Lemma reachable_digest_recorded (st : Api.Store) :
  Server.reachable st -> map_Forall (fun _ i => Server.digest_recorded i) (Api.intents st).
Proof.
  induction 1 as [|st rt r Hreach IH].
  - apply map_Forall_empty.
  - apply handle_digest_recorded. exact IH.
Qed.

(** C4, as stated, fails in both directions on reachable stores: an
    intent set to "completed" without a result has a null result digest,
    and an intent set to "failed" together with a result has a digest. *)
Lemma result_digest_independent_of_status :
  let env := Api.mkEnv "intent-1" 1700000000500 "2023-11-14T22:13:20.500Z" in
  let rt := Server.mkRuntime env (fun v => (Server.depth v <=? 1000)%nat) in
  let create := Api.PostIntents
                  (Json.Obj [("fromAgent", Json.Str "research-agent-1");
                             ("toAgent", Json.Str "execution-agent-1");
                             ("payload", Json.Obj [("action", Json.Str "swap")])]) in
  let st_completed :=
    Server.run
      [(rt, create);
       (rt, Api.PutIntentStatus "intent-1" (Json.Obj [("status", Json.Str "completed")]))]
      Api.empty_store in
  let st_failed :=
    Server.run
      [(rt, create);
       (rt, Api.PutIntentStatus "intent-1"
              (Json.Obj [("status", Json.Str "failed");
                         ("result", Json.Str "backend unavailable")]))]
      Api.empty_store in
  Server.reachable st_completed /\
  (exists i, Api.intents st_completed !! "intent-1" = Some i /\
             Api.Intent.status i = Json.Str "completed" /\
             Api.Intent.resultHash i = None) /\
  Server.reachable st_failed /\
  (exists i h, Api.intents st_failed !! "intent-1" = Some i /\
               Api.Intent.status i = Json.Str "failed" /\
               Api.Intent.resultHash i = Some h).
Proof.
  intros env rt create st_completed st_failed.
  split; [apply server_reachable_run, Server.reachable_start|].
  split; [eexists; split; [vm_compute; reflexivity | split; reflexivity]|].
  split; [apply server_reachable_run, Server.reachable_start|].
  eexists. eexists. split; [vm_compute; reflexivity | split; reflexivity].
Qed.

(** C4, amended: for every intent in a store the server can reach, the
    result digest is non-null exactly when the result locator is, and
    only when a result is recorded (the inline result is non-null); it
    is then the hexadecimal SHA-256, 64 characters, of the serialization
    of a truthy result that a status update carried.  Every status
    update with a truthy result that the runtime serializes sets the
    digest of that result, whatever status it sets: the status plays no
    part. *)
Theorem result_digest_needs_result
    (st : Api.Store) (id : string) (i : Api.Intent.t) :
  Server.reachable st ->
  Api.intents st !! id = Some i ->
  (Api.Intent.resultHash i <> None <-> Api.Intent.resultUri i <> None) /\
  (Api.Intent.resultHash i <> None -> Api.Intent.result i <> Json.Null) /\
  (forall h, Api.Intent.resultHash i = Some h ->
     String.length h = 64%nat /\
     exists result, Json.truthy result = true /\
                    h = Api.sha256_hex (Json.stringify result)) /\
  (forall rt req status result,
     Json.truthy_val (Json.get req "status") = Some status ->
     Json.truthy_val (Json.get req "result") = Some result ->
     Server.serializes rt result = true ->
     exists i',
       Api.intents (snd (Server.put_intent_status rt id req st)) !! id = Some i' /\
       Api.Intent.status i' = status /\
       Api.Intent.result i' = result /\
       Api.Intent.resultHash i' = Some (Api.sha256_hex (Json.stringify result))).
Proof.
  intros Hreach Hlook.
  pose proof (reachable_digest_recorded st Hreach id i Hlook) as Hrec.
  unfold Server.digest_recorded in Hrec.
  split; [|split; [|split]].
  - destruct (Api.Intent.resultHash i) as [h|].
    + destruct Hrec as (_ & Hu & _). rewrite Hu. split; intros _ H; discriminate H.
    + rewrite Hrec. split; intros H; exfalso; apply H; reflexivity.
  - destruct (Api.Intent.resultHash i) as [h|]; [|intros H; exfalso; apply H; reflexivity].
    destruct Hrec as (Ht & _). intros _ Hn. rewrite Hn in Ht. discriminate Ht.
  - intros h Hh. rewrite Hh in Hrec. destruct Hrec as (_ & _ & result & Ht & ->).
    split; [apply sha256_hex_length|]. exists result. split; [exact Ht | reflexivity].
  - intros rt req status result Hs Hr Hser. unfold Server.put_intent_status.
    rewrite Hlook, Hs, Hr, Hser. cbn [snd Api.intents Api.set_intents].
    eexists. split; [apply lookup_insert_eq|]. repeat split.
Qed.

Lemma result_digest_needs_result_witness :
  let env := Api.mkEnv "intent-1" 1700000000500 "2023-11-14T22:13:20.500Z" in
  let rt := Server.mkRuntime env (fun v => (Server.depth v <=? 1000)%nat) in
  let st :=
    Server.run
      [(rt, Api.PostIntents
              (Json.Obj [("fromAgent", Json.Str "research-agent-1");
                         ("toAgent", Json.Str "execution-agent-1");
                         ("payload", Json.Obj [("action", Json.Str "swap")])]));
       (rt, Api.PutIntentStatus "intent-1"
              (Json.Obj [("status", Json.Str "failed");
                         ("result", Json.Str "backend unavailable")]))]
      Api.empty_store in
  exists i,
    Api.intents st !! "intent-1" = Some i /\
    Api.Intent.resultHash i <> None /\
    Api.Intent.resultUri i <> None /\
    Api.Intent.result i <> Json.Null.
Proof.
  intros env rt st.
  assert (Hlook : exists i, Api.intents st !! "intent-1" = Some i /\
                            Api.Intent.resultHash i <> None).
  { eexists. split; [vm_compute; reflexivity|]. intros H. discriminate H. }
  destruct Hlook as (i & Hlook & Hh). exists i.
  destruct (result_digest_needs_result st "intent-1" i
              (server_reachable_run _ _ Server.reachable_start) Hlook)
    as (Huri & Hres & _).
  split; [exact Hlook|]. split; [exact Hh|].
  split; [apply Huri, Hh | apply Hres, Hh].
Defined.

(** Why the digest says no more of the stored result: a serialization
    that throws leaves the intent half written.  With a runtime that
    serializes up to 1000 levels and a result nested 1001 deep, a first
    update leaves a result without digest, locator or update time; after
    an update that recorded a digest, it leaves the digest of the
    earlier result beside the new one. *)
Example half_updated_intent :
  let env := Api.mkEnv "intent-1" 1700000000500 "2023-11-14T22:13:20.500Z" in
  let rt := Server.mkRuntime env (fun v => (Server.depth v <=? 1000)%nat) in
  let create := Api.PostIntents
                  (Json.Obj [("fromAgent", Json.Str "research-agent-1");
                             ("toAgent", Json.Str "execution-agent-1");
                             ("payload", Json.Obj [("action", Json.Str "swap")])]) in
  let too_deep := Api.PutIntentStatus "intent-1"
                    (Json.Obj [("status", Json.Str "completed");
                               ("result", Server.nested 1001)]) in
  let st := Server.run [(rt, create); (rt, too_deep)] Api.empty_store in
  let st' :=
    Server.run
      [(rt, create);
       (rt, Api.PutIntentStatus "intent-1"
              (Json.Obj [("status", Json.Str "processing"); ("result", Json.Str "ok")]));
       (rt, too_deep)]
      Api.empty_store in
  fst (Server.handle rt too_deep (Server.run [(rt, create)] Api.empty_store))
    = Server.Unanswered /\
  Server.reachable st /\
  (exists i, Api.intents st !! "intent-1" = Some i /\
             Api.Intent.status i = Json.Str "completed" /\
             Api.Intent.result i = Server.nested 1001 /\
             Api.Intent.resultHash i = None /\
             Api.Intent.resultUri i = None /\
             Api.Intent.updatedAt i = None) /\
  Server.reachable st' /\
  (exists i, Api.intents st' !! "intent-1" = Some i /\
             Api.Intent.status i = Json.Str "completed" /\
             Api.Intent.result i = Server.nested 1001 /\
             Api.Intent.resultHash i
             = Some (Api.sha256_hex (Json.stringify (Json.Str "ok")))).
Proof.
  intros env rt create too_deep st st'.
  split; [vm_compute; reflexivity|].
  split; [apply server_reachable_run, Server.reachable_start|].
  split; [eexists; split; [vm_compute; reflexivity | repeat split]|].
  split; [apply server_reachable_run, Server.reachable_start|].
  eexists. split; [vm_compute; reflexivity | repeat split].
Qed.

(* ===================================================================== *)
(** * Further properties of the registry                                  *)
(* ===================================================================== *)

(** ** What every request keeps *)

(** The registry of [Api], in which every serialization returns, answers
    200, 201, 400 or 404, and leaves all three maps exactly as they were
    when it answers 400 or 404. *)
Lemma handle_codes (env : Api.Env) (r : Api.Request) (st : Api.Store) :
  Api.code (fst (Api.handle env r st)) = 200 \/
  Api.code (fst (Api.handle env r st)) = 201 \/
  ((Api.code (fst (Api.handle env r st)) = 400 \/
    Api.code (fst (Api.handle env r st)) = 404) /\
   snd (Api.handle env r st) = st).
Proof.
  destruct r as [req|id req|req|id req|req|id req|]; simpl.
  - unfold Api.post_agents. case_fields; simpl; auto.
  - unfold Api.put_agent. case_fields; simpl; auto.
  - unfold Api.post_model_profiles. case_fields; simpl; auto.
  - unfold Api.put_model_profile. case_fields; simpl; auto.
  - unfold Api.post_intents. case_fields; simpl; auto.
  - unfold Api.put_intent_status. case_fields; simpl; auto.
  - auto.
Qed.

Lemma send_cases (rt : Server.Runtime) (thrown : Server.Answer) (res : Api.Response) :
  Server.send rt thrown res = Server.Answered (Api.code res) (Api.body res) \/
  (Server.send rt thrown res = thrown /\ exists v, Server.serializes rt v = false).
Proof.
  unfold Server.send.
  destruct (Api.body res) as [e|a|p|i|agents profiles] eqn:Hb; try (left; reflexivity);
    match goal with
    | |- context [Server.serializes rt ?v] => destruct (Server.serializes rt v) eqn:E
    end;
    try (left; reflexivity); right; (split; [reflexivity | eexists; exact E]).
Qed.

Lemma sent_ok (rt : Server.Runtime) (r : Api.Request) (st : Api.Store)
    (done : Api.Response * Api.Store) :
  (Server.is_async r = false -> snd done = snd (Api.handle (Server.env rt) r st)) ->
  Api.code (fst done) = 200 \/ Api.code (fst done) = 201 \/
  ((Api.code (fst done) = 400 \/ Api.code (fst done) = 404) /\ snd done = st) ->
  Server.answer_ok rt r st (Server.send rt (Server.thrown r) (fst done), snd done).
Proof.
  intros Hstore Hdone. unfold Server.answer_ok. cbn [fst snd].
  destruct (send_cases rt (Server.thrown r) (fst done)) as [->|[-> Hv]]; [exact Hdone|].
  unfold Server.thrown in *. destruct (Server.is_async r).
  - split; [reflexivity | exact Hv].
  - split; [reflexivity|]. split; [apply Hstore; reflexivity | exact Hv].
Qed.

(** X1: a state-changing request ends in one of three ways.  It is
    answered 200, 201, 400 or 404, and an answer of 400 or 404 leaves
    all three maps as they were.  Or a synchronous handler throws and
    the framework answers 500: the store is then as the handler wrote
    it.  Or an [async] handler throws and sends nothing.  A handler
    throws only when the runtime fails to serialize some value. *)
Theorem handle_answers (rt : Server.Runtime) (r : Api.Request) (st : Api.Store) :
  match fst (Server.handle rt r st) with
  | Server.Answered code _ =>
      code = 200 \/ code = 201 \/
      ((code = 400 \/ code = 404) /\ snd (Server.handle rt r st) = st)
  | Server.InternalError =>
      Server.is_async r = false /\
      snd (Server.handle rt r st) = snd (Api.handle (Server.env rt) r st) /\
      exists v, Server.serializes rt v = false
  | Server.Unanswered =>
      Server.is_async r = true /\ exists v, Server.serializes rt v = false
  end.
Proof.
  change (Server.answer_ok rt r st (Server.handle rt r st)).
  pose proof (handle_codes (Server.env rt) r st) as Hapi.
  destruct r as [req|id req|req|id req|req|id req|]; cbn [Server.handle Api.handle] in *.
  - exact (sent_ok rt (Api.PostAgents req) st _ (fun _ => eq_refl) Hapi).
  - exact (sent_ok rt (Api.PutAgent id req) st _ (fun _ => eq_refl) Hapi).
  - exact (sent_ok rt (Api.PostModelProfiles req) st _ (fun _ => eq_refl) Hapi).
  - exact (sent_ok rt (Api.PutModelProfile id req) st _ (fun _ => eq_refl) Hapi).
  - unfold Server.post_intents.
    destruct (Json.truthy_val (Json.get req "fromAgent")) as [f|];
      [|right; right; split; [left; reflexivity | reflexivity]].
    destruct (Json.truthy_val (Json.get req "toAgent")) as [t|];
      [|right; right; split; [left; reflexivity | reflexivity]].
    destruct (Json.truthy_val (Json.get req "payload")) as [payload|];
      [|right; right; split; [left; reflexivity | reflexivity]].
    destruct (Server.serializes rt payload) eqn:E.
    + apply (sent_ok rt (Api.PostIntents req) st); [intros H; discriminate H | exact Hapi].
    + split; [reflexivity|]. exists payload. exact E.
  - unfold Server.put_intent_status.
    destruct (Api.intents st !! id) as [i|];
      [|right; right; split; [right; reflexivity | reflexivity]].
    destruct (Json.truthy_val (Json.get req "status")) as [status|];
      [|right; right; split; [left; reflexivity | reflexivity]].
    destruct (Json.truthy_val (Json.get req "result")) as [result|].
    + destruct (Server.serializes rt result) eqn:E;
        [|split; [reflexivity|]; exists result; exact E].
      cbv zeta.
      match goal with
      | |- Server.answer_ok _ _ _ (Server.send _ _ ?res, ?st') =>
          apply (sent_ok rt (Api.PutIntentStatus id req) st (res, st'))
      end; [intros H; discriminate H | left; reflexivity].
    + cbv zeta.
      match goal with
      | |- Server.answer_ok _ _ _ (Server.send _ _ ?res, ?st') =>
          apply (sent_ok rt (Api.PutIntentStatus id req) st (res, st'))
      end; [intros H; discriminate H | left; reflexivity].
  - exact (sent_ok rt Api.DemoSetup st _ (fun _ => eq_refl) Hapi).
Qed.

(** X2: no request removes a record: the ids present in each of the
    three maps before a request are still present after it. *)
Theorem handle_never_deletes (env : Api.Env) (r : Api.Request) (st : Api.Store) :
  dom (Api.agents st) ⊆ dom (Api.agents (snd (Api.handle env r st))) /\
  dom (Api.modelProfiles st) ⊆ dom (Api.modelProfiles (snd (Api.handle env r st))) /\
  dom (Api.intents st) ⊆ dom (Api.intents (snd (Api.handle env r st))).
Proof.
  destruct r as [req|id req|req|id req|req|id req|]; simpl.
  - unfold Api.post_agents. case_fields; simpl; rewrite ?dom_insert_L; set_solver.
  - unfold Api.put_agent. case_fields; simpl; rewrite ?dom_insert_L; set_solver.
  - unfold Api.post_model_profiles. case_fields; simpl; rewrite ?dom_insert_L; set_solver.
  - unfold Api.put_model_profile. case_fields; simpl; rewrite ?dom_insert_L; set_solver.
  - unfold Api.post_intents. case_fields; simpl; rewrite ?dom_insert_L; set_solver.
  - unfold Api.put_intent_status. case_fields; simpl; rewrite ?dom_insert_L; set_solver.
  - rewrite !dom_insert_L. set_solver.
Qed.

(** ** Invariants of the stored records *)

Lemma or_else_truthy_default (x : option Json.value) (d : Json.value) :
  Json.truthy d = true -> Json.truthy (Json.or_else x d) = true.
Proof.
  intros Hd. unfold Json.or_else.
  destruct (Json.truthy_val x) as [v|] eqn:E; [|exact Hd].
  apply (truthy_val_truthy _ _ E).
Qed.

Lemma or_else_truthy_default_left (v d : Json.value) :
  Json.truthy v = true -> Json.or_else (Some v) d = v.
Proof. intros H. unfold Json.or_else, Json.truthy_val. rewrite H. reflexivity. Qed.

Lemma assign_if_truthy_keeps {A : Type} (P : A -> Prop) (x : option Json.value)
    (set : Json.value -> A -> A) (obj : A) :
  (forall v, Json.truthy v = true -> P obj -> P (set v obj)) ->
  P obj -> P (Api.assign_if_truthy x set obj).
Proof.
  intros Hset Hobj. unfold Api.assign_if_truthy.
  destruct (Json.truthy_val x) as [v|] eqn:E; [|exact Hobj].
  apply Hset; [apply (truthy_val_truthy _ _ E) | exact Hobj].
Qed.

Lemma assign_if_defined_keeps {A : Type} (P : A -> Prop) (x : option Json.value)
    (set : Json.value -> A -> A) (obj : A) :
  (forall v, P obj -> P (set v obj)) ->
  P obj -> P (Api.assign_if_defined x set obj).
Proof.
  intros Hset Hobj. unfold Api.assign_if_defined.
  destruct x as [v|]; [apply Hset|]; exact Hobj.
Qed.

Lemma post_agents_wf (env : Api.Env) (req : Json.value) (st : Api.Store) :
  Api.store_wf st -> Api.store_wf (snd (Api.post_agents env req st)).
Proof.
  intros (Ha & Hp & Hi). unfold Api.post_agents.
  destruct (Json.truthy_val (Json.get req "ownerWallet")) as [ow|] eqn:Eo;
    [|split; [|split]; assumption].
  destruct (Json.truthy_val (Json.get req "agentWallet")) as [aw|] eqn:Ea;
    [|split; [|split]; assumption].
  split; [|split; assumption]. simpl.
  apply map_Forall_insert_2; [|exact Ha].
  split; [reflexivity|]. simpl.
  split; [apply (truthy_val_truthy _ _ Eo) | apply (truthy_val_truthy _ _ Ea)].
Qed.

Lemma put_agent_wf (env : Api.Env) (id : string) (req : Json.value) (st : Api.Store) :
  Api.store_wf st -> Api.store_wf (snd (Api.put_agent env id req st)).
Proof.
  intros (Ha & Hp & Hi). unfold Api.put_agent.
  destruct (Api.agents st !! id) as [agent|] eqn:Hlook; [|split; [|split]; assumption].
  split; [|split; assumption]. simpl.
  apply map_Forall_insert_2; [|exact Ha].
  pose proof (Ha id agent Hlook) as Hw.
  change (Api.agent_wf id
            (Api.Agent.set_updatedAt (Api.isoNow env)
               (Api.assign_if_defined (Json.get req "permissions") Api.Agent.set_permissions
                  (Api.assign_if_truthy (Json.get req "metadataUri") Api.Agent.set_metadataUri
                     (Api.assign_if_truthy (Json.get req "modelProfile")
                        Api.Agent.set_modelProfile
                        (Api.assign_if_truthy (Json.get req "agentWallet")
                           Api.Agent.set_agentWallet agent)))))).
  assert (Hup : forall a ts, Api.agent_wf id a -> Api.agent_wf id (Api.Agent.set_updatedAt ts a))
    by (intros a ts H; exact H).
  apply Hup.
  apply assign_if_defined_keeps; [intros v H; exact H|].
  apply assign_if_truthy_keeps; [intros v _ H; exact H|].
  apply assign_if_truthy_keeps; [intros v _ H; exact H|].
  apply assign_if_truthy_keeps; [|exact Hw].
  intros v Hv (H1 & H2 & _). split; [exact H1|]. split; [exact H2 | exact Hv].
Qed.

Lemma post_model_profiles_wf (env : Api.Env) (req : Json.value) (st : Api.Store) :
  Api.store_wf st -> Api.store_wf (snd (Api.post_model_profiles env req st)).
Proof.
  intros (Ha & Hp & Hi). unfold Api.post_model_profiles.
  destruct (Json.truthy_val (Json.get req "ownerWallet")) as [ow|] eqn:Eo;
    [|split; [|split]; assumption].
  destruct (Json.truthy_val (Json.get req "label")) as [lb|] eqn:El;
    [|split; [|split]; assumption].
  destruct (Json.truthy_val (Json.get req "providerUri")) as [pu|] eqn:Eu;
    [|split; [|split]; assumption].
  split; [exact Ha|]. split; [|exact Hi]. simpl.
  apply map_Forall_insert_2; [|exact Hp].
  apply truthy_val_truthy in Eo as [_ Ho].
  apply truthy_val_truthy in El as [_ Hl].
  apply truthy_val_truthy in Eu as [_ Hu].
  split; [reflexivity|]. simpl.
  split; [exact Ho|]. split; [exact Hl|]. split; [exact Hu|].
  split; [apply or_else_truthy_default; exact Ho|].
  split; apply or_else_truthy_default; reflexivity.
Qed.

Lemma put_model_profile_wf (env : Api.Env) (id : string) (req : Json.value)
    (st : Api.Store) :
  Api.store_wf st -> Api.store_wf (snd (Api.put_model_profile env id req st)).
Proof.
  intros (Ha & Hp & Hi). unfold Api.put_model_profile.
  destruct (Api.modelProfiles st !! id) as [profile|] eqn:Hlook;
    [|split; [|split]; assumption].
  split; [exact Ha|]. split; [|exact Hi]. simpl.
  apply map_Forall_insert_2; [|exact Hp].
  pose proof (Hp id profile Hlook) as Hw.
  assert (Hup : forall p ts, Api.profile_wf id p ->
                             Api.profile_wf id (Api.ModelProfile.set_updatedAt ts p))
    by (intros p ts H; exact H).
  apply Hup.
  apply assign_if_truthy_keeps;
    [intros v Hv (H1 & H2 & H3 & H4 & H5 & H6 & H7); repeat split; assumption|].
  apply assign_if_truthy_keeps;
    [intros v Hv (H1 & H2 & H3 & H4 & H5 & H6 & H7); repeat split; assumption|].
  apply assign_if_truthy_keeps;
    [intros v Hv (H1 & H2 & H3 & H4 & H5 & H6 & H7); repeat split; assumption|].
  apply assign_if_defined_keeps; [intros v H; exact H|].
  apply assign_if_truthy_keeps;
    [intros v Hv (H1 & H2 & H3 & H4 & H5 & H6 & H7); repeat split; assumption|].
  apply assign_if_truthy_keeps;
    [intros v Hv (H1 & H2 & H3 & H4 & H5 & H6 & H7); repeat split; assumption|].
  exact Hw.
Qed.

Lemma post_intents_wf (env : Api.Env) (req : Json.value) (st : Api.Store) :
  Api.store_wf st -> Api.store_wf (snd (Api.post_intents env req st)).
Proof.
  intros (Ha & Hp & Hi). unfold Api.post_intents.
  destruct (Json.truthy_val (Json.get req "fromAgent")) as [f|] eqn:Ef;
    [|split; [|split]; assumption].
  destruct (Json.truthy_val (Json.get req "toAgent")) as [t|] eqn:Et;
    [|split; [|split]; assumption].
  destruct (Json.truthy_val (Json.get req "payload")) as [p|] eqn:Ep;
    [|split; [|split]; assumption].
  split; [exact Ha|]. split; [exact Hp|]. simpl.
  apply map_Forall_insert_2; [|exact Hi].
  apply truthy_val_truthy in Ef as [_ Hf].
  apply truthy_val_truthy in Et as [_ Ht].
  apply truthy_val_truthy in Ep as [_ Hpl].
  split; [reflexivity|]. simpl.
  split; [exact Hf|]. split; [exact Ht|]. split; [exact Hpl|].
  split; [reflexivity|]. split; reflexivity.
Qed.

Lemma put_intent_status_wf (env : Api.Env) (id : string) (req : Json.value)
    (st : Api.Store) :
  Api.store_wf st -> Api.store_wf (snd (Api.put_intent_status env id req st)).
Proof.
  intros (Ha & Hp & Hi). unfold Api.put_intent_status.
  destruct (Api.intents st !! id) as [intent|] eqn:Hlook;
    [|split; [|split]; assumption].
  destruct (Json.truthy_val (Json.get req "status")) as [status|] eqn:Es;
    [|split; [|split]; assumption].
  split; [exact Ha|]. split; [exact Hp|]. simpl.
  apply map_Forall_insert_2; [|exact Hi].
  apply truthy_val_truthy in Es as [_ Hs].
  destruct (Hi id intent Hlook) as (H1 & H2 & H3 & H4 & _ & H6 & H7).
  assert (Hup : forall i ts, Api.intent_wf id i ->
                             Api.intent_wf id (Api.Intent.set_updatedAt ts i))
    by (intros i ts H; exact H).
  apply Hup.
  apply assign_if_truthy_keeps.
  - intros v _ H. exact H.
  - repeat split; assumption.
Qed.

Lemma demo_setup_wf (env : Api.Env) (st : Api.Store) :
  Api.store_wf st -> Api.store_wf (snd (Api.demo_setup env st)).
Proof.
  intros (Ha & Hp & Hi). unfold Api.demo_setup. simpl.
  split; [|split; [|exact Hi]].
  - apply map_Forall_insert_2; [repeat split|].
    apply map_Forall_insert_2; [repeat split | exact Ha].
  - apply map_Forall_insert_2; [repeat split|].
    apply map_Forall_insert_2; [repeat split | exact Hp].
Qed.

Lemma reachable_store_wf (st : Api.Store) : Api.reachable st -> Api.store_wf st.
Proof.
  induction 1 as [|st env r Hreach IH].
  - split; [|split]; apply map_Forall_empty.
  - destruct r as [req|id req|req|id req|req|id req|]; simpl.
    + apply post_agents_wf, IH.
    + apply put_agent_wf, IH.
    + apply post_model_profiles_wf, IH.
    + apply put_model_profile_wf, IH.
    + apply post_intents_wf, IH.
    + apply put_intent_status_wf, IH.
    + apply demo_setup_wf, IH.
Qed.

(** X3: in every store the server can reach, each agent, model profile
    and intent is stored under its own [id]: the key of a record and the
    id that responses show for it never diverge. *)
Theorem reachable_id_is_key (st : Api.Store) :
  Api.reachable st ->
  (forall k a, Api.agents st !! k = Some a -> Api.Agent.id a = k) /\
  (forall k p, Api.modelProfiles st !! k = Some p -> Api.ModelProfile.id p = k) /\
  (forall k i, Api.intents st !! k = Some i -> Api.Intent.id i = k).
Proof.
  intros Hreach. destruct (reachable_store_wf st Hreach) as (Ha & Hp & Hi).
  split; [|split].
  - intros k a Hlook. apply (Ha k a Hlook).
  - intros k p Hlook. apply (Hp k p Hlook).
  - intros k i Hlook. apply (Hi k i Hlook).
Qed.

Lemma reachable_id_is_key_witness :
  let env := Api.mkEnv "intent-1" 1700000000500 "2023-11-14T22:13:20.500Z" in
  let st :=
    Api.run [(env, Api.DemoSetup);
             (env, Api.PostIntents
                     (Json.Obj [("fromAgent", Json.Str "research-agent-1");
                                ("toAgent", Json.Str "execution-agent-1");
                                ("payload", Json.Obj [("action", Json.Str "swap")])]))]
            Api.empty_store in
  exists i, Api.intents st !! "intent-1" = Some i /\ Api.Intent.id i = "intent-1".
Proof.
  intros env st.
  assert (Hlook : exists i, Api.intents st !! "intent-1" = Some i).
  { eexists. vm_compute. reflexivity. }
  destruct Hlook as [i Hlook]. exists i. split; [exact Hlook|].
  exact (proj2 (proj2 (reachable_id_is_key st (reachable_run _ _ Api.reachable_start)))
           "intent-1" i Hlook).
Defined.

(** X4: in every reachable store the payload digest of an intent is
    still the SHA-256 of its stored inline payload, 64 hexadecimal
    characters, and it is what the controller's integrity check would
    compute on that payload; the payload locator is the fixed prefix
    followed by the key.  No endpoint alters payload, digest or locator
    after creation. *)
Theorem reachable_payload_digest (st : Api.Store) (k : string) (i : Api.Intent.t) :
  Api.reachable st ->
  Api.intents st !! k = Some i ->
  Api.Intent.payloadHash i = Api.sha256_hex (Json.stringify (Api.Intent.payload i)) /\
  Api.Intent.payloadHash i = Buffer.to_hex (Mesh.payload_digest (Api.Intent.payload i)) /\
  String.length (Api.Intent.payloadHash i) = 64%nat /\
  Api.Intent.payloadUri i = "https://mesh.example.com/payloads/" +:+ k.
Proof.
  intros Hreach Hlook.
  destruct (reachable_store_wf st Hreach) as (_ & _ & Hi).
  destruct (Hi k i Hlook) as (_ & _ & _ & _ & _ & Hh & Hu).
  split; [exact Hh|]. split; [exact Hh|].
  split; [rewrite Hh; apply sha256_hex_length | exact Hu].
Qed.

Lemma reachable_payload_digest_witness :
  let env := Api.mkEnv "intent-1" 1700000000500 "2023-11-14T22:13:20.500Z" in
  let st :=
    Api.run [(env, Api.PostIntents
                     (Json.Obj [("fromAgent", Json.Str "research-agent-1");
                                ("toAgent", Json.Str "execution-agent-1");
                                ("payload", Json.Obj [("action", Json.Str "swap")])]));
             (env, Api.PutIntentStatus "intent-1"
                     (Json.Obj [("status", Json.Str "completed");
                                ("result", Json.Str "ok")]))]
            Api.empty_store in
  exists i,
    Api.intents st !! "intent-1" = Some i /\
    Api.Intent.payloadHash i = Api.sha256_hex (Json.stringify (Api.Intent.payload i)) /\
    Api.Intent.payloadUri i = "https://mesh.example.com/payloads/intent-1".
Proof.
  intros env st.
  assert (Hlook : exists i, Api.intents st !! "intent-1" = Some i).
  { eexists. vm_compute. reflexivity. }
  destruct Hlook as [i Hlook]. exists i. split; [exact Hlook|].
  destruct (reachable_payload_digest st "intent-1" i
              (reachable_run _ _ Api.reachable_start) Hlook) as (H1 & _ & _ & H4).
  split; [exact H1 | exact H4].
Defined.

(** X5: in every reachable store a model profile has a non-empty label
    and provider locator and non-zero caps: creation replaces a missing
    or zero cap by its default, updates skip falsy values, and the demo
    data has none.  Its owner and billing wallets are truthy as well. *)
Theorem reachable_profile_fields (st : Api.Store) (k : string) (p : Api.ModelProfile.t) :
  Api.reachable st ->
  Api.modelProfiles st !! k = Some p ->
  Api.ModelProfile.maxTokensPerDay p <> Json.Num 0 /\
  Api.ModelProfile.maxRequestsPerMin p <> Json.Num 0 /\
  Api.ModelProfile.label p <> Json.Str "" /\
  Api.ModelProfile.providerUri p <> Json.Str "" /\
  Json.truthy (Api.ModelProfile.maxTokensPerDay p) = true /\
  Json.truthy (Api.ModelProfile.maxRequestsPerMin p) = true /\
  Json.truthy (Api.ModelProfile.ownerWallet p) = true /\
  Json.truthy (Api.ModelProfile.billingWallet p) = true.
Proof.
  intros Hreach Hlook.
  destruct (reachable_store_wf st Hreach) as (_ & Hp & _).
  destruct (Hp k p Hlook) as (_ & Ho & Hl & Hu & Hb & Ht & Hr).
  split; [intros H; rewrite H in Ht; discriminate Ht|].
  split; [intros H; rewrite H in Hr; discriminate Hr|].
  split; [intros H; rewrite H in Hl; discriminate Hl|].
  split; [intros H; rewrite H in Hu; discriminate Hu|].
  repeat split; assumption.
Qed.

Lemma reachable_profile_fields_witness :
  let env := Api.mkEnv "profile-1" 1700000000500 "2023-11-14T22:13:20.500Z" in
  let st :=
    Api.run [(env, Api.PostModelProfiles
                     (Json.Obj [("ownerWallet", Json.Str "Demo1111");
                                ("label", Json.Str "cheap-llm");
                                ("providerUri", Json.Str "https://gw.example.com/cheap");
                                ("maxTokensPerDay", Json.Num 0)]));
             (env, Api.PutModelProfile "profile-1"
                     (Json.Obj [("maxRequestsPerMin", Json.Num 0)]))]
            Api.empty_store in
  exists p,
    Api.modelProfiles st !! "profile-1" = Some p /\
    Api.ModelProfile.maxTokensPerDay p <> Json.Num 0 /\
    Api.ModelProfile.maxRequestsPerMin p <> Json.Num 0.
Proof.
  intros env st.
  assert (Hlook : exists p, Api.modelProfiles st !! "profile-1" = Some p).
  { eexists. vm_compute. reflexivity. }
  destruct Hlook as [p Hlook]. exists p. split; [exact Hlook|].
  destruct (reachable_profile_fields st "profile-1" p
              (reachable_run _ _ Api.reachable_start) Hlook) as (H1 & H2 & _).
  split; [exact H1 | exact H2].
Defined.

(** X6: in every reachable store an agent has truthy owner and acting
    wallets, and an intent has truthy source, destination, payload and
    status: no update can blank a field that creation required. *)
Theorem reachable_required_fields (st : Api.Store) :
  Api.reachable st ->
  (forall k a, Api.agents st !! k = Some a ->
     Json.truthy (Api.Agent.ownerWallet a) = true /\
     Json.truthy (Api.Agent.agentWallet a) = true) /\
  (forall k i, Api.intents st !! k = Some i ->
     Json.truthy (Api.Intent.fromAgent i) = true /\
     Json.truthy (Api.Intent.toAgent i) = true /\
     Json.truthy (Api.Intent.payload i) = true /\
     Json.truthy (Api.Intent.status i) = true).
Proof.
  intros Hreach. destruct (reachable_store_wf st Hreach) as (Ha & _ & Hi).
  split.
  - intros k a Hlook. destruct (Ha k a Hlook) as (_ & H1 & H2). split; assumption.
  - intros k i Hlook. destruct (Hi k i Hlook) as (_ & H1 & H2 & H3 & H4 & _).
    repeat split; assumption.
Qed.

Lemma reachable_required_fields_witness :
  let env := Api.mkEnv "agent-1" 1700000000500 "2023-11-14T22:13:20.500Z" in
  let st :=
    Api.run [(env, Api.PostAgents
                     (Json.Obj [("ownerWallet", Json.Str "Demo1111");
                                ("agentWallet", Json.Str "Research1111")]));
             (env, Api.PutAgent "agent-1" (Json.Obj [("agentWallet", Json.Str "")]))]
            Api.empty_store in
  exists a,
    Api.agents st !! "agent-1" = Some a /\
    Json.truthy (Api.Agent.agentWallet a) = true.
Proof.
  intros env st.
  assert (Hlook : exists a, Api.agents st !! "agent-1" = Some a).
  { eexists. vm_compute. reflexivity. }
  destruct Hlook as [a Hlook]. exists a. split; [exact Hlook|].
  exact (proj2 (proj1 (reachable_required_fields st (reachable_run _ _ Api.reachable_start))
                  "agent-1" a Hlook)).
Defined.

(** ** Status updates, field by field *)

(** X7: a status update touches one intent only, and of that intent only
    the status, the result fields and [updatedAt]: source, destination,
    nonce, payload with its digest and locator, payment amount and mint,
    id and creation time stay as created; agents, model profiles and all
    other intents are untouched. *)
Theorem put_intent_status_frame
    (env : Api.Env) (id : string) (req : Json.value) (st : Api.Store) :
  let st' := snd (Api.put_intent_status env id req st) in
  Api.agents st' = Api.agents st /\
  Api.modelProfiles st' = Api.modelProfiles st /\
  (forall k, k <> id -> Api.intents st' !! k = Api.intents st !! k) /\
  (forall i, Api.intents st !! id = Some i ->
     exists i',
       Api.intents st' !! id = Some i' /\
       Api.Intent.id i' = Api.Intent.id i /\
       Api.Intent.fromAgent i' = Api.Intent.fromAgent i /\
       Api.Intent.toAgent i' = Api.Intent.toAgent i /\
       Api.Intent.nonce i' = Api.Intent.nonce i /\
       Api.Intent.payload i' = Api.Intent.payload i /\
       Api.Intent.payloadHash i' = Api.Intent.payloadHash i /\
       Api.Intent.payloadUri i' = Api.Intent.payloadUri i /\
       Api.Intent.paymentAmount i' = Api.Intent.paymentAmount i /\
       Api.Intent.paymentMint i' = Api.Intent.paymentMint i /\
       Api.Intent.createdAt i' = Api.Intent.createdAt i).
Proof.
  intros st'. subst st'. unfold Api.put_intent_status.
  destruct (Api.intents st !! id) as [intent|] eqn:Hlook.
  - destruct (Json.truthy_val (Json.get req "status")) as [status|]; simpl.
    + split; [reflexivity|]. split; [reflexivity|]. split.
      * intros k Hk. apply lookup_insert_ne. intros H. apply Hk. symmetry. exact H.
      * intros i Hi. injection Hi as <-. eexists. split; [apply lookup_insert_eq|].
        unfold Api.assign_if_truthy.
        destruct (Json.truthy_val (Json.get req "result")); repeat split.
    + split; [reflexivity|]. split; [reflexivity|]. split; [reflexivity|].
      intros i Hi. injection Hi as <-. exists intent. split; [exact Hlook|].
      repeat split.
  - simpl. split; [reflexivity|]. split; [reflexivity|]. split; [reflexivity|].
    intros i Hi. discriminate Hi.
Qed.

Lemma put_intent_status_frame_witness :
  let env := Api.mkEnv "intent-1" 1700000000500 "2023-11-14T22:13:20.500Z" in
  let st := snd (Api.post_intents env
                   (Json.Obj [("fromAgent", Json.Str "research-agent-1");
                              ("toAgent", Json.Str "execution-agent-1");
                              ("payload", Json.Obj [("action", Json.Str "swap")]);
                              ("paymentAmount", Json.Num 1000)])
                   Api.empty_store) in
  let req := Json.Obj [("status", Json.Str "completed"); ("result", Json.Str "ok");
                       ("paymentAmount", Json.Num 0)] in
  exists i',
    Api.intents (snd (Api.put_intent_status env "intent-1" req st)) !! "intent-1" = Some i' /\
    Api.Intent.paymentAmount i' = Json.Num 1000.
Proof.
  intros env st req.
  assert (Hlook : exists i, Api.intents st !! "intent-1" = Some i /\
                            Api.Intent.paymentAmount i = Json.Num 1000).
  { eexists. split; [vm_compute; reflexivity | reflexivity]. }
  destruct Hlook as (i & Hlook & Hpay).
  destruct (proj2 (proj2 (proj2 (put_intent_status_frame env "intent-1" req st))) i Hlook)
    as (i' & Hl' & _ & _ & _ & _ & _ & _ & _ & Hp & _).
  exists i'. split; [exact Hl'|]. rewrite Hp. exact Hpay.
Defined.

(** X8: how a status update treats the result.  With a truthy result it
    stores that result, the hexadecimal SHA-256 of its serialization and
    the result locator built from the intent's id, replacing what was
    there; without one (absent, or falsy such as the empty string or
    null) it leaves result, digest and locator as they were, so a
    recorded result can be replaced but never cleared. *)
Theorem put_intent_status_result
    (env : Api.Env) (id : string) (req : Json.value) (st : Api.Store)
    (i : Api.Intent.t) (status : Json.value) :
  Api.intents st !! id = Some i ->
  Json.truthy_val (Json.get req "status") = Some status ->
  exists i',
    Api.intents (snd (Api.put_intent_status env id req st)) !! id = Some i' /\
    Api.Intent.updatedAt i' = Some (Api.isoNow env) /\
    (forall result,
       Json.truthy_val (Json.get req "result") = Some result ->
       Api.Intent.result i' = result /\
       Api.Intent.resultHash i' = Some (Api.sha256_hex (Json.stringify result)) /\
       Api.Intent.resultUri i'
         = Some ("https://mesh.example.com/results/" +:+ Api.Intent.id i)) /\
    (Json.truthy_val (Json.get req "result") = None ->
     Api.Intent.result i' = Api.Intent.result i /\
     Api.Intent.resultHash i' = Api.Intent.resultHash i /\
     Api.Intent.resultUri i' = Api.Intent.resultUri i).
Proof.
  intros Hlook Hst. unfold Api.put_intent_status. rewrite Hlook, Hst. simpl.
  eexists. split; [apply lookup_insert_eq|].
  split; [reflexivity|]. split.
  - intros result Hres. unfold Api.assign_if_truthy. rewrite Hres.
    repeat split.
  - intros Hres. unfold Api.assign_if_truthy. rewrite Hres. repeat split.
Qed.

Lemma put_intent_status_result_witness :
  let env := Api.mkEnv "intent-1" 1700000000500 "2023-11-14T22:13:20.500Z" in
  let st :=
    Api.run [(env, Api.PostIntents
                     (Json.Obj [("fromAgent", Json.Str "research-agent-1");
                                ("toAgent", Json.Str "execution-agent-1");
                                ("payload", Json.Obj [("action", Json.Str "swap")])]));
             (env, Api.PutIntentStatus "intent-1"
                     (Json.Obj [("status", Json.Str "completed");
                                ("result", Json.Str "ok")]))]
            Api.empty_store in
  let req := Json.Obj [("status", Json.Str "failed"); ("result", Json.Null)] in
  exists i',
    Api.intents (snd (Api.put_intent_status env "intent-1" req st)) !! "intent-1" = Some i' /\
    Api.Intent.result i' = Json.Str "ok".
Proof.
  intros env st req.
  assert (Hlook : exists i, Api.intents st !! "intent-1" = Some i /\
                            Api.Intent.result i = Json.Str "ok").
  { eexists. split; [vm_compute; reflexivity | reflexivity]. }
  destruct Hlook as (i & Hlook & Hres).
  destruct (put_intent_status_result env "intent-1" req st i (Json.Str "failed")
              Hlook eq_refl) as (i' & Hl' & _ & _ & Hkeep).
  exists i'. split; [exact Hl'|].
  rewrite (proj1 (Hkeep eq_refl)). exact Hres.
Defined.

(** ** Agent update and profile creation *)

(** X9: an agent update (status 200) never changes the owner wallet, the
    id or the creation time.  [permissions] is assigned whenever it is
    present, 0 and null included, so capabilities can be revoked;
    [agentWallet], [modelProfile] and [metadataUri] are assigned only
    when truthy, so a model profile reference cannot be cleared.  An
    unknown id is answered 404 and nothing is stored. *)
Theorem put_agent_update
    (env : Api.Env) (id : string) (req : Json.value) (st : Api.Store) :
  (forall a, Api.agents st !! id = Some a ->
     exists a',
       Api.put_agent env id req st
         = (Api.mkResponse 200 (Api.AgentBody a'),
            Api.set_agents (<[id := a']> (Api.agents st)) st) /\
       Api.Agent.id a' = Api.Agent.id a /\
       Api.Agent.ownerWallet a' = Api.Agent.ownerWallet a /\
       Api.Agent.createdAt a' = Api.Agent.createdAt a /\
       Api.Agent.updatedAt a' = Some (Api.isoNow env) /\
       (forall v, Json.get req "permissions" = Some v -> Api.Agent.permissions a' = v) /\
       (Json.get req "permissions" = None ->
        Api.Agent.permissions a' = Api.Agent.permissions a) /\
       (Json.truthy_val (Json.get req "agentWallet") = None ->
        Api.Agent.agentWallet a' = Api.Agent.agentWallet a) /\
       (Json.truthy_val (Json.get req "modelProfile") = None ->
        Api.Agent.modelProfile a' = Api.Agent.modelProfile a) /\
       (Json.truthy_val (Json.get req "metadataUri") = None ->
        Api.Agent.metadataUri a' = Api.Agent.metadataUri a)) /\
  (Api.agents st !! id = None ->
   Api.put_agent env id req st = (Api.mkResponse 404 (Api.ErrorBody "Agent not found"), st)).
Proof.
  split.
  - intros a Hlook. unfold Api.put_agent. rewrite Hlook.
    eexists. split; [reflexivity|].
    split; [case_assigns; reflexivity|].
    split; [case_assigns; reflexivity|].
    split; [case_assigns; reflexivity|].
    split; [reflexivity|].
    split; [intros v H; rewrite H; case_assigns; reflexivity|].
    split; [intros H; rewrite H; case_assigns; reflexivity|].
    split; [|split].
    + intros H. rewrite (assign_if_truthy_falsy (Json.get req "agentWallet")) by exact H.
      case_assigns; reflexivity.
    + intros H. rewrite (assign_if_truthy_falsy (Json.get req "modelProfile")) by exact H.
      case_assigns; reflexivity.
    + intros H. rewrite (assign_if_truthy_falsy (Json.get req "metadataUri")) by exact H.
      case_assigns; reflexivity.
  - intros Hlook. unfold Api.put_agent. rewrite Hlook. reflexivity.
Qed.

Lemma put_agent_update_witness :
  let env0 := Api.mkEnv "unused" 1700000000000 "2023-11-14T22:13:20.000Z" in
  let st := snd (Api.demo_setup env0 Api.empty_store) in
  let env := Api.mkEnv "unused" 1700000060000 "2023-11-14T22:14:20.000Z" in
  let req := Json.Obj [("permissions", Json.Num 0); ("modelProfile", Json.Null)] in
  (exists a',
     fst (Api.put_agent env "execution-agent-1" req st)
       = Api.mkResponse 200 (Api.AgentBody a') /\
     Api.Agent.permissions a' = Json.Num 0 /\
     Api.Agent.modelProfile a' = Json.Str "high-accuracy-profile") /\
  Api.put_agent env "nobody" req st
    = (Api.mkResponse 404 (Api.ErrorBody "Agent not found"), st).
Proof.
  intros env0 st env req.
  assert (Hlook : exists a, Api.agents st !! "execution-agent-1" = Some a /\
                            Api.Agent.modelProfile a = Json.Str "high-accuracy-profile").
  { eexists. split; [vm_compute; reflexivity | reflexivity]. }
  destruct Hlook as (a & Hlook & Hmp).
  assert (Hnone : Api.agents st !! "nobody" = None) by (vm_compute; reflexivity).
  split.
  - destruct (proj1 (put_agent_update env "execution-agent-1" req st) a Hlook)
      as (a' & Hrun & _ & _ & _ & _ & Hperm & _ & _ & Hmodel & _).
    exists a'. rewrite Hrun. split; [reflexivity|].
    split; [exact (Hperm (Json.Num 0) eq_refl)|].
    rewrite (Hmodel eq_refl). exact Hmp.
  - exact (proj2 (put_agent_update env "nobody" req st) Hnone).
Defined.



(** ** Reading back *)

(** X11: what a successful creation answers is what a later read by id
    answers: after a POST answered 201, the GET of the same kind with the
    id of the created record answers 200 with the very record of the POST
    response.  A GET for an id that is not stored answers 404. *)
Theorem create_then_get (env : Api.Env) (req : Json.value) (st : Api.Store) :
  (Api.code (fst (Api.post_agents env req st)) = 201 ->
   Api.get_agent (Api.randomUUID env) (snd (Api.post_agents env req st))
   = Api.mkResponse 200 (Api.body (fst (Api.post_agents env req st)))) /\
  (Api.code (fst (Api.post_model_profiles env req st)) = 201 ->
   Api.get_model_profile (Api.randomUUID env) (snd (Api.post_model_profiles env req st))
   = Api.mkResponse 200 (Api.body (fst (Api.post_model_profiles env req st)))) /\
  (Api.code (fst (Api.post_intents env req st)) = 201 ->
   Api.get_intent (Api.randomUUID env) (snd (Api.post_intents env req st))
   = Api.mkResponse 200 (Api.body (fst (Api.post_intents env req st)))) /\
  (forall id,
     (Api.agents st !! id = None -> Api.code (Api.get_agent id st) = 404) /\
     (Api.modelProfiles st !! id = None -> Api.code (Api.get_model_profile id st) = 404) /\
     (Api.intents st !! id = None -> Api.code (Api.get_intent id st) = 404)).
Proof.
  split; [|split; [|split]].
  - unfold Api.post_agents. case_fields; simpl; intros H; try discriminate H.
    unfold Api.get_agent. simpl. rewrite lookup_insert_eq. reflexivity.
  - unfold Api.post_model_profiles. case_fields; simpl; intros H; try discriminate H.
    unfold Api.get_model_profile. simpl. rewrite lookup_insert_eq. reflexivity.
  - unfold Api.post_intents. case_fields; simpl; intros H; try discriminate H.
    unfold Api.get_intent. simpl. rewrite lookup_insert_eq. reflexivity.
  - intros id. unfold Api.get_agent, Api.get_model_profile, Api.get_intent.
    repeat split; intros H; rewrite H; reflexivity.
Qed.

Lemma create_then_get_witness :
  let env := Api.mkEnv "intent-1" 1700000000500 "2023-11-14T22:13:20.500Z" in
  let req := Json.Obj [("fromAgent", Json.Str "research-agent-1");
                       ("toAgent", Json.Str "execution-agent-1");
                       ("payload", Json.Obj [("action", Json.Str "swap")])] in
  Api.get_intent "intent-1" (snd (Api.post_intents env req Api.empty_store))
  = Api.mkResponse 200 (Api.body (fst (Api.post_intents env req Api.empty_store))) /\
  Api.code (Api.get_intent "intent-2" Api.empty_store) = 404.
Proof.
  intros env req. split.
  - apply (proj1 (proj2 (proj2 (create_then_get env req Api.empty_store)))). reflexivity.
  - apply (proj2 (proj2 (proj2 (create_then_get env req Api.empty_store))) "intent-2").
    reflexivity.
Defined.

(** ** Listing intents *)

Lemma In_filter_by (q : option Json.value) (field : Api.Intent.t -> Json.value)
    (l : list Api.Intent.t) (i : Api.Intent.t) :
  In i (Api.filter_by q field l) <-> In i l /\ Api.passes q (field i).
Proof.
  unfold Api.filter_by, Api.passes.
  destruct (Json.truthy_val q) as [w|].
  - apply filter_In.
  - split; [intros H; split; [exact H | exact I] | intros [H _]; exact H].
Qed.

Lemma In_map_values (m : gmap string Api.Intent.t) (i : Api.Intent.t) :
  In i (List.map snd (map_to_list m)) <-> exists k, m !! k = Some i.
Proof.
  rewrite in_map_iff. split.
  - intros ([k i'] & Heq & Hin). simpl in Heq. subst i'. exists k.
    apply elem_of_map_to_list, list_elem_of_In. exact Hin.
  - intros [k Hk]. exists (k, i). split; [reflexivity|].
    apply list_elem_of_In, elem_of_map_to_list. exact Hk.
Qed.

(** X12: the intent listing returns exactly the stored intents that pass
    every filter given in the query: a filter that is absent or empty
    passes everything, and otherwise passes the intents whose field is
    strictly equal to the query value (so an intent whose field is not a
    string never passes a string filter).  [count] is the length of the
    listing, and with no filter it is the number of stored intents. *)
Theorem list_intents_filters (query : Json.value) (st : Api.Store) :
  (forall i,
     In i (Api.listed (Api.list_intents query st)) <->
     (exists k, Api.intents st !! k = Some i) /\
     Api.passes (Json.get query "fromAgent") (Api.Intent.fromAgent i) /\
     Api.passes (Json.get query "toAgent") (Api.Intent.toAgent i) /\
     Api.passes (Json.get query "status") (Api.Intent.status i)) /\
  Api.count (Api.list_intents query st)
    = Z.of_nat (length (Api.listed (Api.list_intents query st))) /\
  (Json.truthy_val (Json.get query "fromAgent") = None ->
   Json.truthy_val (Json.get query "toAgent") = None ->
   Json.truthy_val (Json.get query "status") = None ->
   Api.count (Api.list_intents query st) = Z.of_nat (size (Api.intents st))).
Proof.
  split; [|split].
  - intros i. unfold Api.list_intents. cbn [Api.listed].
    rewrite !In_filter_by, In_map_values. tauto.
  - reflexivity.
  - intros Hf Ht Hs. unfold Api.list_intents, Api.filter_by. cbn [Api.count].
    rewrite Hf, Ht, Hs. rewrite length_map, length_map_to_list. reflexivity.
Qed.

Lemma list_intents_filters_witness :
  let env1 := Api.mkEnv "intent-1" 1700000000500 "2023-11-14T22:13:20.500Z" in
  let env2 := Api.mkEnv "intent-2" 1700000000600 "2023-11-14T22:13:20.600Z" in
  let st :=
    Api.run [(env1, Api.PostIntents
                      (Json.Obj [("fromAgent", Json.Str "research-agent-1");
                                 ("toAgent", Json.Str "execution-agent-1");
                                 ("payload", Json.Obj [("action", Json.Str "swap")])]));
             (env2, Api.PostIntents
                      (Json.Obj [("fromAgent", Json.Num 7);
                                 ("toAgent", Json.Str "execution-agent-1");
                                 ("payload", Json.Obj [("action", Json.Str "stake")])]))]
            Api.empty_store in
  Api.count (Api.list_intents (Json.Obj []) st) = 2 /\
  Api.count (Api.list_intents (Json.Obj [("fromAgent", Json.Str "research-agent-1")]) st) = 1 /\
  Api.count (Api.list_intents (Json.Obj [("fromAgent", Json.Str "7")]) st) = 0.
Proof.
  intros env1 env2 st.
  split; [|split; vm_compute; reflexivity].
  rewrite (proj2 (proj2 (list_intents_filters (Json.Obj []) st)) eq_refl eq_refl eq_refl).
  vm_compute. reflexivity.
Defined.

(** ** The LLM proxy *)

Lemma split_on_length (sep : ascii) (s : string) :
  length (Api.split_on sep s) = S (Api.occurrences sep s).
Proof.
  induction s as [|c rest IH]; simpl; [reflexivity|].
  destruct (Ascii.eqb c sep); simpl.
  - rewrite IH. reflexivity.
  - destruct (Api.split_on sep rest) as [|piece pieces]; simpl in *; [discriminate IH|].
    exact IH.
Qed.

Lemma prefix_of_length (n : nat) (s : string) :
  String.length (Api.prefix_of n s) = Nat.min n (String.length s).
Proof.
  revert s. induction n as [|n IH]; intros s; simpl; [reflexivity|].
  destruct s as [|c rest]; simpl; [reflexivity|]. rewrite IH. reflexivity.
Qed.

Lemma prefix_of_split (n : nat) (s : string) :
  exists rest, s = Api.prefix_of n s +:+ rest.
Proof.
  revert s. induction n as [|n IH]; intros s.
  - exists s. destruct s; reflexivity.
  - destruct s as [|c s]; [exists ""; reflexivity|].
    destruct (IH s) as [rest Hrest]. exists rest.
    cbn [Api.prefix_of]. rewrite app_cons, <- Hrest. reflexivity.
Qed.

(** A throwing serialization leaves the stored records well formed. *)
Lemma server_handle_wf (rt : Server.Runtime) (r : Api.Request) (st : Api.Store) :
  Api.store_wf st -> Api.store_wf (snd (Server.handle rt r st)).
Proof.
  intros Hst.
  destruct r as [req|id req|req|id req|req|id req|]; cbn [Server.handle].
  - apply post_agents_wf, Hst.
  - apply put_agent_wf, Hst.
  - apply post_model_profiles_wf, Hst.
  - apply put_model_profile_wf, Hst.
  - unfold Server.post_intents.
    destruct (Json.truthy_val (Json.get req "fromAgent")); [|exact Hst].
    destruct (Json.truthy_val (Json.get req "toAgent")); [|exact Hst].
    destruct (Json.truthy_val (Json.get req "payload")) as [payload|]; [|exact Hst].
    destruct (Server.serializes rt payload); [|exact Hst].
    apply post_intents_wf, Hst.
  - destruct Hst as (Ha & Hp & Hi). unfold Server.put_intent_status.
    destruct (Api.intents st !! id) as [intent|] eqn:Hlook;
      [|split; [|split]; assumption].
    destruct (Json.truthy_val (Json.get req "status")) as [status|] eqn:Es;
      [|split; [|split]; assumption].
    apply truthy_val_truthy in Es as [_ Hs].
    destruct (Hi id intent Hlook) as (H1 & H2 & H3 & H4 & _ & H6 & H7).
    destruct (Json.truthy_val (Json.get req "result")) as [result|];
      [destruct (Server.serializes rt result)|];
      cbn [snd Api.intents Api.set_intents Api.agents Api.modelProfiles];
      (split; [exact Ha|]); (split; [exact Hp|]);
      (apply map_Forall_insert_2; [|exact Hi]);
      repeat split; assumption.
  - apply demo_setup_wf, Hst.
Qed.

Lemma server_reachable_store_wf (st : Api.Store) : Server.reachable st -> Api.store_wf st.
Proof.
  induction 1 as [|st rt r Hreach IH].
  - split; [|split]; apply map_Forall_empty.
  - apply server_handle_wf, IH.
Qed.

(** X13: the LLM proxy is a mock that needs only a prompt.  Without a
    truthy prompt it answers 400.  For a non-empty prompt of one-byte
    characters the reply it builds carries the first 100 characters of
    the prompt (the prefix of the prompt of length 100, or the whole
    prompt if shorter), the fixed response text around the first 50
    characters, the time of the call, and a token count of twice the
    number of space-separated pieces, which is even and at least 2.
    With no profile id, or one that is not stored, the reply names the
    profile "default" and the model "mock-model"; in a store the server
    can reach, a stored profile id is echoed with the profile's label as
    the model. *)
Theorem llm_call_mock (env : Api.Env) (req : Json.value) (st : Api.Store) :
  (Json.truthy_val (Json.get req "prompt") = None ->
   Api.llm_call env req st = Api.LlmRejected 400 "prompt required") /\
  (forall prompt,
     Json.get req "prompt" = Some (Json.Str prompt) -> prompt <> "" ->
     JsonText.is_ascii prompt = true ->
     exists reply,
       Api.llm_call env req st = Api.LlmReplied reply /\
       Api.reply_tokens reply = 2 * (Z.of_nat (Api.occurrences " "%char prompt) + 1) /\
       2 <= Api.reply_tokens reply /\
       (exists rest, prompt = Api.reply_prompt reply +:+ rest) /\
       String.length (Api.reply_prompt reply) = Nat.min 100 (String.length prompt) /\
       (exists head rest,
          prompt = head +:+ rest /\
          String.length head = Nat.min 50 (String.length prompt) /\
          Api.reply_response reply
          = "[Mock LLM Response] Processed: " +:+ Json.dquote +:+ head +:+ "..." +:+
            Json.dquote) /\
       Api.reply_timestamp reply = Api.isoNow env /\
       (Json.truthy_val (Json.get req "profileId") = None ->
        Api.reply_profileId reply = "default" /\
        Api.reply_model reply = Json.Str "mock-model") /\
       (forall k, Json.get req "profileId" = Some (Json.Str k) ->
                  Api.modelProfiles st !! k = None ->
        Api.reply_profileId reply = "default" /\
        Api.reply_model reply = Json.Str "mock-model") /\
       (forall k p, Server.reachable st -> k <> "" ->
                    Json.get req "profileId" = Some (Json.Str k) ->
                    Api.modelProfiles st !! k = Some p ->
        Api.reply_profileId reply = k /\
        Api.reply_model reply = Api.ModelProfile.label p)).
Proof.
  split.
  - intros H. unfold Api.llm_call. rewrite H. reflexivity.
  - intros prompt Hp Hne _. unfold Api.llm_call. rewrite Hp.
    assert (Ht : Json.truthy_val (Some (Json.Str prompt)) = Some (Json.Str prompt)).
    { unfold Json.truthy_val. simpl. destruct prompt; [contradiction | reflexivity]. }
    rewrite Ht. eexists. split; [reflexivity|]. cbn [Api.reply_tokens Api.reply_prompt
      Api.reply_profileId Api.reply_model Api.reply_response Api.reply_timestamp].
    rewrite split_on_length.
    split; [lia|]. split; [lia|].
    split; [apply prefix_of_split|]. split; [apply prefix_of_length|].
    split.
    { destruct (prefix_of_split 50 prompt) as [rest Hrest].
      exists (Api.prefix_of 50 prompt), rest.
      split; [exact Hrest|]. split; [apply prefix_of_length | reflexivity]. }
    split; [reflexivity|].
    split; [|split].
    + intros H. rewrite H. split; reflexivity.
    + intros k Hk Hnone. rewrite Hk.
      destruct (Json.truthy_val (Some (Json.Str k))) as [v|] eqn:E.
      * apply truthy_val_truthy in E as [E _]. injection E as <-.
        rewrite Hnone. split; reflexivity.
      * split; reflexivity.
    + intros k p Hreach Hk Hget Hlook. rewrite Hget.
      assert (Hkt : Json.truthy_val (Some (Json.Str k)) = Some (Json.Str k)).
      { unfold Json.truthy_val. simpl. destruct k; [contradiction | reflexivity]. }
      rewrite Hkt, Hlook.
      destruct (server_reachable_store_wf st Hreach) as (_ & Hwf & _).
      destruct (Hwf k p Hlook) as (Hid & _ & Hl & _).
      rewrite Hid. split.
      * destruct (String.eqb_spec k ""); [contradiction | reflexivity].
      * apply or_else_truthy_default_left. exact Hl.
Qed.

Lemma llm_call_mock_witness :
  let env := Api.mkEnv "unused" 1700000000500 "2023-11-14T22:13:20.500Z" in
  let rt := Server.mkRuntime env (fun v => (Server.depth v <=? 1000)%nat) in
  let st := Server.run [(rt, Api.DemoSetup)] Api.empty_store in
  let prompt := "analyze my portfolio and propose one swap that lowers its risk" in
  let req := Json.Obj [("prompt", Json.Str prompt);
                       ("profileId", Json.Str "cheap-llm-profile")] in
  Api.llm_call env (Json.Obj [("prompt", Json.Str "")]) st
    = Api.LlmRejected 400 "prompt required" /\
  JsonText.is_ascii prompt = true /\
  exists reply,
    Api.llm_call env req st = Api.LlmReplied reply /\
    Api.reply_tokens reply = 22 /\
    (exists rest, prompt = Api.reply_prompt reply +:+ rest) /\
    String.length (Api.reply_prompt reply) = 62%nat /\
    Api.reply_profileId reply = "cheap-llm-profile" /\
    Api.reply_model reply = Json.Str "cheap-llm".
Proof.
  intros env rt st prompt req. split; [|split; [reflexivity|]].
  - exact (proj1 (llm_call_mock env (Json.Obj [("prompt", Json.Str "")]) st) eq_refl).
  - assert (Hne : prompt <> "") by (intros H; discriminate H).
    destruct (proj2 (llm_call_mock env req st) prompt eq_refl Hne eq_refl)
      as (reply & Hrun & Htok & _ & Hpre & Hlen & _ & _ & _ & _ & Hknown).
    assert (Hlook : exists p, Api.modelProfiles st !! "cheap-llm-profile" = Some p /\
                              Api.ModelProfile.label p = Json.Str "cheap-llm").
    { eexists. split; [vm_compute; reflexivity | reflexivity]. }
    destruct Hlook as (p & Hlook & Hlabel).
    assert (Hk : "cheap-llm-profile" <> "") by (intros H; discriminate H).
    destruct (Hknown "cheap-llm-profile" p
                (server_reachable_run _ _ Server.reachable_start)
                Hk eq_refl Hlook) as (Hid & Hmodel).
    exists reply. split; [exact Hrun|]. split; [rewrite Htok; reflexivity|].
    split; [exact Hpre|]. split; [rewrite Hlen; reflexivity|].
    split; [exact Hid | rewrite Hmodel; exact Hlabel].
Defined.

(** ** The demo data *)

(** X14: the demo setup (re)writes its two agents and two profiles and
    nothing else: intents, and agents and profiles under other ids, are
    untouched; running it again with the same clock changes nothing; and
    afterwards each demo agent refers to a stored model profile. *)
Theorem demo_setup_resets (env : Api.Env) (st : Api.Store) :
  let st' := snd (Api.demo_setup env st) in
  Api.intents st' = Api.intents st /\
  (forall k, k <> "research-agent-1" -> k <> "execution-agent-1" ->
             Api.agents st' !! k = Api.agents st !! k) /\
  (forall k, k <> "cheap-llm-profile" -> k <> "high-accuracy-profile" ->
             Api.modelProfiles st' !! k = Api.modelProfiles st !! k) /\
  snd (Api.demo_setup env st') = st' /\
  (forall k, k = "research-agent-1" \/ k = "execution-agent-1" ->
     exists a pid p,
       Api.agents st' !! k = Some a /\
       Api.Agent.modelProfile a = Json.Str pid /\
       Api.modelProfiles st' !! pid = Some p /\
       Api.ModelProfile.id p = pid).
Proof.
  intros st'. subst st'. unfold Api.demo_setup. cbn [snd Api.intents Api.agents
    Api.modelProfiles Api.Agent.id Api.ModelProfile.id].
  split; [reflexivity|]. split; [|split; [|split]].
  - intros k H1 H2. rewrite !lookup_insert_ne by congruence. reflexivity.
  - intros k H1 H2. rewrite !lookup_insert_ne by congruence. reflexivity.
  - f_equal.
    + apply map_eq. intros k.
      destruct (decide (k = "execution-agent-1")) as [->|H1];
        [rewrite !lookup_insert_eq; reflexivity|].
      destruct (decide (k = "research-agent-1")) as [->|H2].
      * rewrite !(lookup_insert_ne _ "execution-agent-1") by congruence.
        rewrite !lookup_insert_eq. reflexivity.
      * repeat rewrite lookup_insert_ne by congruence. reflexivity.
    + apply map_eq. intros k.
      destruct (decide (k = "high-accuracy-profile")) as [->|H1];
        [rewrite !lookup_insert_eq; reflexivity|].
      destruct (decide (k = "cheap-llm-profile")) as [->|H2].
      * rewrite !(lookup_insert_ne _ "high-accuracy-profile") by congruence.
        rewrite !lookup_insert_eq. reflexivity.
      * repeat rewrite lookup_insert_ne by congruence. reflexivity.
  - intros k [->| ->].
    + eexists. exists "cheap-llm-profile". eexists.
      split; [rewrite lookup_insert_ne by (intros H; discriminate H);
              apply lookup_insert_eq|].
      split; [reflexivity|].
      split; [rewrite lookup_insert_ne by (intros H; discriminate H);
              apply lookup_insert_eq | reflexivity].
    + eexists. exists "high-accuracy-profile". eexists.
      split; [apply lookup_insert_eq|].
      split; [reflexivity|].
      split; [apply lookup_insert_eq | reflexivity].
Qed.

Lemma demo_setup_resets_witness :
  let env := Api.mkEnv "unused" 1700000000500 "2023-11-14T22:13:20.500Z" in
  let st := snd (Api.put_agent env "research-agent-1"
                   (Json.Obj [("permissions", Json.Num 31)])
                   (snd (Api.demo_setup env Api.empty_store))) in
  exists a pid p,
    Api.agents (snd (Api.demo_setup env st)) !! "research-agent-1" = Some a /\
    Api.Agent.modelProfile a = Json.Str pid /\
    Api.modelProfiles (snd (Api.demo_setup env st)) !! pid = Some p.
Proof.
  intros env st.
  destruct (proj2 (proj2 (proj2 (proj2 (demo_setup_resets env st)))) "research-agent-1")
    as (a & pid & p & H1 & H2 & H3 & _).
  - left. reflexivity.
  - exists a, pid, p. split; [exact H1 | split; [exact H2 | exact H3]].
Defined.

(* ===================================================================== *)
(** * Further properties of the controller                                *)
(* ===================================================================== *)

(** ** [processIntent] *)

Lemma string_length_append (s1 s2 : string) :
  String.length (s1 +:+ s2) = (String.length s1 + String.length s2)%nat.
Proof.
  induction s1 as [|c s1 IH]; [reflexivity|].
  change (String c s1 +:+ s2) with (String c (s1 +:+ s2)).
  simpl. rewrite IH. reflexivity.
Qed.

Ltac run_process :=
  unfold Mesh.processIntent, Mesh.bind, Mesh.gets, Mesh.emit, Mesh.throw, Mesh.lift,
    Mesh.ret, Mesh.outcome, Mesh.final, Mesh.trace.

(** [processIntent], run: the result, final state and trace of each of
    its paths. *)
Lemma processIntent_run
    (PublicKey : Type) (toBase58 : PublicKey -> string)
    (w : Mesh.World) (agentConfig : @Mesh.AgentConfig PublicKey)
    (h : @Mesh.Heap PublicKey) :
  Mesh.processIntent toBase58 w agentConfig h
  = let uri := Mesh.payloadUri (Mesh.intent h) in
    match Mesh.axios_get w uri with
    | None => (Mesh.Thrown (Mesh.AxiosError uri), h, [Mesh.HttpGet uri])
    | Some payload =>
        if negb (Buffer.equals (Mesh.payload_digest payload)
                               (Mesh.payloadHash (Mesh.intent h)))
        then (Mesh.Thrown (Mesh.Error "Payload hash mismatch"), h, [Mesh.HttpGet uri])
        else
          match Mesh.llmProviders (Mesh.this h) !! toBase58 (Mesh.modelProfile agentConfig)
          with
          | None =>
              (Mesh.Thrown (Mesh.Error "No LLM provider configured for model profile"),
               h, [Mesh.HttpGet uri])
          | Some p =>
              let line := Mesh.ConsoleLog ("[Mesh] Processing intent with LLM provider " +:+
                                           Mesh.name p) in
              match Mesh.prompt_of payload with
              | Mesh.Thrown e => (Mesh.Thrown e, h, [Mesh.HttpGet uri; line])
              | Mesh.Returned prompt =>
                  let trace := [Mesh.HttpGet uri; line; Mesh.LlmCall (Mesh.name p) prompt] in
                  match Mesh.call p prompt with
                  | Mesh.Thrown e => (Mesh.Thrown e, h, trace)
                  | Mesh.Returned text =>
                      let resultHash :=
                        Sha256.sha256 (Buffer.from_string (Json.stringify
                          (Json.Obj [("input", payload); ("output", Json.Str text);
                                     ("timestamp", Json.Num (Mesh.date_now w))]))) in
                      (Mesh.Returned
                         (resultHash,
                          "https://mesh.example.com/results/" +:+ Buffer.to_hex resultHash),
                       h, trace)
                  end
              end
          end
    end.
Proof.
  run_process. cbv zeta.
  destruct (Mesh.axios_get w (Mesh.payloadUri (Mesh.intent h))) as [payload|];
    [|reflexivity].
  destruct (negb (Buffer.equals (Mesh.payload_digest payload)
                                (Mesh.payloadHash (Mesh.intent h)))); [reflexivity|].
  destruct (Mesh.llmProviders (Mesh.this h) !! toBase58 (Mesh.modelProfile agentConfig))
    as [p|]; [|reflexivity].
  destruct (Mesh.prompt_of payload) as [prompt|e]; [|reflexivity].
  destruct (Mesh.call p prompt) as [text|e]; reflexivity.
Qed.

(** X15: whatever it is given and however it ends, [processIntent]
    leaves the controller and the intent as they were (in particular it
    never sets the status, not even on success), and its trace is the
    fetch of the intent's payload locator, then possibly one console
    line, then possibly one LLM call: the backend is called at most once
    and never before the payload has been fetched. *)
Theorem processIntent_trace_shape
    (PublicKey : Type) (toBase58 : PublicKey -> string)
    (w : Mesh.World) (agentConfig : @Mesh.AgentConfig PublicKey)
    (h : @Mesh.Heap PublicKey) :
  let r := Mesh.processIntent toBase58 w agentConfig h in
  Mesh.final r = h /\
  (Mesh.trace r = [Mesh.HttpGet (Mesh.payloadUri (Mesh.intent h))] \/
   (exists line,
      Mesh.trace r = [Mesh.HttpGet (Mesh.payloadUri (Mesh.intent h)); Mesh.ConsoleLog line]) \/
   (exists line provider prompt,
      Mesh.trace r = [Mesh.HttpGet (Mesh.payloadUri (Mesh.intent h)); Mesh.ConsoleLog line;
                      Mesh.LlmCall provider prompt])).
Proof.
  intros r. subst r. run_process.
  destruct (Mesh.axios_get w (Mesh.payloadUri (Mesh.intent h))) as [payload|];
    [|simpl; split; [reflexivity | left; reflexivity]].
  destruct (negb (Buffer.equals (Mesh.payload_digest payload)
                                (Mesh.payloadHash (Mesh.intent h))));
    [simpl; split; [reflexivity | left; reflexivity]|].
  destruct (Mesh.llmProviders (Mesh.this h) !! toBase58 (Mesh.modelProfile agentConfig))
    as [p|]; [|simpl; split; [reflexivity | left; reflexivity]].
  destruct (Mesh.prompt_of payload) as [prompt|e];
    [|simpl; split; [reflexivity | right; left; eexists; reflexivity]].
  destruct (Mesh.call p prompt) as [text|e]; simpl;
    (split; [reflexivity | right; right; eexists; eexists; eexists; reflexivity]).
Qed.

(** X16: the failures before the backend.  When the fetch of the payload
    fails the request error is thrown; when the payload is intact but no
    provider is registered under the base58 form of the agent's model
    profile, the no-provider error is thrown.  In both cases the trace is
    the fetch alone, so no backend was called. *)
Theorem processIntent_early_failures
    (PublicKey : Type) (toBase58 : PublicKey -> string)
    (w : Mesh.World) (agentConfig : @Mesh.AgentConfig PublicKey)
    (h : @Mesh.Heap PublicKey) :
  let r := Mesh.processIntent toBase58 w agentConfig h in
  (Mesh.axios_get w (Mesh.payloadUri (Mesh.intent h)) = None ->
   Mesh.outcome r = Mesh.Thrown (Mesh.AxiosError (Mesh.payloadUri (Mesh.intent h))) /\
   Mesh.trace r = [Mesh.HttpGet (Mesh.payloadUri (Mesh.intent h))]) /\
  (forall payload,
     Mesh.axios_get w (Mesh.payloadUri (Mesh.intent h)) = Some payload ->
     Mesh.payload_digest payload = Mesh.payloadHash (Mesh.intent h) ->
     Mesh.llmProviders (Mesh.this h) !! toBase58 (Mesh.modelProfile agentConfig) = None ->
     Mesh.outcome r
       = Mesh.Thrown (Mesh.Error "No LLM provider configured for model profile") /\
     Mesh.trace r = [Mesh.HttpGet (Mesh.payloadUri (Mesh.intent h))]).
Proof.
  intros r. subst r. split.
  - intros Hget. run_process. rewrite Hget. simpl. split; reflexivity.
  - intros payload Hget Hd Hnone. run_process. rewrite Hget.
    unfold Buffer.equals. rewrite bool_decide_eq_true_2 by exact Hd.
    cbn [negb]. rewrite Hnone. simpl. split; reflexivity.
Qed.

Lemma processIntent_early_failures_witness :
  let body := Json.Obj [("prompt", Json.Str "rebalance")] in
  let i := Mesh.mkIntentData "A" "B" 1 Mesh.Accepted (Mesh.payload_digest body)
             "https://mesh.example.com/payloads/1" 0 "USDC" [] "" in
  let h := Mesh.mkHeap (Mesh.mkController ∅) i in
  let cfg := Mesh.mkAgentConfig "owner" "B" "P" "" 16 in
  Mesh.outcome (Mesh.processIntent (fun k : string => k)
                  (Mesh.mkWorld (fun _ => None) 1700000000000) cfg h)
    = Mesh.Thrown (Mesh.AxiosError "https://mesh.example.com/payloads/1") /\
  Mesh.outcome (Mesh.processIntent (fun k : string => k)
                  (Mesh.mkWorld (fun _ => Some body) 1700000000000) cfg h)
    = Mesh.Thrown (Mesh.Error "No LLM provider configured for model profile").
Proof.
  intros body i h cfg. split.
  - exact (proj1 (proj1 (processIntent_early_failures string (fun k => k)
                           (Mesh.mkWorld (fun _ => None) 1700000000000) cfg h) eq_refl)).
  - exact (proj1 (proj2 (processIntent_early_failures string (fun k => k)
                           (Mesh.mkWorld (fun _ => Some body) 1700000000000) cfg h)
                    body eq_refl eq_refl eq_refl)).
Defined.

(** X17: the successful path, from registration on.  After
    [registerLLMProvider] under the base58 form of the agent's model
    profile, processing an intent with an intact, non-null payload calls
    that provider exactly once, with the payload's truthy [prompt]
    property or else the serialized payload.  If the provider answers
    with a text, the result digest is the SHA-256 (32 bytes) of the
    serialization of input, output and timestamp, in that order, and the
    result locator is the fixed prefix followed by the 64 hexadecimal
    characters of that digest. *)
Theorem processIntent_success
    (PublicKey : Type) (toBase58 : PublicKey -> string)
    (w : Mesh.World) (agentConfig : @Mesh.AgentConfig PublicKey)
    (c : Mesh.Controller) (i : @Mesh.IntentData PublicKey)
    (provider : Mesh.LLMProvider) (payload : Json.value) (text : string) :
  Mesh.axios_get w (Mesh.payloadUri i) = Some payload ->
  Mesh.payload_digest payload = Mesh.payloadHash i ->
  payload <> Json.Null ->
  Mesh.call provider (Json.or_else (Json.get payload "prompt")
                                   (Json.Str (Json.stringify payload)))
    = Mesh.Returned text ->
  let c' := Mesh.final (Mesh.registerLLMProvider
                          (toBase58 (Mesh.modelProfile agentConfig)) provider c) in
  let r := Mesh.processIntent toBase58 w agentConfig (Mesh.mkHeap c' i) in
  let resultHash :=
    Sha256.sha256 (Buffer.from_string (Json.stringify
      (Json.Obj [("input", payload); ("output", Json.Str text);
                 ("timestamp", Json.Num (Mesh.date_now w))]))) in
  Mesh.outcome r
    = Mesh.Returned (resultHash,
                     "https://mesh.example.com/results/" +:+ Buffer.to_hex resultHash) /\
  length resultHash = 32%nat /\
  String.length ("https://mesh.example.com/results/" +:+ Buffer.to_hex resultHash) = 97%nat /\
  Mesh.trace r
    = [Mesh.HttpGet (Mesh.payloadUri i);
       Mesh.ConsoleLog ("[Mesh] Processing intent with LLM provider " +:+ Mesh.name provider);
       Mesh.LlmCall (Mesh.name provider)
         (Json.or_else (Json.get payload "prompt") (Json.Str (Json.stringify payload)))] /\
  Mesh.final r = Mesh.mkHeap c' i.
Proof.
  intros Hget Hd Hnn Hcall c' r resultHash.
  assert (Hprompt : Mesh.prompt_of payload
                    = Mesh.Returned (Json.or_else (Json.get payload "prompt")
                                                  (Json.Str (Json.stringify payload)))).
  { destruct payload; try reflexivity. contradiction. }
  assert (Hlen : String.length ("https://mesh.example.com/results/" +:+ Buffer.to_hex resultHash)
                 = 97%nat).
  { rewrite string_length_append, to_hex_length.
    subst resultHash. rewrite sha256_length. reflexivity. }
  subst r c'. run_process.
  cbn [Mesh.intent Mesh.this Mesh.payloadUri Mesh.payloadHash]. rewrite Hget.
  unfold Buffer.equals. rewrite bool_decide_eq_true_2 by exact Hd. cbn [negb].
  unfold Mesh.registerLLMProvider. cbn [fst snd Mesh.this Mesh.llmProviders].
  rewrite lookup_insert_eq. rewrite Hprompt, Hcall. cbn [fst snd app].
  split; [reflexivity|]. split; [subst resultHash; apply sha256_length|].
  split; [exact Hlen|]. split; reflexivity.
Qed.

Lemma processIntent_success_witness :
  let payload := Json.Obj [("action", Json.Str "swap"); ("amount", Json.Num 1000000000)] in
  let i := Mesh.mkIntentData "A" "B" 1 Mesh.Accepted (Mesh.payload_digest payload)
             "https://mesh.example.com/payloads/1" 0 "USDC" [] "" in
  let llm := Mesh.mkLLMProvider "mock-llm" (fun _ => Mesh.Returned "ok") in
  let w := Mesh.mkWorld (fun _ => Some payload) 1700000000000 in
  let cfg := Mesh.mkAgentConfig "owner" "B" "P" "" 16 in
  let c' := Mesh.final (Mesh.registerLLMProvider "P" llm (Mesh.mkController ∅)) in
  Mesh.trace (Mesh.processIntent (fun k : string => k) w cfg (Mesh.mkHeap c' i))
  = [Mesh.HttpGet "https://mesh.example.com/payloads/1";
     Mesh.ConsoleLog ("[Mesh] Processing intent with LLM provider " +:+ "mock-llm");
     Mesh.LlmCall "mock-llm"
       (Json.or_else (Json.get payload "prompt") (Json.Str (Json.stringify payload)))].
Proof.
  intros payload i llm w cfg c'.
  assert (Hnn : payload <> Json.Null) by (intros H; discriminate H).
  exact (proj1 (proj2 (proj2 (proj2
           (processIntent_success string (fun k => k) w cfg (Mesh.mkController ∅) i llm
              payload "ok" eq_refl eq_refl Hnn eq_refl))))).
Defined.

(** X18: a backend failure is passed on as it is.  When the provider
    rejects, [processIntent] throws the provider's error after exactly
    one LLM call; it does not retry, and the intent, its status
    included, is left as it was (nothing is marked as failed). *)
Theorem processIntent_backend_failure
    (PublicKey : Type) (toBase58 : PublicKey -> string)
    (w : Mesh.World) (agentConfig : @Mesh.AgentConfig PublicKey)
    (h : @Mesh.Heap PublicKey) (provider : Mesh.LLMProvider)
    (payload prompt : Json.value) (e : Mesh.Exn) :
  Mesh.axios_get w (Mesh.payloadUri (Mesh.intent h)) = Some payload ->
  Mesh.payload_digest payload = Mesh.payloadHash (Mesh.intent h) ->
  Mesh.llmProviders (Mesh.this h) !! toBase58 (Mesh.modelProfile agentConfig)
    = Some provider ->
  Mesh.prompt_of payload = Mesh.Returned prompt ->
  Mesh.call provider prompt = Mesh.Thrown e ->
  let r := Mesh.processIntent toBase58 w agentConfig h in
  Mesh.outcome r = Mesh.Thrown e /\
  length (List.filter Mesh.is_llm_call (Mesh.trace r)) = 1%nat /\
  Mesh.final r = h /\
  Mesh.status (Mesh.intent (Mesh.final r)) = Mesh.status (Mesh.intent h).
Proof.
  intros Hget Hd Hp Hprompt Hcall r. subst r. run_process. rewrite Hget.
  unfold Buffer.equals. rewrite bool_decide_eq_true_2 by exact Hd. cbn [negb].
  rewrite Hp, Hprompt, Hcall. cbn [fst snd app].
  repeat split.
Qed.

Lemma processIntent_backend_failure_witness :
  let payload := Json.Obj [("prompt", Json.Str "rebalance")] in
  let i := Mesh.mkIntentData "A" "B" 1 Mesh.Accepted (Mesh.payload_digest payload)
             "https://mesh.example.com/payloads/1" 0 "USDC" [] "" in
  let llm := Mesh.mkLLMProvider "mock-llm"
               (fun _ => Mesh.Thrown (Mesh.Error "backend unavailable")) in
  let h := Mesh.mkHeap (Mesh.mkController {["P" := llm]}) i in
  let w := Mesh.mkWorld (fun _ => Some payload) 1700000000000 in
  let cfg := Mesh.mkAgentConfig "owner" "B" "P" "" 16 in
  let r := Mesh.processIntent (fun k : string => k) w cfg h in
  Mesh.outcome r = Mesh.Thrown (Mesh.Error "backend unavailable") /\
  Mesh.status (Mesh.intent (Mesh.final r)) = Mesh.Accepted.
Proof.
  intros payload i llm h w cfg r.
  destruct (processIntent_backend_failure string (fun k => k) w cfg h llm payload
              (Json.Str "rebalance") (Mesh.Error "backend unavailable")
              eq_refl eq_refl eq_refl eq_refl eq_refl) as (H1 & _ & _ & H4).
  split; [exact H1 | exact H4].
Defined.

(** X19: [processIntent] looks at nothing of the intent but its payload
    locator and payload digest.  Two intents that agree on these, with
    the same controller, world and agent, are processed with the same
    outcome and the same trace, whatever their status ([Pending],
    [Completed] and [Failed] intents are processed like [Accepted]
    ones), nonce, parties or payment. *)
Theorem processIntent_ignores_status
    (PublicKey : Type) (toBase58 : PublicKey -> string)
    (w : Mesh.World) (agentConfig : @Mesh.AgentConfig PublicKey)
    (c : Mesh.Controller) (i1 i2 : @Mesh.IntentData PublicKey) :
  Mesh.payloadUri i1 = Mesh.payloadUri i2 ->
  Mesh.payloadHash i1 = Mesh.payloadHash i2 ->
  Mesh.outcome (Mesh.processIntent toBase58 w agentConfig (Mesh.mkHeap c i1))
  = Mesh.outcome (Mesh.processIntent toBase58 w agentConfig (Mesh.mkHeap c i2)) /\
  Mesh.trace (Mesh.processIntent toBase58 w agentConfig (Mesh.mkHeap c i1))
  = Mesh.trace (Mesh.processIntent toBase58 w agentConfig (Mesh.mkHeap c i2)).
Proof.
  intros Hu Hh. rewrite !processIntent_run. cbv zeta.
  unfold Mesh.outcome, Mesh.trace. cbn [Mesh.intent Mesh.this]. rewrite Hu, Hh.
  destruct (Mesh.axios_get w (Mesh.payloadUri i2)) as [payload|];
    [|split; reflexivity].
  destruct (negb (Buffer.equals (Mesh.payload_digest payload) (Mesh.payloadHash i2)));
    [split; reflexivity|].
  destruct (Mesh.llmProviders c !! toBase58 (Mesh.modelProfile agentConfig)) as [p|];
    [|split; reflexivity].
  destruct (Mesh.prompt_of payload) as [prompt|e]; [|split; reflexivity].
  destruct (Mesh.call p prompt) as [text|e]; split; reflexivity.
Qed.

Lemma processIntent_ignores_status_witness :
  let payload := Json.Obj [("prompt", Json.Str "rebalance")] in
  let accepted := Mesh.mkIntentData "A" "B" 1 Mesh.Accepted (Mesh.payload_digest payload)
                    "https://mesh.example.com/payloads/1" 0 "USDC" [] "" in
  let completed := Mesh.mkIntentData "A" "B" 1 Mesh.Completed (Mesh.payload_digest payload)
                     "https://mesh.example.com/payloads/1" 0 "USDC" [] "" in
  let llm := Mesh.mkLLMProvider "mock-llm" (fun _ => Mesh.Returned "ok") in
  let c := Mesh.mkController {["P" := llm]} in
  let w := Mesh.mkWorld (fun _ => Some payload) 1700000000000 in
  let cfg := Mesh.mkAgentConfig "owner" "B" "P" "" 16 in
  Mesh.trace (Mesh.processIntent (fun k : string => k) w cfg (Mesh.mkHeap c completed))
  = Mesh.trace (Mesh.processIntent (fun k : string => k) w cfg (Mesh.mkHeap c accepted)).
Proof.
  intros payload accepted completed llm c w cfg.
  exact (proj2 (processIntent_ignores_status string (fun k => k) w cfg c
                  completed accepted eq_refl eq_refl)).
Defined.

(** X20: a payload that is JSON [null].  When the fetched body is [null]
    and the stored digest is the digest of its serialization, the
    integrity check passes and a provider is looked up, but reading the
    prompt of [null] throws a type error: the backend is not called. *)
Theorem processIntent_null_payload
    (PublicKey : Type) (toBase58 : PublicKey -> string)
    (w : Mesh.World) (agentConfig : @Mesh.AgentConfig PublicKey)
    (h : @Mesh.Heap PublicKey) (provider : Mesh.LLMProvider) :
  Mesh.axios_get w (Mesh.payloadUri (Mesh.intent h)) = Some Json.Null ->
  Mesh.payloadHash (Mesh.intent h) = Sha256.sha256 (Buffer.from_string "null") ->
  Mesh.llmProviders (Mesh.this h) !! toBase58 (Mesh.modelProfile agentConfig)
    = Some provider ->
  let r := Mesh.processIntent toBase58 w agentConfig h in
  Mesh.outcome r
    = Mesh.Thrown (Mesh.TypeError "Cannot read properties of null (reading 'prompt')") /\
  Mesh.no_llm_call (Mesh.trace r) /\
  Mesh.final r = h.
Proof.
  intros Hget Hh Hp r. subst r. run_process. rewrite Hget.
  unfold Buffer.equals. rewrite bool_decide_eq_true_2 by (symmetry; exact Hh).
  cbn [negb]. rewrite Hp. cbn [Mesh.prompt_of fst snd app].
  repeat split.
Qed.

Lemma processIntent_null_payload_witness :
  let i := Mesh.mkIntentData "A" "B" 1 Mesh.Accepted
             (Sha256.sha256 (Buffer.from_string "null"))
             "https://mesh.example.com/payloads/1" 0 "USDC" [] "" in
  let llm := Mesh.mkLLMProvider "mock-llm" (fun _ => Mesh.Returned "ok") in
  let h := Mesh.mkHeap (Mesh.mkController {["P" := llm]}) i in
  let w := Mesh.mkWorld (fun _ => Some Json.Null) 1700000000000 in
  let cfg := Mesh.mkAgentConfig "owner" "B" "P" "" 16 in
  Mesh.outcome (Mesh.processIntent (fun k : string => k) w cfg h)
  = Mesh.Thrown (Mesh.TypeError "Cannot read properties of null (reading 'prompt')").
Proof.
  intros i llm h w cfg.
  exact (proj1 (processIntent_null_payload string (fun k => k) w cfg h llm
                  eq_refl eq_refl eq_refl)).
Defined.

(** ** [executeAction] *)





(** X22: the permission tests read single bits of the mask, for every
    integer mask, also one that does not fit 32 bits: testing CAN_SWAP,
    CAN_TRANSFER, CAN_VOTE, CAN_CREATE_INTENT and CAN_ACCEPT_INTENT with
    [mask & flag] gives zero exactly when bit 0, 1, 2, 3 and 4 of the
    mask is clear.  The five flags are the distinct powers of two 1, 2,
    4, 8 and 16, so no flag implies another. *)
Theorem permission_flags_test_bits (mask : Z) :
  (Mesh.bit_and mask Mesh.Permission.CAN_SWAP =? 0) = negb (Z.testbit mask 0) /\
  (Mesh.bit_and mask Mesh.Permission.CAN_TRANSFER =? 0) = negb (Z.testbit mask 1) /\
  (Mesh.bit_and mask Mesh.Permission.CAN_VOTE =? 0) = negb (Z.testbit mask 2) /\
  (Mesh.bit_and mask Mesh.Permission.CAN_CREATE_INTENT =? 0) = negb (Z.testbit mask 3) /\
  (Mesh.bit_and mask Mesh.Permission.CAN_ACCEPT_INTENT =? 0) = negb (Z.testbit mask 4) /\
  [Mesh.Permission.CAN_SWAP; Mesh.Permission.CAN_TRANSFER; Mesh.Permission.CAN_VOTE;
   Mesh.Permission.CAN_CREATE_INTENT; Mesh.Permission.CAN_ACCEPT_INTENT]
  = [2 ^ 0; 2 ^ 1; 2 ^ 2; 2 ^ 3; 2 ^ 4].
Proof.
  unfold Mesh.Permission.CAN_SWAP, Mesh.Permission.CAN_TRANSFER, Mesh.Permission.CAN_VOTE,
    Mesh.Permission.CAN_CREATE_INTENT, Mesh.Permission.CAN_ACCEPT_INTENT.
  repeat (split; [apply bit_and_flag; lia|]).
  reflexivity.
Qed.

(** ** Address derivation *)

Lemma writeBigUInt64LE_range (v : Z) (nb : list Z) :
  Buffer.writeBigUInt64LE v = Some nb -> 0 <= v < 2 ^ 64.
Proof.
  unfold Buffer.writeBigUInt64LE.
  destruct ((0 <=? v) && (v <? 2 ^ 64)) eqn:E; [|discriminate].
  intros _. apply andb_prop in E as [H1 H2].
  apply Z.leb_le in H1. apply Z.ltb_lt in H2. split; assumption.
Qed.

Lemma writeBigUInt64LE_inj (v1 v2 : Z) (nb : list Z) :
  Buffer.writeBigUInt64LE v1 = Some nb -> Buffer.writeBigUInt64LE v2 = Some nb -> v1 = v2.
Proof.
  intros H1 H2.
  destruct (writeBigUInt64LE_spec v1 (writeBigUInt64LE_range v1 nb H1))
    as (nb1 & Hw1 & _ & _ & Hr1 & _).
  destruct (writeBigUInt64LE_spec v2 (writeBigUInt64LE_range v2 nb H2))
    as (nb2 & Hw2 & _ & _ & Hr2 & _).
  rewrite H1 in Hw1. rewrite H2 in Hw2.
  injection Hw1 as <-. injection Hw2 as <-.
  rewrite <- Hr1. exact Hr2.
Qed.

(** X23: the seeds of an intent address determine the intent.  Two
    derivations that hand the same seed list to the address function
    have the same source bytes, the same destination bytes and the same
    nonce; hence swapping source and destination, or changing the nonce,
    changes the derivation input.  A nonce outside [0, 2^64) makes
    [getIntentPDA] throw before the address function is reached. *)
Theorem intent_seeds_injective
    (PublicKey : Type) (toBuffer : PublicKey -> list Z)
    (findProgramAddressSync : list (list Z) -> PublicKey -> option (PublicKey * Z))
    (PROGRAM_ID : PublicKey)
    (from to : PublicKey) (nonce : Z) :
  (forall from' to' nonce' seeds,
     Mesh.intent_seeds toBuffer from to nonce = Some seeds ->
     Mesh.intent_seeds toBuffer from' to' nonce' = Some seeds ->
     toBuffer from = toBuffer from' /\ toBuffer to = toBuffer to' /\ nonce = nonce') /\
  (forall seeds,
     Mesh.intent_seeds toBuffer from to nonce = Some seeds ->
     Mesh.getIntentPDA toBuffer findProgramAddressSync PROGRAM_ID from to nonce
     = findProgramAddressSync seeds PROGRAM_ID) /\
  (nonce < 0 \/ 2 ^ 64 <= nonce ->
   Mesh.intent_seeds toBuffer from to nonce = None /\
   Mesh.getIntentPDA toBuffer findProgramAddressSync PROGRAM_ID from to nonce = None).
Proof.
  split; [|split].
  - intros from' to' nonce' seeds H1 H2. unfold Mesh.intent_seeds in H1, H2.
    destruct (Buffer.writeBigUInt64LE nonce) as [nb|] eqn:E1; [|discriminate H1].
    destruct (Buffer.writeBigUInt64LE nonce') as [nb'|] eqn:E2; [|discriminate H2].
    injection H1 as <-. injection H2 as Hf Ht Hn.
    subst nb'. split; [symmetry; exact Hf|]. split; [symmetry; exact Ht|].
    exact (writeBigUInt64LE_inj nonce nonce' nb E1 E2).
  - intros seeds H. unfold Mesh.getIntentPDA. rewrite H. reflexivity.
  - intros Hout.
    assert (Hnone : Mesh.intent_seeds toBuffer from to nonce = None).
    { unfold Mesh.intent_seeds, Buffer.writeBigUInt64LE.
      destruct ((0 <=? nonce) && (nonce <? 2 ^ 64)) eqn:E; [|reflexivity].
      apply andb_prop in E as [H1 H2].
      apply Z.leb_le in H1. apply Z.ltb_lt in H2. lia. }
    split; [exact Hnone|]. unfold Mesh.getIntentPDA. rewrite Hnone. reflexivity.
Qed.

Lemma intent_seeds_injective_witness :
  (forall seeds,
     Mesh.intent_seeds (fun k : list Z => k) [7] [9] 1700000000000 = Some seeds ->
     Mesh.intent_seeds (fun k : list Z => k) [9] [7] 1700000000000 = Some seeds ->
     [7] = [9]) /\
  Mesh.getIntentPDA (fun k : list Z => k) (fun seeds _ => Some (concat seeds, 255)) []
    [7] [9] (-1) = None.
Proof.
  split.
  - intros seeds H1 H2.
    exact (proj1 (proj1 (intent_seeds_injective (list Z) (fun k => k)
                           (fun seeds _ => Some (concat seeds, 255)) []
                           [7] [9] 1700000000000)
                    [9] [7] 1700000000000 seeds H1 H2)).
  - apply (proj2 (proj2 (intent_seeds_injective (list Z) (fun k => k)
                           (fun seeds _ => Some (concat seeds, 255)) [] [7] [9] (-1)))).
    left. lia.
Defined.

(** X24: the three kinds of address are derived from separate name
    spaces.  [getAgentPDA], [getModelProfilePDA] and [getIntentPDA] hand
    the address function seed lists that start with the tags "agent",
    "model_profile" and "intent" and have two, three and four seeds, so
    the derivation input of one kind never equals that of another,
    whatever the identities, discriminator and nonce. *)
Theorem pda_seeds_are_namespaced
    (PublicKey : Type) (toBuffer : PublicKey -> list Z)
    (findProgramAddressSync : list (list Z) -> PublicKey -> option (PublicKey * Z))
    (PROGRAM_ID : PublicKey)
    (owner owner' from to : PublicKey) (profileId : list Z) (nonce : Z) :
  Mesh.getAgentPDA toBuffer findProgramAddressSync PROGRAM_ID owner
    = findProgramAddressSync (Mesh.agent_seeds toBuffer owner) PROGRAM_ID /\
  Mesh.getModelProfilePDA toBuffer findProgramAddressSync PROGRAM_ID owner' profileId
    = findProgramAddressSync (Mesh.model_profile_seeds toBuffer owner' profileId) PROGRAM_ID /\
  Mesh.agent_seeds toBuffer owner <> Mesh.model_profile_seeds toBuffer owner' profileId /\
  Mesh.intent_seeds toBuffer from to nonce <> Some (Mesh.agent_seeds toBuffer owner) /\
  Mesh.intent_seeds toBuffer from to nonce
    <> Some (Mesh.model_profile_seeds toBuffer owner' profileId) /\
  head (Mesh.agent_seeds toBuffer owner) = Some (Buffer.from_string "agent") /\
  head (Mesh.model_profile_seeds toBuffer owner' profileId)
    = Some (Buffer.from_string "model_profile") /\
  (forall seeds, Mesh.intent_seeds toBuffer from to nonce = Some seeds ->
                 head seeds = Some (Buffer.from_string "intent")).
Proof.
  split; [reflexivity|]. split; [reflexivity|].
  split; [intros H; discriminate H|].
  unfold Mesh.intent_seeds.
  destruct (Buffer.writeBigUInt64LE nonce) as [nb|].
  - split; [intros H; discriminate H|]. split; [intros H; discriminate H|].
    split; [reflexivity|]. split; [reflexivity|].
    intros seeds H. injection H as <-. reflexivity.
  - split; [intros H; discriminate H|]. split; [intros H; discriminate H|].
    split; [reflexivity|]. split; [reflexivity|].
    intros seeds H. discriminate H.
Qed.

Lemma pda_seeds_are_namespaced_witness :
  Mesh.intent_seeds (fun k : list Z => k) [7] [9] 1700000000000
    <> Some (Mesh.agent_seeds (fun k : list Z => k) [7]) /\
  (forall seeds,
     Mesh.intent_seeds (fun k : list Z => k) [7] [9] 1700000000000 = Some seeds ->
     head seeds = Some (Buffer.from_string "intent")).
Proof.
  destruct (pda_seeds_are_namespaced (list Z) (fun k => k)
              (fun seeds _ => Some (concat seeds, 255)) [] [7] [7] [7] [9] [1; 2]
              1700000000000) as (_ & _ & _ & H1 & _ & _ & _ & H2).
  split; [exact H1 | exact H2].
Defined.
